(** * The thermal feedback-control core of punchcard-microfluidics

    A shallow embedding of [thermal.py]: the thermistor conversion, the
    [Control] strategy family, the rate-limited [ControllerReporter] and the
    [Controller] orchestration, followed by the properties the written
    specification states about them.

    Conventions of the embedding.
    - A Python number is a rational ([Q]); [==], [<], [>=] are the numeric
      comparisons ([Qeq_bool], [Qle_bool]), so two fractions denoting the
      same number are equal for the code.  The thermistor curve needs the
      natural logarithm and is embedded over the real numbers ([R]).
    - [None] is [option]'s [None]; the tri-state latch is [option bool].
    - An exception ([TypeError], [IndexError], a dangling reference) is the
      [None] result of a function returning [option].
    - Effects on the outside world (actuator writes, file writes, prints,
      callbacks) are appended to a log of [Event]s.
    - External collaborators (the PID delegate, the wall clock, the ISO
      timestamp rendering) are parameters. *)

From Stdlib Require Import QArith Qabs ZArith Lia List Bool.
From Stdlib Require Import String Ascii DecimalString.
From Stdlib Require Import Reals Lra Lqa.
Import ListNotations.

(** ** Python numbers and comparisons *)

Module Py.

Local Open Scope Q_scope.

(** [x < y] on numbers. *)
Definition Qltb (x y : Q) : bool := negb (Qle_bool y x).

(** [a == b] where either side may be [None]. *)
Definition opt_eqb (a b : option Q) : bool :=
  match a, b with
  | None, None => true
  | Some x, Some y => Qeq_bool x y
  | _, _ => false
  end.

(** Numeric equality of optional numbers, as a proposition. *)
Definition opt_Qeq (a b : option Q) : Prop :=
  match a, b with
  | None, None => True
  | Some x, Some y => x == y
  | _, _ => False
  end.

(** [x is None]. *)
Definition is_none {A : Type} (x : option A) : bool :=
  match x with None => true | Some _ => false end.

(** The builtin [max(a, b)]: the first argument unless the second is greater. *)
Definition max (a b : Q) : Q := if Qltb a b then b else a.

(** The builtin [min(a, b)]: the first argument unless the second is smaller. *)
Definition min (a b : Q) : Q := if Qltb b a then b else a.

(** Truthiness of a string: non-empty. *)
Definition truthy (s : string) : bool :=
  match s with EmptyString => false | String _ _ => true end.

(** [sep.join(parts)]. *)
Definition join (sep : string) (parts : list string) : string :=
  String.concat sep parts.

(** [str(b)] for a bool. *)
Definition str_bool (b : bool) : string :=
  if b then "True"%string else "False"%string.

(** *** Fixed-point rendering: ['{:.df}'.format(x)]

    The value is rounded to [d] decimals, ties to even, and printed with a
    leading minus sign whenever it is negative (also when it rounds to zero). *)

Definition round_half_even (num : Z) (den : positive) : Z :=
  let q := (num / Z.pos den)%Z in
  let r := (num mod Z.pos den)%Z in
  match (2 * r ?= Z.pos den)%Z with
  | Lt => q
  | Gt => (q + 1)%Z
  | Eq => if Z.even q then q else (q + 1)%Z
  end.

Fixpoint zeros (n : nat) : string :=
  match n with O => EmptyString | S k => String "0"%char (zeros k) end.

Definition digits_of (n : Z) : string :=
  NilZero.string_of_uint (N.to_uint (Z.to_N n)).

Definition format_fixed (d : nat) (x : Q) : string :=
  let scaled := round_half_even (Z.abs (Qnum x) * 10 ^ Z.of_nat d)%Z (Qden x) in
  let ds := digits_of scaled in
  let padded := (zeros (S d - String.length ds) ++ ds)%string in
  let k := (String.length padded - d)%nat in
  let int_part := substring 0 k padded in
  let frac_part := substring k d padded in
  let sign := if Qltb x 0 then "-"%string else EmptyString in
  match d with
  | O => (sign ++ int_part)%string
  | S _ => (sign ++ int_part ++ "." ++ frac_part)%string
  end.

End Py.

(** ** The log of effects on the outside world *)

(** Where a reporter writes: a file it opened, or the process's standard
    output. *)
Inductive Sink : Type :=
| FileSink (filename : string)
| Stdout.

Inductive Event : Type :=
| AfterSetpointChange (callback : nat) (setpoint : option Q)
    (* [self.after_setpoint_change(self.setpoint)] *)
| SetState (output : nat) (effort : option Q)
    (* [output.set_state(control_effort)] *)
| PrintLine (line : string)
    (* [print(line)] *)
| OpenFile (filename : string)
    (* [open(filename, 'w')] *)
| CloseFile (filename : string)
    (* [self.file.close()] *)
| WriteHeader (sink : Sink) (line : string)
    (* [print(header_string, file=self.file)] *)
| WriteRecord (sink : Sink) (report_time : Q) (line : string).
    (* [print(report_string, file=self.file)]; [report_time] is the
       argument [report] was called with, kept beside the rendered line *)

(** ** Thermistor *)

Module Thermistor.

Local Open Scope R_scope.

Record t : Type := mk {
  reading : option R;
  referenced_reading : option R;
  bias_resistance : R;
  A : R;
  B : R;
  C : R
}.

(** [Thermistor.__init__]; the two pins are read through [read_voltage]'s
    arguments. *)
Definition init (bias_resistance A B C : R) : t :=
  mk None None bias_resistance A B C.

(** [read_voltage]: [ref] and [raw] are what the reference pin and the
    thermistor pin return from [read_raw()]. *)
Definition read_voltage (th : t) (ref raw : R) : (R * R) * t :=
  ((raw, ref - raw),
   mk (Some raw) (Some (ref - raw)) (bias_resistance th) (A th) (B th) (C th)).

Definition read_resistance (th : t) (ref raw : R) : option R * t :=
  let '((reading, referenced_reading), th') := read_voltage th ref raw in
  if Rle_dec referenced_reading 0 then (None, th')
  else (Some (reading * bias_resistance th' / referenced_reading), th').

(** The result of [read]: a measurement (possibly absent) or [ValueError]. *)
Inductive Result : Type :=
| Value (measurement : option R)
| ValueError (message : string).

(** The expression of [read], over the reals.  It is the code's value only
    where the resistance is positive and the denominator is not zero: there
    [np.log] is the logarithm and the division is a division.  At
    resistance 0 the code has [np.log(0) = -inf] (and, with positive [B]
    and [C], a temperature of 0 K, -273.15 in Celsius), below 0 it has
    [nan], and at a zero denominator [inf]; [ln] and [/] are
    total and give other values there (at resistance 0, [1 / A]), so a
    statement about the value of the temperature carries both conditions. *)
Definition steinhart_hart (th : t) (r : R) : R :=
  1 / (A th + B th * ln r + C th * (ln r) ^ 3).

Definition read (th : t) (unit : string) (ref raw : R) : Result * t :=
  let '(r, th') := read_resistance th ref raw in
  match r with
  | None => (Value None, th')
  | Some r =>
      let T_Kelvin := steinhart_hart th' r in
      if String.eqb unit "K" then (Value (Some T_Kelvin), th')
      else if String.eqb unit "C" then (Value (Some (T_Kelvin - 273.15)), th')
      else (ValueError ("Unknown temperature unit: " ++ unit), th')
  end.

(** *** The same computation in floating point

    The code computes in binary64.  Each stored constant and each
    operation of [read_voltage], [read_resistance] and [read] returns its
    exact result times [1 + d] for some small [d] (the standard model of
    floating-point arithmetic, valid while nothing overflows or
    underflows); [Roundings] names one [d] for each of them. *)

Definition rnd (d x : R) : R := x * (1 + d).

Record Roundings : Type := mkRoundings {
  d_referenced : R;   (* [ref - reading] *)
  d_product : R;      (* [reading * self.bias_resistance] *)
  d_quotient : R;     (* [... / referenced_reading] *)
  d_log : R;          (* [np.log(R)] *)
  d_power : R;        (* [np.power(np.log(R), 3)] *)
  d_A : R;            (* [self.A], as stored *)
  d_B : R;            (* [self.B], as stored *)
  d_C : R;            (* [self.C], as stored *)
  d_B_log : R;        (* [self.B * np.log(R)] *)
  d_C_power : R;      (* [self.C * np.power(...)] *)
  d_sum1 : R;         (* [self.A + ...] *)
  d_sum2 : R;         (* [... + self.C * ...] *)
  d_inverse : R;      (* [1 / (...)] *)
  d_offset : R;       (* the literal [273.15], as stored *)
  d_celsius : R       (* [T_Kelvin - 273.15] *)
}.

Definition no_rounding : Roundings :=
  mkRoundings 0 0 0 0 0 0 0 0 0 0 0 0 0 0 0.

(** Every rounding is at most [u] in absolute value. *)
Definition roundings_within (u : R) (e : Roundings) : Prop :=
  (- u <= d_referenced e <= u) /\ (- u <= d_product e <= u) /\
  (- u <= d_quotient e <= u) /\ (- u <= d_log e <= u) /\
  (- u <= d_power e <= u) /\ (- u <= d_A e <= u) /\ (- u <= d_B e <= u) /\
  (- u <= d_C e <= u) /\ (- u <= d_B_log e <= u) /\
  (- u <= d_C_power e <= u) /\ (- u <= d_sum1 e <= u) /\
  (- u <= d_sum2 e <= u) /\ (- u <= d_inverse e <= u) /\
  (- u <= d_offset e <= u) /\ (- u <= d_celsius e <= u).

(** [read('C')] past the check of the referenced reading, operation by
    operation in the order of the source, each one rounded. *)
Definition read_celsius_rounded (th : t) (e : Roundings) (ref raw : R) : R :=
  let referenced := rnd (d_referenced e) (ref - raw) in
  let r :=
    rnd (d_quotient e)
        (rnd (d_product e) (raw * bias_resistance th) / referenced) in
  let l := rnd (d_log e) (ln r) in
  let l3 := rnd (d_power e) (l ^ 3) in
  let denominator :=
    rnd (d_sum2 e)
        (rnd (d_sum1 e)
             (rnd (d_A e) (A th) + rnd (d_B_log e) (rnd (d_B e) (B th) * l))
         + rnd (d_C_power e) (rnd (d_C e) (C th) * l3)) in
  rnd (d_celsius e) (rnd (d_inverse e) (1 / denominator) - rnd (d_offset e) 273.15).

(** [x'] is within [e] of [x]. *)
Definition near (e x x' : R) : Prop := x - e <= x' <= x + e.

End Thermistor.

(** ** Feedback control: [Control] and its three strategies *)

Module Control.

Local Open Scope Q_scope.

(** The external control-law delegate ([simple_pid.PID]) as the control sees
    it: the mutable [setpoint] field, the [output_limits] it was built with,
    and its private memory (tunings, integral, last input, ...). *)
Record PID : Type := mkPID {
  pid_setpoint : option Q;
  output_limits : Q * Q;
  pid_memory : list Q
}.

(** [PID(Kp=kp, Ki=ki, Kd=kd, setpoint=..., output_limits=..., ...)]. *)
Definition PID_new (kp ki kd : Q) (setpoint : option Q) (limits : Q * Q) : PID :=
  mkPID setpoint limits [kp; ki; kd].

(** The concrete class of a control object. *)
Inductive Law : Type :=
| InfiniteGainControl
| ProportionalControl (gain : Q)
| PIDControl (pid : PID).

Record t : Type := mk {
  law : Law;
  setpoint : option Q;
  min_output : Q;
  max_output : Q;
  after_setpoint_change : option nat;   (* a callable, named by a number *)
  setpoint_reached : option bool;       (* None / False / True *)
  setpoint_reached_epsilon : Q;
  output_increases_pv : bool;
  enabled : bool
}.

(** [Control.__init__] (defaults: no setpoint, outputs in [0, 1], epsilon 0,
    output increases the process variable). *)
Definition init (l : Law) (initial_setpoint : option Q) (min_output max_output : Q)
    (setpoint_reached_epsilon : Q) (output_increases_process_variable : bool) : t :=
  mk l initial_setpoint min_output max_output None (Some false)
     setpoint_reached_epsilon output_increases_process_variable true.

Definition InfiniteGainControl_init := init InfiniteGainControl.

Definition ProportionalControl_init (gain : Q) := init (ProportionalControl gain).

(** [PIDControl.__init__]: the delegate is built after the base fields, from
    the same setpoint and bounds. *)
Definition PIDControl_init (kp ki kd : Q) (initial_setpoint : option Q)
    (min_output max_output : Q) (setpoint_reached_epsilon : Q)
    (output_increases_process_variable : bool) : t :=
  init (PIDControl (PID_new kp ki kd initial_setpoint (min_output, max_output)))
       initial_setpoint min_output max_output setpoint_reached_epsilon
       output_increases_process_variable.

(** Attribute assignments. *)
Definition with_setpoint (c : t) (v : option Q) : t :=
  mk (law c) v (min_output c) (max_output c) (after_setpoint_change c)
     (setpoint_reached c) (setpoint_reached_epsilon c) (output_increases_pv c)
     (enabled c).

Definition with_setpoint_reached (c : t) (v : option bool) : t :=
  mk (law c) (setpoint c) (min_output c) (max_output c) (after_setpoint_change c)
     v (setpoint_reached_epsilon c) (output_increases_pv c) (enabled c).

Definition with_enabled (c : t) (v : bool) : t :=
  mk (law c) (setpoint c) (min_output c) (max_output c) (after_setpoint_change c)
     (setpoint_reached c) (setpoint_reached_epsilon c) (output_increases_pv c) v.

Definition with_law (c : t) (l : Law) : t :=
  mk l (setpoint c) (min_output c) (max_output c) (after_setpoint_change c)
     (setpoint_reached c) (setpoint_reached_epsilon c) (output_increases_pv c)
     (enabled c).

Definition with_after_setpoint_change (c : t) (cb : option nat) : t :=
  mk (law c) (setpoint c) (min_output c) (max_output c) cb
     (setpoint_reached c) (setpoint_reached_epsilon c) (output_increases_pv c)
     (enabled c).

Definition reset_setpoint_reached (c : t) : t :=
  with_setpoint_reached c (Some false).

(** [Control.set_setpoint]: the new state and the callback calls made. *)
Definition Control_set_setpoint (c : t) (v : option Q) : t * list Event :=
  if Py.opt_eqb v (setpoint c) then (c, [])
  else
    let c1 := with_setpoint c v in
    let c2 := reset_setpoint_reached c1 in
    match after_setpoint_change c2 with
    | Some cb => (c2, [AfterSetpointChange cb (setpoint c2)])
    | None => (c2, [])
    end.

(** [PIDControl.set_setpoint]: the base method, then the setpoint is pushed
    into the delegate when it is present. *)
Definition PIDControl_set_setpoint (c : t) (pid : PID) (v : option Q)
    : t * list Event :=
  let '(c1, evs) := Control_set_setpoint c v in
  match setpoint c1 with
  | Some s =>
      (with_law c1 (PIDControl (mkPID (Some s) (output_limits pid) (pid_memory pid))),
       evs)
  | None => (c1, evs)
  end.

(** [control.set_setpoint(v)], dispatched on the object's class. *)
Definition set_setpoint (c : t) (v : option Q) : t * list Event :=
  match law c with
  | PIDControl pid => PIDControl_set_setpoint c pid v
  | _ => Control_set_setpoint c v
  end.

Definition enable (c : t) : t := with_enabled c true.

Definition disable (c : t) : t := with_enabled c false.

Definition compute_error (c : t) (measurement : option Q) : option Q :=
  match setpoint c, measurement with
  | Some s, Some m => Some (s - m)
  | _, _ => None
  end.

Definition compute_setpoint_reached (c : t) (measurement : option Q) : option bool :=
  match compute_error c measurement with
  | None => None
  | Some error => Some (Py.Qltb (Qabs error) (setpoint_reached_epsilon c))
  end.

Definition clamp_output (c : t) (output : Q) : Q :=
  Py.max (min_output c) (Py.min (max_output c) output).

Definition update (c : t) (measurement : option Q) : t :=
  match setpoint c with
  | None => with_setpoint_reached c None
  | Some _ =>
      match compute_setpoint_reached c measurement with
      | Some true => with_setpoint_reached c (Some true)
      | _ => c
      end
  end.

Definition InfiniteGainControl_compute_control_effort (c : t)
    (measurement : option Q) : option Q :=
  if Py.is_none (setpoint c) || negb (enabled c) then Some 0
  else if Py.is_none measurement then None
  else
    match compute_error c measurement with
    | None => None
    | Some error =>
        if output_increases_pv c then
          if Py.Qltb 0 error then Some (max_output c) else Some (min_output c)
        else
          if Py.Qltb error 0 then Some (max_output c) else Some (min_output c)
    end.

Definition ProportionalControl_compute_control_effort (c : t) (gain : Q)
    (measurement : option Q) : option Q :=
  if Py.is_none (setpoint c) || negb (enabled c) then Some 0
  else if Py.is_none measurement then None
  else
    match compute_error c measurement with
    | None => None
    | Some error =>
        let gain := if output_increases_pv c then gain else - gain in
        Some (clamp_output c (gain * error))
    end.

Section Delegate.

(** [pid(measurement)]: the delegate's output and its memory afterwards. *)
Variable pid_call : PID -> Q -> Q * list Q.

Definition PIDControl_compute_control_effort (c : t) (pid : PID)
    (measurement : option Q) : option Q * t :=
  match measurement with
  | None => (None, c)
  | Some m =>
      if Py.is_none (setpoint c) || negb (enabled c) then (Some 0, c)
      else
        let '(effort, memory) := pid_call pid m in
        (Some effort,
         with_law c (PIDControl (mkPID (pid_setpoint pid) (output_limits pid) memory)))
  end.

(** [control.compute_control_effort(measurement)], dispatched on the class:
    the effort and the control afterwards (only the PID delegate changes). *)
Definition compute_control_effort (c : t) (measurement : option Q) : option Q * t :=
  match law c with
  | InfiniteGainControl =>
      (InfiniteGainControl_compute_control_effort c measurement, c)
  | ProportionalControl gain =>
      (ProportionalControl_compute_control_effort c gain measurement, c)
  | PIDControl pid => PIDControl_compute_control_effort c pid measurement
  end.

End Delegate.

(** The operations a caller can apply to one control between and during
    ticks. *)
Inductive Op : Type :=
| OpUpdate (measurement : option Q)
| OpComputeControlEffort (measurement : option Q)
| OpSetSetpoint (v : option Q)
| OpResetSetpointReached
| OpEnable
| OpDisable.

Definition step (pid_call : PID -> Q -> Q * list Q) (c : t) (op : Op) : t :=
  match op with
  | OpUpdate m => update c m
  | OpComputeControlEffort m => snd (compute_control_effort pid_call c m)
  | OpSetSetpoint v => fst (set_setpoint c v)
  | OpResetSetpointReached => reset_setpoint_reached c
  | OpEnable => enable c
  | OpDisable => disable c
  end.

Definition run (pid_call : PID -> Q -> Q * list Q) (c : t) (ops : list Op) : t :=
  fold_left (step pid_call) ops c.

(** The delegate's setpoint mirrors the control's whenever the control has
    one: true after [PIDControl_init] and kept by every operation. *)
Definition pid_synced (c : t) : Prop :=
  match law c, setpoint c with
  | PIDControl pid, Some s => pid_setpoint pid = Some s
  | _, _ => True
  end.

(** The delegate was built with the control's bounds. *)
Definition pid_limits_agree (c : t) : Prop :=
  match law c with
  | PIDControl pid => output_limits pid = (min_output c, max_output c)
  | _ => True
  end.

(** The delegate's contract: its output lies within its [output_limits]
    (the delegate refuses limits given the wrong way round). *)
Definition pid_honours_limits (pid_call : PID -> Q -> Q * list Q) : Prop :=
  forall pid m,
    fst (output_limits pid) <= snd (output_limits pid) ->
    fst (output_limits pid) <= fst (pid_call pid m) <= snd (output_limits pid).

(** What may happen to a control during one session at setpoint [s]:
    anything but a reset of the latch or a change of the setpoint. *)
Definition keeps_session (s : Q) (op : Op) : Prop :=
  match op with
  | OpSetSetpoint v => Py.opt_eqb v (Some s) = true
  | OpResetSetpointReached => False
  | _ => True
  end.

(** Two control objects follow the same strategy with the same tuning: the
    same class, the same gain, and for the PID strategy the same limits in
    the delegate (its setpoint and memory may differ). *)
Definition same_strategy (c c' : t) : Prop :=
  match law c, law c' with
  | InfiniteGainControl, InfiniteGainControl => True
  | ProportionalControl g, ProportionalControl g' => g = g'
  | PIDControl p, PIDControl p' => output_limits p' = output_limits p
  | _, _ => False
  end.

(** What an operation never touches: the bounds, the epsilon, the direction
    of the output, the callback and the strategy. *)
Definition same_configuration (c c' : t) : Prop :=
  min_output c' = min_output c /\
  max_output c' = max_output c /\
  setpoint_reached_epsilon c' = setpoint_reached_epsilon c /\
  output_increases_pv c' = output_increases_pv c /\
  after_setpoint_change c' = after_setpoint_change c /\
  same_strategy c c'.

End Control.

(** ** The rate-limited reporter: [ControllerReporter] and [ControllerPrinter] *)

Module ControllerReporter.

Local Open Scope Q_scope.

Inductive Class : Type :=
| ControllerReporter   (* writes a CSV file *)
| ControllerPrinter.   (* writes to standard output *)

Record t : Type := mk {
  class : Class;
  interval : Q;
  start_time : option Q;
  next_report_index : option Z;
  enabled : bool;
  process_variable : string;
  process_variable_units : string;
  control_efforts : list string;
  file_prefix : string;
  file_suffix : string;
  file : option Sink
}.

(** [ControllerReporter.__init__]. *)
Definition init (interval : Q) (process_variable process_variable_units : string)
    (control_efforts : list string) (file_prefix file_suffix : string) : t :=
  mk ControllerReporter interval None None false process_variable
     process_variable_units control_efforts file_prefix file_suffix None.

(** [ControllerPrinter.__init__]: the base constructor with its defaults. *)
Definition ControllerPrinter_init (interval : Q) (control_efforts : list string) : t :=
  mk ControllerPrinter interval None None false "Temperature" "deg C"
     control_efforts "" "" None.

Definition with_timing (r : t) (start : option Q) (index : option Z) : t :=
  mk (class r) (interval r) start index (enabled r) (process_variable r)
     (process_variable_units r) (control_efforts r) (file_prefix r)
     (file_suffix r) (file r).

Definition with_enabled (r : t) (v : bool) : t :=
  mk (class r) (interval r) (start_time r) (next_report_index r) v
     (process_variable r) (process_variable_units r) (control_efforts r)
     (file_prefix r) (file_suffix r) (file r).

Definition with_file (r : t) (f : option Sink) : t :=
  mk (class r) (interval r) (start_time r) (next_report_index r) (enabled r)
     (process_variable r) (process_variable_units r) (control_efforts r)
     (file_prefix r) (file_suffix r) f.

Definition with_control_efforts (r : t) (names : list string) : t :=
  mk (class r) (interval r) (start_time r) (next_report_index r) (enabled r)
     (process_variable r) (process_variable_units r) names
     (file_prefix r) (file_suffix r) (file r).

Definition enable (r : t) : t := with_enabled r true.

Definition disable (r : t) : t := with_enabled r false.

(** [close_report]: the file reporter closes and forgets its file; the
    printer does nothing. *)
Definition close_report (r : t) : t * list Event :=
  match class r with
  | ControllerPrinter => (r, [])
  | ControllerReporter =>
      match file r with
      | Some (FileSink name) => (with_file r None, [CloseFile name])
      | Some Stdout => (with_file r None, [])
      | None => (r, [])
      end
  end.

Definition reset (r : t) : t * list Event :=
  let r1 := with_timing r None None in
  let '(r2, evs) := close_report r1 in
  (enable r2, evs).

(** [format_control_efforts]. *)
Definition format_control_efforts (efforts : list (option Q)) : string :=
  Py.join ","
    (map (fun effort =>
            match effort with
            | Some e => Py.format_fixed 2 e
            | None => EmptyString
            end) efforts).

(** The line [report] prints, given the reporter's [start_time]. *)
Definition report_string (start : Q) (report_time pv : Q) (setpoint : option Q)
    (setpoint_reached : option bool) (efforts : list (option Q)) : string :=
  let error :=
    match setpoint with
    | Some s => Some (s - pv)
    | None => None
    end in
  let control_efforts_string := format_control_efforts efforts in
  (Py.format_fixed 2 (report_time - start) ++ "," ++
   Py.format_fixed 1 pv ++ "," ++
   match setpoint with Some s => Py.format_fixed 1 s | None => "" end ++ "," ++
   match error with Some e => Py.format_fixed 1 e | None => "" end ++ "," ++
   (if Py.truthy control_efforts_string
    then control_efforts_string ++ "," else "") ++
   match setpoint_reached with Some b => Py.str_bool b | None => "" end)%string.

(** The fields of a record as the specification lists them, in order:
    elapsed seconds, process variable, setpoint, error, one field per
    control effort, and the latch.  The specification's record is these
    fields joined by commas; [report_string] above is what the code prints. *)
Definition spec_record_fields (start : Q) (report_time pv : Q) (setpoint : option Q)
    (setpoint_reached : option bool) (efforts : list (option Q)) : list string :=
  [Py.format_fixed 2 (report_time - start);
   Py.format_fixed 1 pv;
   match setpoint with Some s => Py.format_fixed 1 s | None => EmptyString end;
   match setpoint with Some s => Py.format_fixed 1 (s - pv) | None => EmptyString end]
  ++ map (fun effort =>
            match effort with
            | Some e => Py.format_fixed 2 e
            | None => EmptyString
            end) efforts
  ++ [match setpoint_reached with Some b => Py.str_bool b | None => EmptyString end].

(** [report]: fails ([None]) when called before a start time and a sink
    exist. *)
Definition report (r : t) (report_time pv : Q) (setpoint : option Q)
    (setpoint_reached : option bool) (efforts : list (option Q))
    : option (list Event) :=
  match start_time r, file r with
  | Some start, Some sink =>
      Some [WriteRecord sink report_time
              (report_string start report_time pv setpoint setpoint_reached efforts)]
  | _, _ => None
  end.

(** The header line [report_header] prints. *)
Definition header_string (r : t) : string :=
  ("Time (s)," ++
   process_variable r ++ " (" ++ process_variable_units r ++ ")," ++
   "Setpoint (" ++ process_variable_units r ++ ")," ++
   "Error (" ++ process_variable_units r ++ ")," ++
   match control_efforts r with
   | [] => ""
   | names => Py.join "," names ++ ","
   end ++
   "Setpoint Reached")%string.

Definition report_header (r : t) : option (list Event) :=
  match file r with
  | Some sink => Some [WriteHeader sink (header_string r)]
  | None => None
  end.

Section Timestamp.

(** [datetime.fromtimestamp(t).isoformat(sep='_')]. *)
Variable isoformat : Q -> string.

Definition generate_timestamp (time : Q) : string := isoformat time.

Definition generate_filename (r : t) : option string :=
  match start_time r with
  | Some start =>
      Some (file_prefix r ++ generate_timestamp start ++ file_suffix r ++ ".csv")%string
  | None => None
  end.

Definition open_report (r : t) : option (t * list Event) :=
  match class r with
  | ControllerPrinter => Some (with_file r (Some Stdout), [])
  | ControllerReporter =>
      match generate_filename r with
      | Some filename =>
          Some (with_file r (Some (FileSink filename)),
                [PrintLine ("Logging to " ++ filename ++ "..."); OpenFile filename])
      | None => None
      end
  end.

(** [update]; [current_time] is what [time.time()] returns in this call. *)
Definition update (r : t) (current_time : Q) (pv : option Q) (setpoint : option Q)
    (setpoint_reached : option bool) (efforts : list (option Q))
    : option (t * list Event) :=
  match pv with
  | None => Some (r, [])
  | Some pv =>
      if negb (enabled r) then Some (r, [])
      else
        let armed :=
          match next_report_index r with
          | None =>
              let r1 := with_timing r (Some current_time) (Some 0%Z) in
              match open_report r1 with
              | Some (r2, evs_open) =>
                  match report_header r2 with
                  | Some evs_header => Some (r2, evs_open ++ evs_header)
                  | None => None
                  end
              | None => None
              end
          | Some _ => Some (r, [])
          end in
        match armed with
        | None => None
        | Some (r3, evs) =>
            match next_report_index r3, start_time r3 with
            | Some index, Some start =>
                let next_report_time := inject_Z index * interval r3 + start in
                if Qle_bool next_report_time current_time then
                  match report r3 current_time pv setpoint setpoint_reached efforts with
                  | Some evs_report =>
                      Some (with_timing r3 (start_time r3) (Some (index + 1)%Z),
                            evs ++ evs_report)
                  | None => None
                  end
                else Some (r3, evs)
            | _, _ => None
            end
        end
  end.

(** One [update] call as the caller makes it. *)
Record Call : Type := mkCall {
  call_time : Q;
  call_pv : option Q;
  call_setpoint : option Q;
  call_setpoint_reached : option bool;
  call_efforts : list (option Q)
}.

Definition update_call (r : t) (c : Call) : option (t * list Event) :=
  update r (call_time c) (call_pv c) (call_setpoint c)
         (call_setpoint_reached c) (call_efforts c).

(** A sequence of [update] calls: the final reporter and, per call, the
    events it produced. *)
Fixpoint updates (r : t) (calls : list Call) : option (t * list (list Event)) :=
  match calls with
  | [] => Some (r, [])
  | c :: rest =>
      match update_call r c with
      | None => None
      | Some (r1, evs) =>
          match updates r1 rest with
          | None => None
          | Some (r2, evss) => Some (r2, evs :: evss)
          end
      end
  end.

End Timestamp.

(** The [report_time]s of the records in a log, in order. *)
Fixpoint record_times (evs : list Event) : list Q :=
  match evs with
  | [] => []
  | WriteRecord _ t _ :: rest => t :: record_times rest
  | _ :: rest => record_times rest
  end.

(** The record lines of a log, in order. *)
Fixpoint record_lines (evs : list Event) : list string :=
  match evs with
  | [] => []
  | WriteRecord _ _ line :: rest => line :: record_lines rest
  | _ :: rest => record_lines rest
  end.

(** What a caller can do to a reporter during a session: feed it a sample,
    enable it or disable it ([reset] ends the session). *)
Inductive Op : Type :=
| OpUpdate (c : Call)
| OpEnable
| OpDisable.

Definition step (isoformat : Q -> string) (r : t) (op : Op)
    : option (t * list Event) :=
  match op with
  | OpUpdate c => update_call isoformat r c
  | OpEnable => Some (enable r, [])
  | OpDisable => Some (disable r, [])
  end.

(** A sequence of operations: the final reporter and the events produced,
    in order. *)
Fixpoint run (isoformat : Q -> string) (r : t) (ops : list Op)
    : option (t * list Event) :=
  match ops with
  | [] => Some (r, [])
  | op :: rest =>
      match step isoformat r op with
      | None => None
      | Some (r1, evs) =>
          match run isoformat r1 rest with
          | None => None
          | Some (r2, evs') => Some (r2, evs ++ evs')
          end
      end
  end.

(** The columns of the header as the specification lists them: time,
    process variable, setpoint and error with their units, one column per
    named effort, and the latch. *)
Definition spec_header_fields (r : t) : list string :=
  ["Time (s)";
   process_variable r ++ " (" ++ process_variable_units r ++ ")";
   "Setpoint (" ++ process_variable_units r ++ ")";
   "Error (" ++ process_variable_units r ++ ")"]%string
  ++ control_efforts r
  ++ ["Setpoint Reached"%string].

(** An event is a record written to the given sink. *)
Definition is_record_to (sink : Sink) (e : Event) : Prop :=
  match e with
  | WriteRecord s _ _ => s = sink
  | _ => False
  end.

(** The sink of the session that starts at [start]: the file named after
    the start time, or standard output for the printer. *)
Definition session_sink (isoformat : Q -> string) (r : t) (start : Q) : Sink :=
  match class r with
  | ControllerPrinter => Stdout
  | ControllerReporter =>
      FileSink (file_prefix r ++ isoformat start ++ file_suffix r ++ ".csv")
  end.

(** What opening that sink does to the outside world. *)
Definition session_opening (isoformat : Q -> string) (r : t) (start : Q)
    : list Event :=
  match class r with
  | ControllerPrinter => []
  | ControllerReporter =>
      let filename :=
        (file_prefix r ++ isoformat start ++ file_suffix r ++ ".csv")%string in
      [PrintLine ("Logging to " ++ filename ++ "..."); OpenFile filename]
  end.

(** The reporter right after the first record of the session that starts at
    [start]. *)
Definition session_started (isoformat : Q -> string) (r : t) (start : Q) : t :=
  with_timing (with_file r (Some (session_sink isoformat r start)))
              (Some start) (Some 1%Z).

End ControllerReporter.

(** ** Orchestration: [Controller], [HeaterController], [HeaterFanController] *)

Module Controller.

Local Open Scope Q_scope.

(** Controls and reporters are objects shared by reference: a controller
    holds their addresses, the world holds the objects.  Outputs (actuators)
    are external: an output is a number naming it in [SetState] events. *)
Record World : Type := mkWorld {
  control_objects : list Control.t;
  reporter_objects : list ControllerReporter.t;
  log : list Event;
  clock_reads : nat    (* how many times [time.time()] has been called *)
}.

Record HeaterAttributes : Type := mkHeater {
  heater : nat;
  heater_control : nat;
  file_reporter : option nat;
  print_reporter : option nat
}.

Record FanAttributes : Type := mkFan {
  fan : nat;
  fan_control : nat;
  fan_setpoint_offset : Q
}.

Inductive Class : Type :=
| Controller
| HeaterController (h : HeaterAttributes)
| HeaterFanController (h : HeaterAttributes) (f : FanAttributes).

Record t : Type := mk {
  class : Class;
  controls : list nat;
  outputs : list nat;
  reporters : list (option nat);
  resettable_reporters : list (option nat);
  disableable_reporters : list (option nat)
}.

(** *** The world as a state with failure *)

Definition M (A : Type) : Type := World -> option (A * World).

Definition ret {A : Type} (x : A) : M A := fun w => Some (x, w).

Definition bind {A B : Type} (m : M A) (k : A -> M B) : M B :=
  fun w =>
    match m w with
    | Some (x, w1) => k x w1
    | None => None
    end.

Definition raise {A : Type} : M A := fun _ => None.

Notation "x <- m ;; k" := (bind m (fun x => k))
  (at level 61, m at next level, right associativity).
Notation "m ;;; k" := (bind m (fun _ => k))
  (at level 61, right associativity).

Fixpoint for_each {A : Type} (f : A -> M unit) (l : list A) : M unit :=
  match l with
  | [] => ret tt
  | x :: rest => f x ;;; for_each f rest
  end.

Fixpoint map_m {A B : Type} (f : A -> M B) (l : list A) : M (list B) :=
  match l with
  | [] => ret []
  | x :: rest => y <- f x ;; ys <- map_m f rest ;; ret (y :: ys)
  end.

(** Assignment to the object at an address; out of range leaves the list
    as it is (callers look the object up first). *)
Fixpoint store {A : Type} (i : nat) (x : A) (l : list A) : list A :=
  match l, i with
  | [], _ => []
  | _ :: rest, O => x :: rest
  | y :: rest, S j => y :: store j x rest
  end.

Definition get_control (ref : nat) : M Control.t :=
  fun w =>
    match nth_error (control_objects w) ref with
    | Some c => Some (c, w)
    | None => None
    end.

Definition put_control (ref : nat) (c : Control.t) : M unit :=
  fun w =>
    Some (tt, mkWorld (store ref c (control_objects w)) (reporter_objects w)
                      (log w) (clock_reads w)).

Definition get_reporter (ref : nat) : M ControllerReporter.t :=
  fun w =>
    match nth_error (reporter_objects w) ref with
    | Some r => Some (r, w)
    | None => None
    end.

Definition put_reporter (ref : nat) (r : ControllerReporter.t) : M unit :=
  fun w =>
    Some (tt, mkWorld (control_objects w) (store ref r (reporter_objects w))
                      (log w) (clock_reads w)).

Definition emit (evs : list Event) : M unit :=
  fun w =>
    Some (tt, mkWorld (control_objects w) (reporter_objects w)
                      (log w ++ evs) (clock_reads w)).

Definition lift_option {A : Type} (o : option A) : M A :=
  match o with
  | Some x => ret x
  | None => raise
  end.

(** *** Construction *)

Definition nat_to_string (n : nat) : string :=
  NilZero.string_of_uint (Nat.to_uint n).

(** [output_effort_names] of each class.  [HeaterController] and
    [HeaterFanController] return a tuple, which is the list here.  The base
    class returns a generator: the list here is what it yields the first
    time it is consumed, that is in the first header a reporter writes;
    the generator is then exhausted, and a header written after a later
    [reset] has no effort names in the code.  The properties below build
    heater controllers only. *)
Definition output_effort_names (cls : Class) (outputs : list nat) : list string :=
  match cls with
  | Controller =>
      map (fun i => ("Output " ++ nat_to_string i ++ " Effort")%string)
          (seq 0 (List.length outputs))
  | HeaterController _ => ["Heater PWM Duty"%string]
  | HeaterFanController _ _ => ["Heater PWM Duty"%string; "Fan PWM Duty"%string]
  end.

(** [Controller.__init__]: the lists are copied and every reporter is given
    the effort names of the controller's class. *)
Definition Controller_init (cls : Class) (controls outputs : list nat)
    (reporters : list (option nat)) : M t :=
  let self := mk cls controls outputs reporters reporters reporters in
  for_each
    (fun reporter : option nat =>
       match reporter with
       | Some ref =>
           r <- get_reporter ref ;;
           put_reporter ref
             (ControllerReporter.with_control_efforts r
                (output_effort_names cls outputs))
       | None => ret tt
       end) reporters ;;;
  ret self.

Definition HeaterController_init_as (cls : Class) (h : HeaterAttributes)
    (additional_controls additional_outputs : list nat) : M t :=
  Controller_init cls
    (heater_control h :: additional_controls)
    (heater h :: additional_outputs)
    [file_reporter h; print_reporter h].

Definition HeaterController_init (h : HeaterAttributes)
    (additional_controls additional_outputs : list nat) : M t :=
  HeaterController_init_as (HeaterController h) h
    additional_controls additional_outputs.

Definition HeaterFanController_init (h : HeaterAttributes) (f : FanAttributes)
    (additional_controls additional_outputs : list nat) : M t :=
  HeaterController_init_as (HeaterFanController h f) h
    (fan_control f :: additional_controls)
    (fan f :: additional_outputs).

(** *** Setpoints *)

Definition control_set_setpoint (v : option Q) (ref : nat) : M unit :=
  c <- get_control ref ;;
  let '(c1, evs) := Control.set_setpoint c v in
  put_control ref c1 ;;;
  emit evs.

Definition Controller_set_setpoint (self : t) (v : option Q) : M unit :=
  for_each (control_set_setpoint v) (controls self).

Definition HeaterFanController_set_setpoint (self : t) (f : FanAttributes)
    (v : option Q) : M unit :=
  Controller_set_setpoint self v ;;;
  match v with
  | Some s => control_set_setpoint (Some (s + fan_setpoint_offset f)) (fan_control f)
  | None => ret tt
  end.

Definition set_setpoint (self : t) (v : option Q) : M unit :=
  match class self with
  | HeaterFanController _ f => HeaterFanController_set_setpoint self f v
  | _ => Controller_set_setpoint self v
  end.

Definition first_control (self : t) : M Control.t :=
  match controls self with
  | ref :: _ => get_control ref
  | [] => raise
  end.

(** The [setpoint_reached] property. *)
Definition setpoint_reached (self : t) : M (option bool) :=
  match class self with
  | HeaterController h | HeaterFanController h _ =>
      c <- get_control (heater_control h) ;; ret (Control.setpoint_reached c)
  | Controller =>
      c <- first_control self ;; ret (Control.setpoint_reached c)
  end.

(** *** Reporters and latches *)

Definition on_reporters (f : ControllerReporter.t -> ControllerReporter.t * list Event)
    (l : list (option nat)) : M unit :=
  for_each
    (fun reporter : option nat =>
       match reporter with
       | Some ref =>
           r <- get_reporter ref ;;
           let '(r1, evs) := f r in
           put_reporter ref r1 ;;;
           emit evs
       | None => ret tt
       end) l.

Definition reset_reporters (self : t) : M unit :=
  on_reporters ControllerReporter.reset (resettable_reporters self).

Definition enable_reporters (self : t) : M unit :=
  on_reporters (fun r => (ControllerReporter.enable r, [])) (disableable_reporters self).

Definition disable_reporters (self : t) : M unit :=
  on_reporters (fun r => (ControllerReporter.disable r, [])) (disableable_reporters self).

Definition reset_controls (self : t) : M unit :=
  for_each
    (fun ref =>
       c <- get_control ref ;;
       put_control ref (Control.reset_setpoint_reached c))
    (controls self).

Definition reset (self : t) : M unit :=
  reset_reporters self ;;;
  reset_controls self.

Section Externals.

Variable pid_call : Control.PID -> Q -> Q * list Q.
Variable isoformat : Q -> string.
(** [time_time n] is what the [n]-th call of [time.time()] returns. *)
Variable time_time : nat -> Q.

Definition compute_control_efforts (self : t) (pv : Q) : M (list (option Q)) :=
  for_each
    (fun ref =>
       c <- get_control ref ;;
       put_control ref (Control.update c (Some pv)))
    (controls self) ;;;
  map_m
    (fun ref =>
       c <- get_control ref ;;
       let '(effort, c1) := Control.compute_control_effort pid_call c (Some pv) in
       put_control ref c1 ;;;
       ret effort)
    (controls self).

(** One reporter's [update] inside the world: the clock is read only once
    the reporter has accepted the sample. *)
Definition reporter_update (ref : nat) (pv : Q) (setpoint : option Q)
    (reached : option bool) (efforts : list (option Q)) : M unit :=
  r <- get_reporter ref ;;
  fun w =>
    let now := time_time (clock_reads w) in
    match ControllerReporter.update isoformat r now (Some pv) setpoint reached efforts with
    | Some (r1, evs) =>
        Some (tt,
              mkWorld (control_objects w) (store ref r1 (reporter_objects w))
                      (log w ++ evs)
                      (if ControllerReporter.enabled r
                       then S (clock_reads w) else clock_reads w))
    | None => None
    end.

Definition report (self : t) (pv : Q) (efforts : list (option Q)) : M unit :=
  for_each
    (fun reporter : option nat =>
       match reporter with
       | Some ref =>
           c <- first_control self ;;
           reporter_update ref pv (Control.setpoint c)
                           (Control.setpoint_reached c) efforts
       | None => ret tt
       end) (reporters self).

(** [update]; [reading] is what [self.process_variable.read()] returns. *)
Definition update (self : t) (reading : option Q)
    : M (option Q * list (option Q)) :=
  match reading with
  | None => ret (None, [None])
  | Some pv =>
      efforts <- compute_control_efforts self pv ;;
      emit (map (fun '(output, effort) => SetState output effort)
                (combine (outputs self) efforts)) ;;;
      report self pv efforts ;;;
      ret (Some pv, efforts)
  end.

End Externals.

(** Every address a controller holds names an object of the world. *)
Definition controls_valid (self : t) (w : World) : Prop :=
  Forall (fun ref => (ref < List.length (control_objects w))%nat) (controls self).

(** Every reporter address in a list names an object of the world. *)
Definition reporters_valid (l : list (option nat)) (w : World) : Prop :=
  Forall (fun reporter : option nat =>
            match reporter with
            | Some ref => (ref < List.length (reporter_objects w))%nat
            | None => True
            end) l.

End Controller.

(** ** Concrete objects used to exercise the model *)

Module Examples.

Local Open Scope Q_scope.

(** A delegate that behaves as a clamped proportional law and remembers
    every measurement it was given. *)
Definition clamped_delegate (pid : Control.PID) (m : Q) : Q * list Q :=
  let kp := hd 0 (Control.pid_memory pid) in
  let error :=
    match Control.pid_setpoint pid with
    | Some s => s - m
    | None => 0
    end in
  (Py.max (fst (Control.output_limits pid))
          (Py.min (snd (Control.output_limits pid)) (kp * error)),
   Control.pid_memory pid ++ [m]).

Definition isoformat (t : Q) : string := Py.format_fixed 0 t.

(** A heater control toggling between 0 and 1 around 90 degrees. *)
Definition bang_bang : Control.t :=
  Control.InfiniteGainControl_init (Some 90) 0 1 (1 # 2) true.

(** The specification's proportional scenario: gain 0.1, setpoint 90. *)
Definition proportional : Control.t :=
  Control.ProportionalControl_init (1 # 10) (Some 90) 0 1 (1 # 2) true.

Definition pid : Control.t :=
  Control.PIDControl_init 2 0 0 (Some 90) 0 1 (1 # 2) true.

(** A fan held between 20% and 100% duty, with no setpoint yet. *)
Definition idle_fan : Control.t :=
  Control.InfiniteGainControl_init None (1 # 5) 1 (1 # 2) false.

(** A control whose bounds were given the wrong way round. *)
Definition swapped_bounds : Control.t :=
  Control.InfiniteGainControl_init (Some 90) 1 0 (1 # 2) true.

(** A control observed by callback number 7. *)
Definition observed : Control.t :=
  Control.with_after_setpoint_change bang_bang (Some 7%nat).

(** A file reporter with the default half-second interval, enabled. *)
Definition reporter : ControllerReporter.t :=
  ControllerReporter.enable
    (ControllerReporter.init (1 # 2) "Temperature" "deg C"
       ["Heater PWM Duty"%string] "run_" "").

(** A reporter with a one-second interval, enabled. *)
Definition slow_reporter : ControllerReporter.t :=
  ControllerReporter.enable
    (ControllerReporter.init 1 "Temperature" "deg C"
       ["Heater PWM Duty"%string] "" "").

Definition sample (time : Q) : ControllerReporter.Call :=
  ControllerReporter.mkCall time (Some 25) (Some 30) (Some false) [Some (1 # 2)].

(** A world with a heater control at address 0 and a fan control at
    address 1 (setpoint 85), one file reporter and one printer. *)
Definition fan_at_85 : Control.t :=
  Control.InfiniteGainControl_init (Some 85) 0 1 (1 # 2) false.

Definition world : Controller.World :=
  Controller.mkWorld
    [bang_bang; fan_at_85]
    [reporter; ControllerReporter.enable
                 (ControllerReporter.ControllerPrinter_init 15 ["x"%string])]
    [] 0.

Definition heater_attributes : Controller.HeaterAttributes :=
  Controller.mkHeater 0 0 (Some 0%nat) (Some 1%nat).

Definition fan_attributes : Controller.FanAttributes :=
  Controller.mkFan 1 1 (-5).

Definition heater_fan : Controller.t :=
  Controller.mk
    (Controller.HeaterFanController heater_attributes fan_attributes)
    [0%nat; 1%nat] [0%nat; 1%nat]
    [Some 0%nat; Some 1%nat] [Some 0%nat; Some 1%nat] [Some 0%nat; Some 1%nat].

Definition wall_clock (n : nat) : Q := inject_Z (Z.of_nat n) / 10.

(** The specification's thermistor: bias resistance 1960 and its
    Steinhart-Hart coefficients. *)
Definition thermistor : Thermistor.t :=
  Thermistor.init 1960%R 1.0349722e-3%R 2.2717988e-4%R 3.008424e-7%R.


(** A heater controller without reporters (the constructor's default), with
    one more output than it has controls. *)
Definition heater_only : Controller.t :=
  Controller.mk (Controller.HeaterController (Controller.mkHeater 0 0 None None))
    [0%nat] [0%nat; 5%nat] [None; None] [None; None] [None; None].

(** A controller that was given the same control object as heater control
    and as fan control. *)
Definition shared_fan_attributes : Controller.FanAttributes :=
  Controller.mkFan 1 0 (-5).

Definition heater_fan_shared : Controller.t :=
  Controller.mk
    (Controller.HeaterFanController heater_attributes shared_fan_attributes)
    [0%nat; 0%nat] [0%nat; 1%nat]
    [Some 0%nat; Some 1%nat] [Some 0%nat; Some 1%nat] [Some 0%nat; Some 1%nat].

(** A reporter in the middle of a session that started at 10 seconds. *)
Definition mid_session : ControllerReporter.t :=
  ControllerReporter.mk ControllerReporter.ControllerReporter 1 (Some 10)
    (Some 3%Z) false "Temperature" "deg C" ["Heater PWM Duty"%string]
    "run_" "" (Some (FileSink "run_10.csv")).

(** A bang-bang control built with the constructor's default epsilon 0. *)
Definition default_epsilon : Control.t :=
  Control.InfiniteGainControl_init (Some 90) 0 1 0 true.

(** A few operations on a reporter in mid-session. *)
Definition session_ops : list ControllerReporter.Op :=
  [ControllerReporter.OpUpdate (sample 20); ControllerReporter.OpEnable;
   ControllerReporter.OpUpdate (sample 20); ControllerReporter.OpDisable;
   ControllerReporter.OpUpdate (sample 30)].

End Examples.

(** * Properties *)

(** ** Comparisons and clamping *)

Section Comparisons.

Local Open Scope Q_scope.

Lemma Qltb_true (x y : Q) : Py.Qltb x y = true <-> x < y.
Proof.
  unfold Py.Qltb. rewrite negb_true_iff. split; intro H.
  - apply Qnot_le_lt. intro Hle. apply Qle_bool_iff in Hle. congruence.
  - destruct (Qle_bool y x) eqn:E; [|reflexivity].
    apply Qle_bool_iff in E. exfalso. apply (Qlt_not_le _ _ H E).
Qed.

Lemma Qltb_false (x y : Q) : Py.Qltb x y = false <-> y <= x.
Proof.
  unfold Py.Qltb. rewrite negb_false_iff. apply Qle_bool_iff.
Qed.

Lemma opt_eqb_Qeq (a b : option Q) : Py.opt_eqb a b = true <-> Py.opt_Qeq a b.
Proof.
  destruct a, b; simpl; try (split; [discriminate | contradiction]).
  - apply Qeq_bool_iff.
  - split; auto.
Qed.

Lemma opt_eqb_refl (a : option Q) : Py.opt_eqb a a = true.
Proof. destruct a; simpl; [apply Qeq_bool_refl | reflexivity]. Qed.

Lemma max_min_within (lo hi x : Q) :
  lo <= hi -> lo <= Py.max lo (Py.min hi x) <= hi.
Proof.
  intro Hle. unfold Py.max, Py.min.
  destruct (Py.Qltb x hi) eqn:E1.
  - apply Qltb_true in E1.
    destruct (Py.Qltb lo x) eqn:E2; cbv iota.
    + apply Qltb_true in E2. lra.
    + lra.
  - destruct (Py.Qltb lo hi) eqn:E2; cbv iota; lra.
Qed.

Lemma max_min_lower (lo hi x : Q) : lo <= Py.max lo (Py.min hi x).
Proof.
  unfold Py.max. destruct (Py.Qltb lo (Py.min hi x)) eqn:E; cbv iota.
  - apply Qltb_true in E. lra.
  - lra.
Qed.

End Comparisons.

(** ** The control strategies *)

Section ControlProperties.

Local Open Scope Q_scope.

Variable pid_call : Control.PID -> Q -> Q * list Q.

Lemma clamp_output_within (c : Control.t) (x : Q) :
  Control.min_output c <= Control.max_output c ->
  Control.min_output c <= Control.clamp_output c x <= Control.max_output c.
Proof. intro H. unfold Control.clamp_output. apply max_min_within, H. Qed.

(** The delegate's setpoint mirrors the control's from construction on. *)
Lemma PIDControl_init_synced kp ki kd s lo hi eps dir :
  Control.pid_synced (Control.PIDControl_init kp ki kd s lo hi eps dir) /\
  Control.pid_limits_agree (Control.PIDControl_init kp ki kd s lo hi eps dir).
Proof.
  unfold Control.pid_synced, Control.pid_limits_agree; simpl.
  destruct s; split; reflexivity.
Qed.

(** [Control.set_setpoint] in one equation. *)
Lemma Control_set_setpoint_eq (c : Control.t) (v : option Q) :
  Control.Control_set_setpoint c v =
  if Py.opt_eqb v (Control.setpoint c) then (c, [])
  else (Control.reset_setpoint_reached (Control.with_setpoint c v),
        match Control.after_setpoint_change c with
        | Some cb => [AfterSetpointChange cb v]
        | None => []
        end).
Proof.
  unfold Control.Control_set_setpoint.
  destruct (Py.opt_eqb v (Control.setpoint c)); [reflexivity|].
  simpl. destruct (Control.after_setpoint_change c); reflexivity.
Qed.

Lemma set_setpoint_fields (c : Control.t) (v : option Q) :
  let c' := fst (Control.set_setpoint c v) in
  Control.min_output c' = Control.min_output c /\
  Control.max_output c' = Control.max_output c /\
  Control.after_setpoint_change c' = Control.after_setpoint_change c /\
  Control.setpoint_reached_epsilon c' = Control.setpoint_reached_epsilon c /\
  Control.output_increases_pv c' = Control.output_increases_pv c /\
  Control.enabled c' = Control.enabled c.
Proof.
  unfold Control.set_setpoint, Control.PIDControl_set_setpoint.
  rewrite Control_set_setpoint_eq.
  destruct (Control.law c); destruct (Py.opt_eqb v (Control.setpoint c));
    simpl; try (destruct (Control.setpoint c); simpl);
    try (destruct v; simpl); repeat split.
Qed.

(** Every operation keeps the delegate in step with the control. *)
Lemma step_keeps_synced (c : Control.t) (op : Control.Op) :
  Control.pid_synced c -> Control.pid_synced (Control.step pid_call c op).
Proof.
  unfold Control.pid_synced. intro H.
  destruct op as [m | m | v | | |]; simpl.
  - unfold Control.update.
    destruct (Control.setpoint c) eqn:Es; simpl.
    + destruct (Control.compute_setpoint_reached c m) as [[|]|]; simpl;
        rewrite ?Es; exact H.
    + rewrite Es. destruct (Control.law c); exact I.
  - unfold Control.compute_control_effort.
    destruct (Control.law c) as [| g | p] eqn:El; simpl; rewrite ?El; try exact H.
    unfold Control.PIDControl_compute_control_effort.
    destruct m as [m|]; simpl; [|rewrite El; exact H].
    destruct (Py.is_none (Control.setpoint c) || negb (Control.enabled c));
      simpl; [rewrite El; exact H|].
    destruct (pid_call p m); simpl. exact H.
  - unfold Control.set_setpoint, Control.PIDControl_set_setpoint.
    rewrite Control_set_setpoint_eq.
    destruct (Control.law c) as [| g | p] eqn:El;
      destruct (Py.opt_eqb v (Control.setpoint c)) eqn:Ev; simpl;
      rewrite ?El; try exact I.
    + destruct (Control.setpoint c) eqn:Es; simpl; rewrite ?Es, ?El; auto.
    + destruct v; simpl; rewrite ?El; simpl; auto.
  - exact H.
  - exact H.
  - exact H.
Qed.

Lemma run_keeps_synced (ops : list Control.Op) (c : Control.t) :
  Control.pid_synced c -> Control.pid_synced (Control.run pid_call c ops).
Proof.
  revert c. induction ops as [|op ops IH]; intros c H; simpl; [exact H|].
  apply IH, step_keeps_synced, H.
Qed.

(** *** Bounds of the effort *)

Lemma InfiniteGainControl_effort_cases (c : Control.t) (m : option Q) (e : Q) :
  Control.setpoint c <> None -> Control.enabled c = true ->
  Control.InfiniteGainControl_compute_control_effort c m = Some e ->
  e = Control.min_output c \/ e = Control.max_output c.
Proof.
  intros Hs He. unfold Control.InfiniteGainControl_compute_control_effort.
  destruct (Control.setpoint c) eqn:Es; [|congruence].
  rewrite He. simpl.
  destruct m as [m|]; simpl; [|discriminate].
  unfold Control.compute_error. rewrite Es.
  destruct (Control.output_increases_pv c);
    match goal with |- context [Py.Qltb ?a ?b] => destruct (Py.Qltb a b) end;
    intro H; injection H as <-; auto.
Qed.

Lemma ProportionalControl_effort_within (c : Control.t) (gain : Q)
    (m : option Q) (e : Q) :
  Control.min_output c <= Control.max_output c ->
  Control.setpoint c <> None -> Control.enabled c = true ->
  Control.ProportionalControl_compute_control_effort c gain m = Some e ->
  Control.min_output c <= e <= Control.max_output c.
Proof.
  intros Hle Hs He. unfold Control.ProportionalControl_compute_control_effort.
  destruct (Control.setpoint c) eqn:Es; [|congruence].
  rewrite He. simpl.
  destruct m as [m|]; simpl; [|discriminate].
  unfold Control.compute_error. rewrite Es.
  intro H; injection H as <-. apply clamp_output_within, Hle.
Qed.

(** C1 (as the code has it): an enabled control with a setpoint and with
    [min_output <= max_output] produces only efforts within
    [[min_output, max_output]] -- for the PID strategy provided the delegate
    keeps to the limits it was built with -- and the infinite-gain strategy
    produces exactly [min_output] or [max_output]. *)
Theorem effort_within_bounds (c : Control.t) (m : option Q) (e : Q) (c' : Control.t) :
  Control.pid_honours_limits pid_call ->
  Control.pid_limits_agree c ->
  Control.min_output c <= Control.max_output c ->
  Control.setpoint c <> None ->
  Control.enabled c = true ->
  Control.compute_control_effort pid_call c m = (Some e, c') ->
  (Control.min_output c <= e <= Control.max_output c) /\
  (Control.law c = Control.InfiniteGainControl ->
   e = Control.min_output c \/ e = Control.max_output c).
Proof.
  intros Hpid Hlim Hle Hs He. unfold Control.compute_control_effort.
  destruct (Control.law c) as [| gain | pid] eqn:El.
  - intro H. injection H as H _.
    destruct (InfiniteGainControl_effort_cases c m e Hs He H) as [-> | ->];
      split; auto; lra.
  - intro H. injection H as H _. split; [|discriminate].
    eapply ProportionalControl_effort_within; eauto.
  - unfold Control.PIDControl_compute_control_effort.
    destruct m as [m|]; [|discriminate].
    destruct (Control.setpoint c) eqn:Es; [|congruence].
    rewrite He. simpl.
    destruct (pid_call pid m) as [out mem] eqn:Ecall.
    intro H. injection H as <- _. split; [|discriminate].
    unfold Control.pid_limits_agree in Hlim. rewrite El in Hlim.
    specialize (Hpid pid m). rewrite Hlim, Ecall in Hpid. simpl in Hpid.
    apply Hpid, Hle.
Qed.

(** *** Absent measurements and disabled controls *)

(** The strategies on an absent measurement: the PID strategy returns
    absent whatever the setpoint and the enabled flag are; the infinite-gain
    and proportional strategies return absent only when they have a setpoint
    and are enabled, and the number 0 otherwise.  No strategy changes the
    control. *)
Lemma effort_of_absent_measurement (c : Control.t) :
  Control.compute_control_effort pid_call c None =
  match Control.law c with
  | Control.PIDControl _ => (None, c)
  | _ =>
      (if Py.is_none (Control.setpoint c) || negb (Control.enabled c)
       then Some 0 else None, c)
  end.
Proof.
  unfold Control.compute_control_effort,
    Control.InfiniteGainControl_compute_control_effort,
    Control.ProportionalControl_compute_control_effort.
  destruct (Control.law c); simpl; try reflexivity;
    destruct (Py.is_none (Control.setpoint c) || negb (Control.enabled c));
    reflexivity.
Qed.

(** C3 (as the code has it): a disabled control returns the number 0 for
    every setpoint and every measurement, except that the PID strategy
    returns absent for an absent measurement; the control is left as it
    was. *)
Theorem disabled_effort (c : Control.t) (m : option Q) :
  Control.enabled c = false ->
  Control.compute_control_effort pid_call c m =
  match Control.law c, m with
  | Control.PIDControl _, None => (None, c)
  | _, _ => (Some 0, c)
  end.
Proof.
  intro He.
  unfold Control.compute_control_effort,
    Control.InfiniteGainControl_compute_control_effort,
    Control.ProportionalControl_compute_control_effort,
    Control.PIDControl_compute_control_effort.
  rewrite He, orb_true_r.
  destruct (Control.law c); destruct m; reflexivity.
Qed.

(** *** The setpoint-reached latch *)

Lemma step_keeps_latch (s : Q) (c : Control.t) (op : Control.Op) :
  Control.setpoint c = Some s ->
  Control.setpoint_reached c = Some true ->
  Control.keeps_session s op ->
  Control.setpoint (Control.step pid_call c op) = Some s /\
  Control.setpoint_reached (Control.step pid_call c op) = Some true.
Proof.
  intros Hs Hr Hop. destruct op as [m | m | v | | |]; simpl in *.
  - unfold Control.update. rewrite Hs.
    destruct (Control.compute_setpoint_reached c m) as [[|]|]; simpl; auto.
  - unfold Control.compute_control_effort, Control.PIDControl_compute_control_effort.
    destruct (Control.law c) as [| g | p]; simpl; auto.
    destruct m as [m|]; simpl; auto.
    destruct (Py.is_none (Control.setpoint c) || negb (Control.enabled c));
      simpl; auto.
    destruct (pid_call p m); simpl; auto.
  - unfold Control.set_setpoint, Control.PIDControl_set_setpoint.
    rewrite Control_set_setpoint_eq, Hs, Hop.
    destruct (Control.law c); simpl; rewrite ?Hs; simpl; auto.
  - contradiction.
  - auto.
  - auto.
Qed.

(** C6: with a present setpoint [s], once the latch is true it stays true
    (and the setpoint stays [s]) across any sequence of [update] calls with
    arbitrary measurements -- and of effort computations, enabling,
    disabling and [set_setpoint] calls with an equal value -- as long as
    neither [reset_setpoint_reached] nor [set_setpoint] with a different
    value is called. *)
Theorem latch_stays_true (s : Q) (ops : list Control.Op) (c : Control.t) :
  Control.setpoint c = Some s ->
  Control.setpoint_reached c = Some true ->
  Forall (Control.keeps_session s) ops ->
  Control.setpoint (Control.run pid_call c ops) = Some s /\
  Control.setpoint_reached (Control.run pid_call c ops) = Some true.
Proof.
  revert c. induction ops as [|op ops IH]; intros c Hs Hr Hops; simpl.
  - auto.
  - inversion Hops as [|? ? Hop Hrest]; subst.
    destruct (step_keeps_latch s c op Hs Hr Hop) as [Hs' Hr'].
    apply IH; assumption.
Qed.

(** *** Changing the setpoint *)

(** C7 (as the code has it): [set_setpoint(v)] with [v] equal to the
    current setpoint changes nothing and calls nothing; with a different
    [v] it stores [v], puts the latch to [False] -- also when [v] is
    absent -- and calls the callback, when there is one, exactly once with
    the new setpoint; no other attribute of the control changes. *)
Theorem set_setpoint_effect (c : Control.t) (v : option Q) :
  Control.pid_synced c ->
  (Py.opt_eqb v (Control.setpoint c) = true ->
   Control.set_setpoint c v = (c, [])) /\
  (Py.opt_eqb v (Control.setpoint c) = false ->
   Control.setpoint (fst (Control.set_setpoint c v)) = v /\
   Control.setpoint_reached (fst (Control.set_setpoint c v)) = Some false /\
   snd (Control.set_setpoint c v) =
     match Control.after_setpoint_change c with
     | Some cb => [AfterSetpointChange cb v]
     | None => []
     end).
Proof.
  intro Hsync. unfold Control.set_setpoint, Control.PIDControl_set_setpoint.
  rewrite Control_set_setpoint_eq. split; intro Hv; rewrite Hv.
  - destruct (Control.law c) as [| g | p] eqn:El; try reflexivity.
    destruct (Control.setpoint c) as [s|] eqn:Es; [|reflexivity].
    unfold Control.pid_synced in Hsync. rewrite El, Es in Hsync.
    destruct c as [l sp lo hi cb r eps dir en]; simpl in *.
    destruct p as [ps lim mem]; simpl in *. subst l sp ps. reflexivity.
  - destruct (Control.law c) as [| g | p]; simpl; auto.
    destruct v; simpl; auto.
Qed.

End ControlProperties.

(** ** The reporter *)

Section ReporterProperties.

Local Open Scope Q_scope.

Variable isoformat : Q -> string.

Lemma record_times_app (a b : list Event) :
  ControllerReporter.record_times (a ++ b) =
  ControllerReporter.record_times a ++ ControllerReporter.record_times b.
Proof.
  induction a as [|e a IH]; simpl; [reflexivity|].
  destruct e; simpl; rewrite ?IH; reflexivity.
Qed.

(** One [update] of an armed reporter: nothing happens, or exactly one
    record is written, no earlier than its slot on the grid. *)
Lemma update_armed (r : ControllerReporter.t) (i : Z) (s : Q) (sink : Sink)
    (t : Q) (pv sp : option Q) (reached : option bool) (efforts : list (option Q)) :
  ControllerReporter.next_report_index r = Some i ->
  ControllerReporter.start_time r = Some s ->
  ControllerReporter.file r = Some sink ->
  ControllerReporter.update isoformat r t pv sp reached efforts = Some (r, []) \/
  (exists line,
     ControllerReporter.update isoformat r t pv sp reached efforts =
       Some (ControllerReporter.with_timing r (Some s) (Some (i + 1)%Z),
             [WriteRecord sink t line]) /\
     s + inject_Z i * ControllerReporter.interval r <= t).
Proof.
  intros Hi Hs Hf. unfold ControllerReporter.update.
  destruct pv as [pv|]; [|left; reflexivity].
  destruct (ControllerReporter.enabled r); simpl; [|left; reflexivity].
  rewrite Hi. simpl. rewrite Hi, Hs.
  destruct (Qle_bool (inject_Z i * ControllerReporter.interval r + s) t) eqn:E.
  - right. unfold ControllerReporter.report. rewrite Hs, Hf.
    eexists. split; [reflexivity|].
    apply Qle_bool_iff in E. lra.
  - left. reflexivity.
Qed.

(** One [update] of a reporter that is not armed yet: nothing happens, or
    the reporter arms itself at the current time and writes the header and
    the first record. *)
Lemma update_idle (r : ControllerReporter.t) (t : Q) (pv sp : option Q)
    (reached : option bool) (efforts : list (option Q)) :
  ControllerReporter.next_report_index r = None ->
  ControllerReporter.update isoformat r t pv sp reached efforts = Some (r, []) \/
  (exists r' evs sink,
     ControllerReporter.update isoformat r t pv sp reached efforts = Some (r', evs) /\
     ControllerReporter.record_times evs = [t] /\
     ControllerReporter.next_report_index r' = Some 1%Z /\
     ControllerReporter.start_time r' = Some t /\
     ControllerReporter.file r' = Some sink /\
     ControllerReporter.interval r' = ControllerReporter.interval r).
Proof.
  intro Hi. unfold ControllerReporter.update.
  destruct pv as [pv|]; [|left; reflexivity].
  destruct (ControllerReporter.enabled r); simpl; [|left; reflexivity].
  right. rewrite Hi.
  assert (Hdue : Qle_bool (inject_Z 0 * ControllerReporter.interval r + t) t = true).
  { apply Qle_bool_iff. change (inject_Z 0) with 0. lra. }
  unfold ControllerReporter.open_report, ControllerReporter.generate_filename.
  destruct (ControllerReporter.class r) eqn:Ec; simpl; rewrite Ec; simpl;
    rewrite Hdue; simpl;
    do 3 eexists; (split; [reflexivity|]); simpl; repeat split; reflexivity.
Qed.

Lemma updates_armed (calls : list ControllerReporter.Call) :
  forall (r : ControllerReporter.t) (i : Z) (s : Q) (sink : Sink),
  ControllerReporter.next_report_index r = Some i ->
  ControllerReporter.start_time r = Some s ->
  ControllerReporter.file r = Some sink ->
  exists r' evss,
    ControllerReporter.updates isoformat r calls = Some (r', evss) /\
    List.length evss = List.length calls /\
    Forall (fun evs =>
              (List.length (ControllerReporter.record_times evs) <= 1)%nat) evss /\
    forall k t,
      nth_error (ControllerReporter.record_times (List.concat evss)) k = Some t ->
      s + inject_Z (i + Z.of_nat k) * ControllerReporter.interval r <= t.
Proof.
  induction calls as [|c calls IH]; intros r i s sink Hi Hs Hf.
  - exists r, []. simpl. repeat split; auto.
    intros [|k] t H; discriminate.
  - simpl. unfold ControllerReporter.update_call.
    destruct (update_armed r i s sink (ControllerReporter.call_time c)
                (ControllerReporter.call_pv c) (ControllerReporter.call_setpoint c)
                (ControllerReporter.call_setpoint_reached c)
                (ControllerReporter.call_efforts c) Hi Hs Hf)
      as [-> | (line & -> & Hdue)].
    + destruct (IH r i s sink Hi Hs Hf) as (r' & evss & -> & Hlen & Hone & Hk).
      exists r', ([] :: evss). simpl. repeat split; auto.
    + destruct (IH (ControllerReporter.with_timing r (Some s) (Some (i + 1)%Z))
                  (i + 1)%Z s sink eq_refl eq_refl Hf)
        as (r' & evss & -> & Hlen & Hone & Hk).
      exists r', ([WriteRecord sink (ControllerReporter.call_time c) line] :: evss).
      simpl. repeat split; auto.
      intros [|k] t H; simpl in H.
      * injection H as <-. rewrite Z.add_0_r. exact Hdue.
      * specialize (Hk k t H). simpl in Hk.
        replace (i + Z.of_nat (S k))%Z with (i + 1 + Z.of_nat k)%Z by lia.
        exact Hk.
Qed.

(** C5 (as the code has it): starting from a reporter that is not armed
    (fresh, or just reset), every [update] call succeeds and writes at most
    one record, and the [k]-th record written (counting from 0) has a report
    time at least [k] intervals after the report time of the first record;
    records are pinned to the grid [start_time + k * interval], not to one
    another. *)
Theorem records_follow_the_grid (calls : list ControllerReporter.Call)
    (r : ControllerReporter.t) :
  ControllerReporter.next_report_index r = None ->
  exists r' evss,
    ControllerReporter.updates isoformat r calls = Some (r', evss) /\
    List.length evss = List.length calls /\
    Forall (fun evs =>
              (List.length (ControllerReporter.record_times evs) <= 1)%nat) evss /\
    forall t0 k t,
      nth_error (ControllerReporter.record_times (List.concat evss)) 0 = Some t0 ->
      nth_error (ControllerReporter.record_times (List.concat evss)) k = Some t ->
      t0 + inject_Z (Z.of_nat k) * ControllerReporter.interval r <= t.
Proof.
  revert r. induction calls as [|c calls IH]; intros r Hi.
  - exists r, []. simpl. repeat split; auto.
    intros t0 [|k] t H; discriminate.
  - simpl. unfold ControllerReporter.update_call.
    destruct (update_idle r (ControllerReporter.call_time c)
                (ControllerReporter.call_pv c) (ControllerReporter.call_setpoint c)
                (ControllerReporter.call_setpoint_reached c)
                (ControllerReporter.call_efforts c) Hi)
      as [-> | (r1 & evs & sink & -> & Hts & Hi1 & Hs1 & Hf1 & Hint)].
    + destruct (IH r Hi) as (r' & evss & -> & Hlen & Hone & Hk).
      exists r', ([] :: evss). simpl. repeat split; auto.
    + destruct (updates_armed calls r1 1%Z (ControllerReporter.call_time c) sink
                  Hi1 Hs1 Hf1)
        as (r' & evss & -> & Hlen & Hone & Hk).
      exists r', (evs :: evss). simpl. repeat split; auto.
      * constructor; [rewrite Hts; simpl; lia | exact Hone].
      * rewrite record_times_app, Hts. simpl.
        intros t0 [|k] t H0 H; injection H0 as <-; simpl in H.
        -- injection H as <-. change (inject_Z (Z.of_nat 0)) with 0. lra.
        -- specialize (Hk k t H). rewrite Hint in Hk.
           replace (Z.of_nat (S k)) with (1 + Z.of_nat k)%Z by lia.
           exact Hk.
Qed.

(** *** Construction, enabling and reset *)

(** C10: a reporter is constructed disabled, so any sequence of [update]
    calls on it changes nothing and writes nothing; and [reset] always
    leaves the reporter enabled, also right after [disable]. *)
Theorem reporter_starts_disabled_and_reset_enables :
  (forall interval pv units names prefix suffix,
     ControllerReporter.enabled
       (ControllerReporter.init interval pv units names prefix suffix) = false) /\
  (forall interval names,
     ControllerReporter.enabled
       (ControllerReporter.ControllerPrinter_init interval names) = false) /\
  (forall r calls,
     ControllerReporter.enabled r = false ->
     ControllerReporter.updates isoformat r calls =
       Some (r, map (fun _ => []) calls)) /\
  (forall r, ControllerReporter.enabled (fst (ControllerReporter.reset r)) = true) /\
  (forall r,
     ControllerReporter.enabled
       (fst (ControllerReporter.reset (ControllerReporter.disable r))) = true).
Proof.
  assert (Hreset : forall r,
            ControllerReporter.enabled (fst (ControllerReporter.reset r)) = true).
  { intro r. unfold ControllerReporter.reset, ControllerReporter.close_report.
    simpl. destruct (ControllerReporter.class r); simpl; [|reflexivity].
    destruct (ControllerReporter.file r) as [[name|]|]; reflexivity. }
  repeat split; auto.
  intros r calls He. induction calls as [|c calls IH]; simpl; [reflexivity|].
  unfold ControllerReporter.update_call, ControllerReporter.update.
  rewrite He. simpl.
  destruct (ControllerReporter.call_pv c); rewrite IH; reflexivity.
Qed.

End ReporterProperties.

(** ** The record line *)

Section RecordProperties.

Local Open Scope string_scope.

Lemma string_app_assoc (a b c : string) : (a ++ b) ++ c = a ++ b ++ c.
Proof. induction a as [|ch a IH]; simpl; [reflexivity | rewrite IH; reflexivity]. Qed.

Lemma truthy_app (a b : string) :
  Py.truthy (a ++ b) = Py.truthy a || Py.truthy b.
Proof. destruct a; reflexivity. Qed.

Lemma join_cons (sep x : string) (xs : list string) :
  xs <> [] -> Py.join sep (x :: xs) = x ++ sep ++ Py.join sep xs.
Proof. destruct xs; [congruence | reflexivity]. Qed.

Lemma join_snoc (sep : string) (xs : list string) (y : string) :
  xs <> [] -> Py.join sep (xs ++ [y]) = Py.join sep xs ++ sep ++ y.
Proof.
  induction xs as [|x xs IH]; [congruence|]. intros _.
  destruct xs as [|x' xs]; [reflexivity|].
  change ((x :: x' :: xs) ++ [y])%list with (x :: ((x' :: xs) ++ [y]))%list.
  rewrite join_cons by (simpl; discriminate).
  rewrite IH by discriminate.
  rewrite (join_cons sep x (x' :: xs)) by discriminate.
  rewrite !string_app_assoc. reflexivity.
Qed.

(** A number rendered with at least one decimal is never the empty string. *)
Lemma format_fixed_truthy (d : nat) (x : Q) :
  Py.truthy (Py.format_fixed (S d) x) = true.
Proof.
  unfold Py.format_fixed. cbv zeta.
  rewrite !truthy_app. simpl. rewrite !orb_true_r. reflexivity.
Qed.

(** The joined efforts are empty only for no effort at all or for a single
    absent effort. *)
Lemma format_control_efforts_truthy (efforts : list (option Q)) :
  efforts <> []%list -> efforts <> [None]%list ->
  Py.truthy (ControllerReporter.format_control_efforts efforts) = true.
Proof.
  intros Hnil Hnone. unfold ControllerReporter.format_control_efforts.
  destruct efforts as [|e [|e' rest]]; [congruence | |].
  - destruct e as [e|]; [|congruence].
    change (Py.truthy (Py.format_fixed 2 e) = true). apply format_fixed_truthy.
  - cbn [map]. rewrite join_cons by discriminate.
    rewrite !truthy_app. simpl. rewrite orb_true_r. reflexivity.
Qed.

(** Whenever the efforts are not the single absent effort, the line the
    code prints is the specification's fields joined by commas: elapsed
    seconds (2 decimals), process variable (1 decimal), setpoint and error
    (1 decimal, blank without a setpoint), one field per effort (2 decimals,
    blank when absent) and the latch (blank, True or False). *)
Lemma report_string_fields (start report_time pv : Q) (setpoint : option Q)
    (reached : option bool) (efforts : list (option Q)) :
  efforts <> [None]%list ->
  ControllerReporter.report_string start report_time pv setpoint reached efforts =
  Py.join ","
    (ControllerReporter.spec_record_fields start report_time pv setpoint reached efforts).
Proof.
  intro Hnone.
  unfold ControllerReporter.report_string, ControllerReporter.spec_record_fields.
  cbv zeta. cbn [app].
  rewrite !join_cons by (try discriminate; intro H; apply app_eq_nil in H;
                         destruct H; discriminate).
  do 8 f_equal.
  { destruct setpoint; reflexivity. }
  f_equal.
  destruct efforts as [|e rest] eqn:E.
  - reflexivity.
  - rewrite <- E in *.
    rewrite format_control_efforts_truthy by (subst; auto; discriminate).
    rewrite join_snoc by (subst; discriminate).
    rewrite string_app_assoc. reflexivity.
Qed.

(** C8: at the single absent effort the code drops the effort field and its
    comma, so the record has five fields while the header above it, and the
    specification, have six. *)
Theorem record_drops_single_absent_effort :
  ControllerReporter.report_string 0 0 25 (Some 30%Q) (Some false) [None] =
    "0.00,25.0,30.0,5.0,False" /\
  Py.join ","
    (ControllerReporter.spec_record_fields 0 0 25 (Some 30%Q) (Some false) [None]) =
    "0.00,25.0,30.0,5.0,,False" /\
  ControllerReporter.header_string Examples.reporter =
    "Time (s),Temperature (deg C),Setpoint (deg C),Error (deg C),Heater PWM Duty,Setpoint Reached".
Proof. repeat split; vm_compute; reflexivity. Qed.

End RecordProperties.

(** ** The controller *)

Section StoreProperties.

Context {A : Type}.

Lemma length_store (i : nat) (x : A) (l : list A) :
  List.length (Controller.store i x l) = List.length l.
Proof.
  revert i. induction l as [|y l IH]; intros [|i]; simpl; auto.
Qed.

Lemma nth_error_store_same (i : nat) (x : A) (l : list A) :
  (i < List.length l)%nat -> nth_error (Controller.store i x l) i = Some x.
Proof.
  revert i. induction l as [|y l IH]; intros [|i] H; simpl in *; try lia; auto.
  apply IH. lia.
Qed.

Lemma nth_error_store_other (i j : nat) (x : A) (l : list A) :
  i <> j -> nth_error (Controller.store i x l) j = nth_error l j.
Proof.
  revert i j. induction l as [|y l IH]; intros [|i] [|j] H; simpl; auto.
  congruence.
Qed.

End StoreProperties.

Section ControllerProperties.

Local Open Scope Q_scope.

Variable pid_call : Control.PID -> Q -> Q * list Q.
Variable isoformat : Q -> string.
Variable time_time : nat -> Q.

(** After [set_setpoint(v)] the control's setpoint is [v], up to the numeric
    equality the method itself tests. *)
Lemma set_setpoint_stores (c : Control.t) (v : option Q) :
  Py.opt_Qeq (Control.setpoint (fst (Control.set_setpoint c v))) v.
Proof.
  unfold Control.set_setpoint, Control.PIDControl_set_setpoint.
  rewrite Control_set_setpoint_eq.
  destruct (Py.opt_eqb v (Control.setpoint c)) eqn:E.
  - apply opt_eqb_Qeq in E.
    assert (H : Py.opt_Qeq (Control.setpoint c) v).
    { destruct v, (Control.setpoint c); simpl in *; auto. symmetry. exact E. }
    destruct (Control.law c); simpl; auto.
    destruct (Control.setpoint c) eqn:Es; simpl; rewrite ?Es; auto.
  - assert (H : Py.opt_Qeq v v) by (destruct v; simpl; auto; reflexivity).
    destruct (Control.law c); simpl; auto.
    destruct v; simpl; auto.
Qed.

Lemma control_set_setpoint_eq (v : option Q) (ref : nat) (w : Controller.World)
    (c : Control.t) :
  nth_error (Controller.control_objects w) ref = Some c ->
  Controller.control_set_setpoint v ref w =
  Some (tt,
        Controller.mkWorld
          (Controller.store ref (fst (Control.set_setpoint c v))
                            (Controller.control_objects w))
          (Controller.reporter_objects w)
          (Controller.log w ++ snd (Control.set_setpoint c v))
          (Controller.clock_reads w)).
Proof.
  intro H. unfold Controller.control_set_setpoint, Controller.bind,
    Controller.get_control.
  rewrite H. destruct (Control.set_setpoint c v) as [c1 evs]. reflexivity.
Qed.

(** Broadcasting a setpoint over a list of addresses succeeds when the
    addresses are valid, gives every addressed control that setpoint and
    leaves the other controls alone. *)
Lemma broadcast_setpoint (v : option Q) (refs : list nat) :
  forall w : Controller.World,
  Forall (fun ref => (ref < List.length (Controller.control_objects w))%nat) refs ->
  exists w',
    Controller.for_each (Controller.control_set_setpoint v) refs w = Some (tt, w') /\
    List.length (Controller.control_objects w') =
      List.length (Controller.control_objects w) /\
    (forall ref c', In ref refs ->
       nth_error (Controller.control_objects w') ref = Some c' ->
       Py.opt_Qeq (Control.setpoint c') v) /\
    (forall ref, ~ In ref refs ->
       nth_error (Controller.control_objects w') ref =
       nth_error (Controller.control_objects w) ref).
Proof.
  induction refs as [|r refs IH]; intros w Hvalid.
  - exists w. simpl. repeat split; auto. intros ref c' [].
  - inversion Hvalid as [|? ? Hr Hrest]; subst.
    destruct (nth_error (Controller.control_objects w) r) as [c|] eqn:Ec;
      [|apply nth_error_None in Ec; lia].
    cbn [Controller.for_each]. unfold Controller.bind at 1.
    rewrite (control_set_setpoint_eq v r w c Ec).
    set (w1 := Controller.mkWorld _ _ _ _).
    assert (Hlen1 : List.length (Controller.control_objects w1) =
                    List.length (Controller.control_objects w)).
    { subst w1. simpl. apply length_store. }
    destruct (IH w1) as (w' & Hrun & Hlen & Hin & Hout).
    { rewrite Hlen1. exact Hrest. }
    exists w'. split; [exact Hrun|]. split; [congruence|]. split.
    + intros ref c' Href Hc'.
      destruct (in_dec Nat.eq_dec ref refs) as [Hi | Hni].
      * apply (Hin ref c' Hi Hc').
      * destruct Href as [<- | Href]; [|contradiction].
        rewrite (Hout r Hni) in Hc'. subst w1. simpl in Hc'.
        rewrite nth_error_store_same in Hc' by exact Hr.
        injection Hc' as <-. apply set_setpoint_stores.
    + intros ref Hni. rewrite Hout by (intro; apply Hni; right; assumption).
      subst w1. simpl. apply nth_error_store_other.
      intro; apply Hni; left; assumption.
Qed.

Lemma bind_Some {A B : Type} (m : Controller.M A) (k : A -> Controller.M B)
    (w w' : Controller.World) (y : B) :
  Controller.bind m k w = Some (y, w') ->
  exists x w1, m w = Some (x, w1) /\ k x w1 = Some (y, w').
Proof.
  unfold Controller.bind. destruct (m w) as [[x w1]|]; [|discriminate].
  intro H. exists x, w1. auto.
Qed.

Lemma for_each_keeps_controls {A : Type} (f : A -> Controller.M unit) (l : list A) :
  (forall x w0 w1 u, f x w0 = Some (u, w1) ->
     Controller.control_objects w1 = Controller.control_objects w0) ->
  forall w0 w1 u, Controller.for_each f l w0 = Some (u, w1) ->
    Controller.control_objects w1 = Controller.control_objects w0.
Proof.
  intro Hf. induction l as [|x l IH]; intros w0 w1 u H; simpl in H.
  - injection H as _ <-. reflexivity.
  - apply bind_Some in H. destruct H as (u1 & w2 & H1 & H2).
    rewrite (IH _ _ _ H2). apply (Hf _ _ _ _ H1).
Qed.

(** [HeaterFanController.__init__] lists the heater control first and the
    fan control second, and touches no control. *)
Lemma HeaterFanController_init_controls (h : Controller.HeaterAttributes)
    (f : Controller.FanAttributes) (additional_controls additional_outputs : list nat)
    (w w' : Controller.World) (self : Controller.t) :
  Controller.HeaterFanController_init h f additional_controls additional_outputs w =
    Some (self, w') ->
  Controller.class self = Controller.HeaterFanController h f /\
  Controller.controls self =
    Controller.heater_control h :: Controller.fan_control f :: additional_controls /\
  Controller.control_objects w' = Controller.control_objects w.
Proof.
  unfold Controller.HeaterFanController_init, Controller.HeaterController_init_as,
    Controller.Controller_init.
  intro H. apply bind_Some in H. destruct H as (u & w1 & Hrun & Hret).
  injection Hret as <- <-. repeat split.
  revert Hrun. apply for_each_keeps_controls.
  intros [ref|] w0 w2 u0 H.
  - apply bind_Some in H. destruct H as (r & w3 & Hget & Hput).
    unfold Controller.get_reporter in Hget.
    destruct (nth_error (Controller.reporter_objects w0) ref); [|discriminate].
    injection Hget as _ <-. injection Hput as _ <-. reflexivity.
  - injection H as _ <-. reflexivity.
Qed.

(** C4 (as the code has it): on a [HeaterFanController] whose fan control is
    among its controls, [set_setpoint(s)] with [s] present leaves the fan
    control's setpoint at [s + fan_setpoint_offset]; [set_setpoint] with an
    absent setpoint leaves it absent, because the broadcast to all controls
    reaches the fan control as well. *)
Theorem fan_setpoint_follows (self : Controller.t) (h : Controller.HeaterAttributes)
    (f : Controller.FanAttributes) (w : Controller.World) :
  Controller.class self = Controller.HeaterFanController h f ->
  In (Controller.fan_control f) (Controller.controls self) ->
  Controller.controls_valid self w ->
  (forall s : Q,
     exists w' c',
       Controller.set_setpoint self (Some s) w = Some (tt, w') /\
       nth_error (Controller.control_objects w') (Controller.fan_control f) = Some c' /\
       Py.opt_Qeq (Control.setpoint c')
                  (Some (s + Controller.fan_setpoint_offset f))) /\
  (exists w' c',
     Controller.set_setpoint self None w = Some (tt, w') /\
     nth_error (Controller.control_objects w') (Controller.fan_control f) = Some c' /\
     Control.setpoint c' = None).
Proof.
  intros Hclass Hfan Hvalid. unfold Controller.set_setpoint. rewrite Hclass.
  unfold Controller.HeaterFanController_set_setpoint, Controller.Controller_set_setpoint.
  assert (Hf : (Controller.fan_control f <
                List.length (Controller.control_objects w))%nat).
  { unfold Controller.controls_valid in Hvalid.
    rewrite Forall_forall in Hvalid. apply Hvalid, Hfan. }
  split.
  - intro s.
    destruct (broadcast_setpoint (Some s) (Controller.controls self) w Hvalid)
      as (w1 & Hrun & Hlen & _ & _).
    unfold Controller.bind at 1. rewrite Hrun.
    destruct (nth_error (Controller.control_objects w1) (Controller.fan_control f))
      as [c|] eqn:Ec; [|apply nth_error_None in Ec; lia].
    rewrite (control_set_setpoint_eq _ _ w1 c Ec).
    eexists. eexists. split; [reflexivity|]. simpl. split.
    + apply nth_error_store_same. lia.
    + apply set_setpoint_stores.
  - destruct (broadcast_setpoint None (Controller.controls self) w Hvalid)
      as (w1 & Hrun & Hlen & Hin & _).
    unfold Controller.bind at 1. rewrite Hrun. unfold Controller.ret.
    destruct (nth_error (Controller.control_objects w1) (Controller.fan_control f))
      as [c|] eqn:Ec; [|apply nth_error_None in Ec; lia].
    exists w1, c. repeat split; auto.
    specialize (Hin _ c Hfan Ec). destruct (Control.setpoint c); simpl in Hin;
      [contradiction | reflexivity].
Qed.

(** C2 (as the code has it): on an absent measurement the PID strategy
    returns absent whatever its setpoint and enabled flag are, while the
    infinite-gain and proportional strategies return absent only when they
    have a setpoint and are enabled, and the number 0 otherwise; and
    [Controller.update()], when the process variable reads absent, returns
    [(None, (None,))] and leaves the whole world as it was: no [set_state]
    call, no reporter update, no change to any control. *)
Theorem absent_measurement (c : Control.t) (self : Controller.t)
    (w : Controller.World) :
  Control.compute_control_effort pid_call c None =
    match Control.law c with
    | Control.PIDControl _ => (None, c)
    | _ =>
        (if Py.is_none (Control.setpoint c) || negb (Control.enabled c)
         then Some 0 else None, c)
    end /\
  Controller.update pid_call isoformat time_time self None w =
    Some ((None, [None]), w).
Proof.
  split; [apply effort_of_absent_measurement | reflexivity].
Qed.

End ControllerProperties.

(** ** The thermistor *)

Section ThermistorProperties.

Local Open Scope R_scope.

Lemma read_resistance_eq (th : Thermistor.t) (ref raw : R) :
  fst (Thermistor.read_resistance th ref raw) =
  if Rle_dec (ref - raw) 0 then None
  else Some (raw * Thermistor.bias_resistance th / (ref - raw)).
Proof.
  unfold Thermistor.read_resistance, Thermistor.read_voltage.
  destruct (Rle_dec (ref - raw) 0); reflexivity.
Qed.

Lemma read_eq (th : Thermistor.t) (unit : string) (ref raw : R) :
  fst (Thermistor.read th unit ref raw) =
  if Rle_dec (ref - raw) 0 then Thermistor.Value None
  else
    let r := raw * Thermistor.bias_resistance th / (ref - raw) in
    let T_Kelvin :=
      1 / (Thermistor.A th + Thermistor.B th * ln r + Thermistor.C th * (ln r) ^ 3) in
    if String.eqb unit "K" then Thermistor.Value (Some T_Kelvin)
    else if String.eqb unit "C" then Thermistor.Value (Some (T_Kelvin - 273.15))
    else Thermistor.ValueError ("Unknown temperature unit: " ++ unit).
Proof.
  unfold Thermistor.read, Thermistor.read_resistance, Thermistor.read_voltage,
    Thermistor.steinhart_hart.
  destruct (Rle_dec (ref - raw) 0); [reflexivity|].
  cbv zeta. cbn [Thermistor.A Thermistor.B Thermistor.C Thermistor.bias_resistance].
  destruct (String.eqb unit "K"); [reflexivity|].
  destruct (String.eqb unit "C"); reflexivity.
Qed.

(** *** Rounding errors

    How far the rounded evaluation of [read] can be from the exact one.
    [product_bound] to [three_roundings] are the arithmetic of error bounds;
    [scenario_rounded] follows the operations of the source one by one. *)

Lemma product_bound (d x u M : R) :
  - u <= d <= u -> - M <= x <= M -> - (u * M) <= x * d <= u * M.
Proof.
  intros [Hd1 Hd2] [Hx1 Hx2].
  assert (H1 : 0 <= (M - x) * (u - d)) by (apply Rmult_le_pos; Lra.lra).
  assert (H2 : 0 <= (M + x) * (u + d)) by (apply Rmult_le_pos; Lra.lra).
  assert (H3 : 0 <= (M - x) * (u + d)) by (apply Rmult_le_pos; Lra.lra).
  assert (H4 : 0 <= (M + x) * (u - d)) by (apply Rmult_le_pos; Lra.lra).
  split; Lra.nra.
Qed.

(** One more rounding of a value that is at most [M] adds at most [u * M]. *)
Lemma rnd_near (u M e d x x' : R) :
  - u <= d <= u -> - M <= x' <= M -> Thermistor.near e x x' ->
  Thermistor.near (e + u * M) x (Thermistor.rnd d x').
Proof.
  intros Hd HM [H1 H2]. unfold Thermistor.near, Thermistor.rnd.
  destruct (product_bound d x' u M Hd HM) as [P1 P2]. split; Lra.lra.
Qed.

Lemma cube_near (M e x x' : R) :
  - M <= x <= M -> - M <= x' <= M -> Thermistor.near e x x' ->
  Thermistor.near (e * (3 * (M * M))) (x ^ 3) (x' ^ 3).
Proof.
  intros Hx Hx' [H1 H2]. unfold Thermistor.near.
  assert (HM : 0 <= M) by Lra.lra.
  set (q := x' * x' + x' * x + x * x).
  assert (Hq0 : 0 <= q).
  { unfold q.
    assert (0 <= (x' + x) * (x' + x)) by apply Rle_0_sqr.
    assert (0 <= x' * x') by apply Rle_0_sqr.
    assert (0 <= x * x) by apply Rle_0_sqr. Lra.nra. }
  assert (Hq : q <= 3 * (M * M)).
  { unfold q.
    assert (A1 : x' * x' <= M * M).
    { assert (0 <= (M - x') * (M + x')) by (apply Rmult_le_pos; Lra.lra). Lra.nra. }
    assert (A2 : x * x <= M * M).
    { assert (0 <= (M - x) * (M + x)) by (apply Rmult_le_pos; Lra.lra). Lra.nra. }
    assert (A3 : x' * x <= M * M).
    { destruct (product_bound x x' M M Hx Hx'). Lra.lra. }
    Lra.lra. }
  assert (He : 0 <= e) by Lra.lra.
  assert (Hd : - e <= x' - x <= e) by Lra.lra.
  assert (Hqq : - (3 * (M * M)) <= q <= 3 * (M * M)) by Lra.lra.
  destruct (product_bound (x' - x) q e (3 * (M * M)) Hd Hqq) as [P1 P2].
  replace (x' ^ 3) with (x ^ 3 + q * (x' - x)) by (unfold q; ring).
  split; Lra.lra.
Qed.

Lemma inv_near (m e x x' : R) :
  0 < m -> m <= x -> m <= x' -> Thermistor.near e x x' ->
  Thermistor.near (e / (m * m)) (1 / x) (1 / x').
Proof.
  intros Hm Hx Hx' [H1 H2]. unfold Thermistor.near.
  assert (He : 0 <= e) by Lra.lra.
  assert (Hxx : 0 < x * x') by (apply Rmult_lt_0_compat; Lra.lra).
  assert (Hmm : 0 < m * m) by (apply Rmult_lt_0_compat; Lra.lra).
  assert (Hle : m * m <= x * x').
  { apply Rmult_le_compat; Lra.lra. }
  assert (Heq : 1 / x' - 1 / x = (x - x') / (x * x')) by (field; Lra.lra).
  assert (Hinv : / (x * x') <= / (m * m)) by (apply Rinv_le_contravar; Lra.lra).
  assert (Hipos : 0 < / (x * x')) by (apply Rinv_0_lt_compat; Lra.lra).
  assert (Hb : - (e * / (m * m)) <= (x - x') * / (x * x') <= e * / (m * m)).
  { assert (Hd : - e <= x - x' <= e) by Lra.lra.
    assert (Hi : - / (m * m) <= / (x * x') <= / (m * m)) by Lra.lra.
    destruct (product_bound (/ (x * x')) (x - x') (/ (m * m)) e Hi Hd)
      as [P1 P2].
    split; Lra.lra. }
  unfold Rdiv in *. split; Lra.lra.
Qed.

Lemma ln_le_minus_one (x : R) : 0 < x -> ln x <= x - 1.
Proof.
  intro Hx. pose proof (exp_ineq1_le (ln x)) as H.
  rewrite exp_ln in H by exact Hx. Lra.lra.
Qed.

Lemma ln_near_one (e x : R) :
  0 <= e -> e <= / 2 -> 1 - e <= x <= 1 + e -> - (2 * e) <= ln x <= e.
Proof.
  intros He0 He [H1 H2].
  assert (Hx : 0 < x) by Lra.lra.
  split.
  - pose proof (ln_le_minus_one (/ x) (Rinv_0_lt_compat _ Hx)) as H.
    rewrite ln_Rinv in H by exact Hx.
    assert (Hi : / x <= 1 + 2 * e).
    { apply Rmult_le_reg_l with x; [exact Hx|].
      rewrite Rinv_r by Lra.lra.
      assert (0 <= (x - (1 - e)) * (1 + 2 * e)) by (apply Rmult_le_pos; Lra.lra).
      Lra.nra. }
    Lra.lra.
  - pose proof (ln_le_minus_one x Hx). Lra.lra.
Qed.

(** Two roundings above and one below a division move the quotient by a
    factor within [4 * u] of 1. *)
Lemma three_roundings (u d0 d1 d2 : R) :
  0 <= u -> u <= / 8 ->
  - u <= d0 <= u -> - u <= d1 <= u -> - u <= d2 <= u ->
  1 - 4 * u <= (1 + d1) * (1 + d2) / (1 + d0) <= 1 + 4 * u.
Proof.
  intros Hu0 Hu H0 H1 H2.
  assert (Hp : 0 < 1 + d0) by Lra.lra.
  destruct (product_bound d2 d1 u u H2 H1) as [P1 P2].
  assert (Hn : 1 - 2 * u - u * u <= (1 + d1) * (1 + d2) <= 1 + 2 * u + u * u)
    by (split; Lra.nra).
  assert (Huu : u * u <= u * / 8) by (apply Rmult_le_compat_l; Lra.lra).
  assert (H4 : - (4 * u) <= 4 * u <= 4 * u) by Lra.lra.
  destruct (product_bound d0 (4 * u) u (4 * u) H0 H4) as [Q1 Q2].
  split.
  - apply Rmult_le_reg_r with (1 + d0); [exact Hp|].
    unfold Rdiv. rewrite Rmult_assoc, Rinv_l, Rmult_1_r by Lra.lra. Lra.nra.
  - apply Rmult_le_reg_r with (1 + d0); [exact Hp|].
    unfold Rdiv. rewrite Rmult_assoc, Rinv_l, Rmult_1_r by Lra.lra. Lra.nra.
Qed.

(** Coarse bounds of the logarithm, from [2 < e < 3]. *)
Lemma log_bounds (r : R) : 3 < r < 2 ^ 11 -> 1 < ln r < 11.
Proof.
  intros [Hlo Hhi]. split.
  - assert (H : ln (exp 1) < ln r).
    { apply ln_increasing; [apply exp_pos|]. pose proof exp_le_3. Lra.lra. }
    rewrite ln_exp in H. exact H.
  - assert (H2 : ln 2 < ln (exp 1)).
    { apply ln_increasing; [Lra.lra|].
      assert (H1 : (1 : R) <> 0) by Lra.lra. pose proof (exp_ineq1 1 H1). Lra.lra. }
    rewrite ln_exp in H2.
    assert (H : ln r < ln (2 ^ 11)) by (apply ln_increasing; Lra.lra).
    rewrite ln_pow in H by Lra.lra. simpl INR in H. Lra.lra.
Qed.

Lemma scenario_log_bounds : 1 < ln (400 * 1960 / 600) < 11.
Proof. apply log_bounds. Lra.lra. Qed.

Lemma rnd_exact (x : R) : Thermistor.rnd 0 x = x.
Proof. unfold Thermistor.rnd. ring. Qed.

(** Without rounding the operations of the source compute the formula. *)
Lemma read_celsius_exact (th : Thermistor.t) (ref raw : R) :
  Thermistor.read_celsius_rounded th Thermistor.no_rounding ref raw =
  1 / (Thermistor.A th
       + Thermistor.B th * ln (raw * Thermistor.bias_resistance th / (ref - raw))
       + Thermistor.C th
         * (ln (raw * Thermistor.bias_resistance th / (ref - raw))) ^ 3)
  - 273.15.
Proof.
  unfold Thermistor.read_celsius_rounded, Thermistor.no_rounding.
  cbn [Thermistor.d_referenced Thermistor.d_product Thermistor.d_quotient
       Thermistor.d_log Thermistor.d_power Thermistor.d_A Thermistor.d_B
       Thermistor.d_C Thermistor.d_B_log Thermistor.d_C_power Thermistor.d_sum1
       Thermistor.d_sum2 Thermistor.d_inverse Thermistor.d_offset
       Thermistor.d_celsius].
  rewrite !rnd_exact. reflexivity.
Qed.

(** The scenario of the thermistor, with every operation and constant off
    by a relative error of at most 1e-12 (binary64 has about 1.1e-16): the
    result is within 2.4e-8 of the exact formula. *)
Lemma scenario_rounded (e : Thermistor.Roundings) :
  Thermistor.roundings_within 1e-12 e ->
  Thermistor.near (24000 * 1e-12)
    (1 / (1.0349722e-3 + 2.2717988e-4 * ln (400 * 1960 / 600)
          + 3.008424e-7 * (ln (400 * 1960 / 600)) ^ 3) - 273.15)
    (Thermistor.read_celsius_rounded Examples.thermistor e 1000 400).
Proof.
  destruct e as [d0 d1 d2 d3 d4 dA dB dC d5 d6 d7 d8 d9 dO d10].
  unfold Thermistor.roundings_within, Thermistor.read_celsius_rounded.
  cbn [Thermistor.d_referenced Thermistor.d_product Thermistor.d_quotient
       Thermistor.d_log Thermistor.d_power Thermistor.d_A Thermistor.d_B
       Thermistor.d_C Thermistor.d_B_log Thermistor.d_C_power Thermistor.d_sum1
       Thermistor.d_sum2 Thermistor.d_inverse Thermistor.d_offset
       Thermistor.d_celsius Examples.thermistor Thermistor.init Thermistor.A
       Thermistor.B Thermistor.C Thermistor.bias_resistance].
  intros (H0 & H1 & H2 & H3 & H4 & HA & HB & HC & H5 & H6 & H7 & H8 & H9 & HO & H10).
  destruct scenario_log_bounds as [HL1 HL2].
  set (L := ln (400 * 1960 / 600)) in *.
  set (u := 1e-12) in *.
  assert (Hu : 0 <= u <= 1e-12) by (unfold u; Lra.lra).
  (* the resistance, off by the factor rho *)
  set (rho := (1 + d1) * (1 + d2) / (1 + d0)).
  assert (Hrho : 1 - 4 * u <= rho <= 1 + 4 * u).
  { apply three_roundings; Lra.lra. }
  assert (Hr : Thermistor.rnd d2 (Thermistor.rnd d1 (400 * 1960)
                                  / Thermistor.rnd d0 (1000 - 400)) =
               400 * 1960 / 600 * rho).
  { unfold Thermistor.rnd, rho. field. Lra.lra. }
  rewrite Hr.
  assert (Hlnrho : - (2 * (4 * u)) <= ln rho <= 4 * u).
  { apply ln_near_one; Lra.lra. }
  rewrite ln_mult by Lra.lra. fold L.
  (* the logarithm *)
  assert (N1 : Thermistor.near (20 * u) L (Thermistor.rnd d3 (L + ln rho))).
  { assert (N : Thermistor.near (8 * u) L (L + ln rho))
      by (unfold Thermistor.near; Lra.lra).
    pose proof (rnd_near u 12 (8 * u) d3 L (L + ln rho) H3) as K.
    unfold Thermistor.near in *. destruct K as [K1 K2]; Lra.lra. }
  set (l := Thermistor.rnd d3 (L + ln rho)) in *.
  assert (Bl : 0 <= l <= 12) by (unfold Thermistor.near in N1; Lra.lra).
  (* its cube *)
  assert (N2 : Thermistor.near (11000 * u) (L ^ 3) (Thermistor.rnd d4 (l ^ 3))).
  { pose proof (cube_near 12 (20 * u) L l) as K.
    assert (K' : Thermistor.near (20 * u * (3 * (12 * 12))) (L ^ 3) (l ^ 3))
      by (apply K; unfold Thermistor.near in *; Lra.lra).
    assert (Bc : - 1728 <= l ^ 3 <= 1728).
    { assert (0 <= l * l <= 144).
      { split; [apply Rle_0_sqr|].
        assert (0 <= (12 - l) * (12 + l)) by (apply Rmult_le_pos; Lra.lra). Lra.nra. }
      assert (0 <= l * (l * l) <= 1728).
      { split; [apply Rmult_le_pos; Lra.lra|].
        assert (0 <= (12 - l) * (l * l)) by (apply Rmult_le_pos; Lra.lra).
        Lra.nra. }
      replace (l ^ 3) with (l * (l * l)) by ring. Lra.lra. }
    pose proof (rnd_near u 1728 _ d4 _ _ H4 Bc K') as K2.
    unfold Thermistor.near in *. Lra.lra. }
  set (l3 := Thermistor.rnd d4 (l ^ 3)) in *.
  assert (Bl3 : 0 <= l3 <= 1800).
  { assert (1 <= L * L).
    { assert (0 <= (L - 1) * (L + 1)) by (apply Rmult_le_pos; Lra.lra). Lra.nra. }
    assert (L * L <= 121).
    { assert (0 <= (11 - L) * (11 + L)) by (apply Rmult_le_pos; Lra.lra). Lra.nra. }
    assert (1 <= L * (L * L)).
    { assert (0 <= (L - 1) * (L * L)) by (apply Rmult_le_pos; Lra.lra). Lra.nra. }
    assert (L * (L * L) <= 1331).
    { assert (0 <= (11 - L) * (L * L)) by (apply Rmult_le_pos; Lra.lra). Lra.nra. }
    replace (L ^ 3) with (L * (L * L)) in N2 by ring.
    unfold Thermistor.near in N2. Lra.lra. }
  assert (BL3 : 1 <= L ^ 3 <= 1331).
  { assert (1 <= L * L).
    { assert (0 <= (L - 1) * (L + 1)) by (apply Rmult_le_pos; Lra.lra). Lra.nra. }
    assert (L * L <= 121).
    { assert (0 <= (11 - L) * (11 + L)) by (apply Rmult_le_pos; Lra.lra). Lra.nra. }
    assert (1 <= L * (L * L)).
    { assert (0 <= (L - 1) * (L * L)) by (apply Rmult_le_pos; Lra.lra). Lra.nra. }
    assert (L * (L * L) <= 1331).
    { assert (0 <= (11 - L) * (L * L)) by (apply Rmult_le_pos; Lra.lra). Lra.nra. }
    replace (L ^ 3) with (L * (L * L)) by ring. Lra.lra. }
  (* the two products, with the coefficients as stored *)
  assert (N3 : Thermistor.near (0.011 * u) (2.2717988e-4 * L)
                 (Thermistor.rnd d5 (Thermistor.rnd dB 2.2717988e-4 * l))).
  { assert (Bp : - 12 <= l <= 12) by Lra.lra.
    destruct (product_bound dB l u 12 HB Bp) as [P1 P2].
    assert (E : Thermistor.rnd dB 2.2717988e-4 * l =
                2.2717988e-4 * l + 2.2717988e-4 * (l * dB))
      by (unfold Thermistor.rnd; ring).
    pose proof (rnd_near u 0.003 (0.0075 * u) d5
                  (2.2717988e-4 * L) (Thermistor.rnd dB 2.2717988e-4 * l) H5) as K.
    rewrite E in *. unfold Thermistor.near in *. destruct K as [K1 K2]; Lra.lra. }
  assert (N4 : Thermistor.near (0.005 * u) (3.008424e-7 * L ^ 3)
                 (Thermistor.rnd d6 (Thermistor.rnd dC 3.008424e-7 * l3))).
  { assert (Bp : - 1800 <= l3 <= 1800) by Lra.lra.
    destruct (product_bound dC l3 u 1800 HC Bp) as [P1 P2].
    assert (E : Thermistor.rnd dC 3.008424e-7 * l3 =
                3.008424e-7 * l3 + 3.008424e-7 * (l3 * dC))
      by (unfold Thermistor.rnd; ring).
    pose proof (rnd_near u 0.0006 (0.004 * u) d6
                  (3.008424e-7 * L ^ 3) (Thermistor.rnd dC 3.008424e-7 * l3) H6) as K.
    rewrite E in *. unfold Thermistor.near in *. destruct K as [K1 K2]; Lra.lra. }
  set (t1 := Thermistor.rnd d5 (Thermistor.rnd dB 2.2717988e-4 * l)) in *.
  set (t2 := Thermistor.rnd d6 (Thermistor.rnd dC 3.008424e-7 * l3)) in *.
  (* the two sums *)
  assert (N5 : Thermistor.near (0.018 * u) (1.0349722e-3 + 2.2717988e-4 * L)
                 (Thermistor.rnd d7 (Thermistor.rnd dA 1.0349722e-3 + t1))).
  { assert (E : Thermistor.rnd dA 1.0349722e-3 = 1.0349722e-3 + 1.0349722e-3 * dA)
      by (unfold Thermistor.rnd; ring).
    pose proof (rnd_near u 0.005 (0.0125 * u) d7
                  (1.0349722e-3 + 2.2717988e-4 * L)
                  (Thermistor.rnd dA 1.0349722e-3 + t1) H7) as K.
    rewrite E in *. unfold Thermistor.near in *. destruct K as [K1 K2]; Lra.lra. }
  set (s1 := Thermistor.rnd d7 (Thermistor.rnd dA 1.0349722e-3 + t1)) in *.
  set (D := 1.0349722e-3 + 2.2717988e-4 * L + 3.008424e-7 * L ^ 3).
  assert (N6 : Thermistor.near (0.03 * u) D (Thermistor.rnd d8 (s1 + t2))).
  { pose proof (rnd_near u 0.006 (0.023 * u) d8 D (s1 + t2) H8) as K.
    unfold Thermistor.near, D in *. destruct K as [K1 K2]; Lra.lra. }
  set (s2 := Thermistor.rnd d8 (s1 + t2)) in *.
  assert (BD : 1.26e-3 <= D <= 0.005) by (unfold D; Lra.lra).
  (* the inverse *)
  assert (N7 : Thermistor.near (22000 * u) (1 / D) (Thermistor.rnd d9 (1 / s2))).
  { pose proof (inv_near 1.2e-3 (0.03 * u) D s2) as K.
    assert (K' : Thermistor.near (0.03 * u / (1.2e-3 * 1.2e-3)) (1 / D) (1 / s2))
      by (apply K; unfold Thermistor.near in *; Lra.lra).
    assert (Bi : - 834 <= 1 / s2 <= 834).
    { assert (Hs : 1.2e-3 <= s2) by (unfold Thermistor.near in N6; Lra.lra).
      assert (0 < 1 / s2) by (unfold Rdiv; rewrite Rmult_1_l;
                               apply Rinv_0_lt_compat; Lra.lra).
      assert (1 / s2 <= 1 / 1.2e-3).
      { unfold Rdiv. rewrite !Rmult_1_l. apply Rinv_le_contravar; Lra.lra. }
      Lra.lra. }
    pose proof (rnd_near u 834 _ d9 _ _ H9 Bi K') as K2.
    unfold Thermistor.near in *. Lra.lra. }
  set (tk := Thermistor.rnd d9 (1 / s2)) in *.
  (* Celsius *)
  assert (BK : 0 <= 1 / D <= 800).
  { assert (0 < 1 / D) by (unfold Rdiv; rewrite Rmult_1_l;
                            apply Rinv_0_lt_compat; Lra.lra).
    assert (1 / D <= 1 / 1.26e-3).
    { unfold Rdiv. rewrite !Rmult_1_l. apply Rinv_le_contravar; Lra.lra. }
    Lra.lra. }
  assert (E : Thermistor.rnd dO 273.15 = 273.15 + 273.15 * dO)
    by (unfold Thermistor.rnd; ring).
  pose proof (rnd_near u 1000 (22300 * u) d10 (1 / D - 273.15)
                (tk - Thermistor.rnd dO 273.15) H10) as K.
  rewrite E in *. unfold Thermistor.near in *. fold D. destruct K as [K1 K2]; Lra.lra.
Qed.

(** C9: [read] returns absent exactly when the referenced reading
    (reference minus sensed) is at most 0; otherwise the resistance is
    reading * bias_resistance / referenced_reading and, the resistance being
    positive and the Steinhart-Hart denominator not zero (where the code's
    [np.log] and division are those of the reals), the Celsius temperature
    is 1 / (A + B ln R + C (ln R)^3) - 273.15.  With bias resistance 1960,
    reference reading 1000 and sensed reading 400 the resistance is
    400 * 1960 / 600, both conditions hold, and the temperature is within
    1e-6 of the Steinhart-Hart formula evaluated at that resistance however
    the operations and constants of the code are rounded, as long as each
    relative error is at most 1e-12. *)
Theorem thermistor_read (th : Thermistor.t) (unit : string) (ref raw : R) :
  (fst (Thermistor.read th unit ref raw) = Thermistor.Value None <->
   ref - raw <= 0) /\
  (0 < ref - raw ->
   fst (Thermistor.read_resistance th ref raw) =
     Some (raw * Thermistor.bias_resistance th / (ref - raw))) /\
  (0 < ref - raw ->
   let r := raw * Thermistor.bias_resistance th / (ref - raw) in
   let d :=
     Thermistor.A th + Thermistor.B th * ln r + Thermistor.C th * (ln r) ^ 3 in
   0 < r -> d <> 0 ->
   fst (Thermistor.read th "C" ref raw) =
     Thermistor.Value (Some (1 / d - 273.15))) /\
  (let r := 400 * 1960 / 600 in
   let d := 1.0349722e-3 + 2.2717988e-4 * ln r + 3.008424e-7 * (ln r) ^ 3 in
   fst (Thermistor.read_resistance Examples.thermistor 1000 400) = Some r /\
   0 < r /\ 0 < d /\
   fst (Thermistor.read Examples.thermistor "C" 1000 400) =
     Thermistor.Value (Some (1 / d - 273.15)) /\
   Thermistor.read_celsius_rounded Examples.thermistor Thermistor.no_rounding
     1000 400 = 1 / d - 273.15 /\
   forall e : Thermistor.Roundings,
     Thermistor.roundings_within 1e-12 e ->
     Rabs (Thermistor.read_celsius_rounded Examples.thermistor e 1000 400
           - (1 / d - 273.15)) < 1e-6).
Proof.
  split; [|split; [|split]].
  - rewrite read_eq. destruct (Rle_dec (ref - raw) 0) as [Hle | Hgt].
    + split; auto.
    + cbv zeta. split; [|intro; contradiction].
      destruct (String.eqb unit "K"); [discriminate|].
      destruct (String.eqb unit "C"); discriminate.
  - intro Hpos. rewrite read_resistance_eq.
    destruct (Rle_dec (ref - raw) 0) as [Hle | Hgt]; [Lra.lra|]. reflexivity.
  - intros Hpos r d _ _. subst r d. rewrite read_eq.
    destruct (Rle_dec (ref - raw) 0) as [Hle | Hgt]; [Lra.lra|]. reflexivity.
  - cbv zeta. destruct scenario_log_bounds as [HL1 HL2].
    assert (HL3 : 0 < ln (400 * 1960 / 600) ^ 3) by (apply pow_lt; Lra.lra).
    split; [|split; [|split; [|split; [|split]]]].
    + rewrite read_resistance_eq.
      destruct (Rle_dec (1000 - 400) 0) as [Hle | Hgt]; [Lra.lra|].
      cbn [Examples.thermistor Thermistor.init Thermistor.bias_resistance].
      replace (1000 - 400) with 600 by Lra.lra. reflexivity.
    + Lra.lra.
    + Lra.nra.
    + rewrite read_eq.
      destruct (Rle_dec (1000 - 400) 0) as [Hle | Hgt]; [Lra.lra|].
      cbv zeta. cbn [Examples.thermistor Thermistor.init Thermistor.A
                     Thermistor.B Thermistor.C Thermistor.bias_resistance
                     String.eqb Ascii.eqb Bool.eqb].
      replace (1000 - 400) with 600 by Lra.lra. reflexivity.
    + rewrite read_celsius_exact.
      cbn [Examples.thermistor Thermistor.init Thermistor.A Thermistor.B
           Thermistor.C Thermistor.bias_resistance].
      replace (1000 - 400) with 600 by Lra.lra. reflexivity.
    + intros e He. pose proof (scenario_rounded e He) as [N1 N2].
      apply Rabs_def1; Lra.lra.
Qed.

End ThermistorProperties.

(** * Worked instances *)

Section Instances.

Local Open Scope Q_scope.

Lemma clamped_delegate_honours_limits :
  Control.pid_honours_limits Examples.clamped_delegate.
Proof.
  intros pid m Hle. unfold Examples.clamped_delegate. cbn [fst].
  apply max_min_within, Hle.
Qed.

(** The PID control of the examples, at 89.9 degrees. *)
Lemma effort_within_bounds_witness :
  exists e c',
    Control.compute_control_effort Examples.clamped_delegate Examples.pid
      (Some (899 # 10)) = (Some e, c') /\
    (Control.min_output Examples.pid <= e <= Control.max_output Examples.pid) /\
    (Control.law Examples.pid = Control.InfiniteGainControl ->
     e = Control.min_output Examples.pid \/ e = Control.max_output Examples.pid).
Proof.
  eexists. eexists. split; [vm_compute; reflexivity|].
  eapply (effort_within_bounds Examples.clamped_delegate Examples.pid
            (Some (899 # 10)));
    [ exact clamped_delegate_honours_limits
    | reflexivity
    | simpl; lra
    | discriminate
    | reflexivity
    | vm_compute; reflexivity ].
Defined.

(** C1 as stated fails: an idle fan whose outputs are bounded by 0.2 and 1
    answers with the effort 0, which is below its [min_output] and is
    neither bound; and a control whose bounds are swapped answers with its
    [max_output], which is below its [min_output]. *)
Lemma idle_effort_outside_bounds :
  (Control.compute_control_effort Examples.clamped_delegate Examples.idle_fan
     (Some 20) = (Some 0, Examples.idle_fan) /\
   Control.law Examples.idle_fan = Control.InfiniteGainControl /\
   ~ (Control.min_output Examples.idle_fan <= 0) /\
   ~ (0 == Control.min_output Examples.idle_fan) /\
   ~ (0 == Control.max_output Examples.idle_fan)) /\
  (Control.compute_control_effort Examples.clamped_delegate Examples.swapped_bounds
     (Some 20) = (Some 0, Examples.swapped_bounds) /\
   ~ (Control.min_output Examples.swapped_bounds <= 0)).
Proof.
  repeat split; try (simpl; lra); simpl; intro H; discriminate H.
Qed.

(** C2 as stated fails: the idle fan (no setpoint) answers an absent
    measurement with the number 0, not with absent. *)
Lemma idle_control_answers_absent_measurement :
  fst (Control.compute_control_effort Examples.clamped_delegate Examples.idle_fan
         None) = Some 0 /\
  fst (Control.compute_control_effort Examples.clamped_delegate
         (Control.disable Examples.proportional) None) = Some 0 /\
  Some 0 <> (None : option Q).
Proof. repeat split; discriminate. Qed.

(** A disabled proportional control at 85 degrees. *)
Lemma disabled_effort_witness :
  Control.compute_control_effort Examples.clamped_delegate
    (Control.disable Examples.proportional) (Some 85) =
  (Some 0, Control.disable Examples.proportional).
Proof.
  exact (disabled_effort Examples.clamped_delegate
           (Control.disable Examples.proportional) (Some 85) eq_refl).
Defined.

(** C3 as stated fails: a disabled PID control answers an absent measurement
    with absent, not with the number 0. *)
Lemma disabled_pid_absent_measurement :
  Control.enabled (Control.disable Examples.pid) = false /\
  fst (Control.compute_control_effort Examples.clamped_delegate
         (Control.disable Examples.pid) None) = None /\
  (None : option Q) <> Some 0.
Proof. repeat split; discriminate. Qed.

(** The specification's scenario: offset -5, setpoint 90, fan at 85. *)
Lemma fan_setpoint_follows_witness :
  (exists w' c',
     Controller.set_setpoint Examples.heater_fan (Some 90) Examples.world =
       Some (tt, w') /\
     nth_error (Controller.control_objects w') 1 = Some c' /\
     Py.opt_Qeq (Control.setpoint c') (Some 85)) /\
  (exists w' c',
     Controller.set_setpoint Examples.heater_fan None Examples.world =
       Some (tt, w') /\
     nth_error (Controller.control_objects w') 1 = Some c' /\
     Control.setpoint c' = None).
Proof.
  assert (Hvalid : Controller.controls_valid Examples.heater_fan Examples.world).
  { unfold Controller.controls_valid. simpl. repeat constructor. }
  assert (Hfan : In (Controller.fan_control Examples.fan_attributes)
                    (Controller.controls Examples.heater_fan)).
  { simpl. auto. }
  destruct (fan_setpoint_follows Examples.heater_fan Examples.heater_attributes
              Examples.fan_attributes Examples.world eq_refl Hfan Hvalid)
    as [Hpresent Habsent].
  split; [exact (Hpresent 90) | exact Habsent].
Defined.

(** C4 as stated fails: with the fan control's setpoint at 85, setting the
    controller's setpoint to absent makes the fan control's setpoint absent
    too. *)
Lemma absent_setpoint_clears_fan_setpoint :
  exists w' c',
    Controller.set_setpoint Examples.heater_fan None Examples.world = Some (tt, w') /\
    nth_error (Controller.control_objects Examples.world) 1 =
      Some Examples.fan_at_85 /\
    Control.setpoint Examples.fan_at_85 = Some 85 /\
    nth_error (Controller.control_objects w') 1 = Some c' /\
    Control.setpoint c' = None /\
    Control.setpoint c' <> Control.setpoint Examples.fan_at_85.
Proof.
  eexists. eexists. split; [vm_compute; reflexivity|].
  repeat split; discriminate.
Qed.

(** Three samples, the second one late. *)
Lemma records_follow_the_grid_witness :
  exists r' evss,
    ControllerReporter.updates Examples.isoformat Examples.slow_reporter
      [Examples.sample 0; Examples.sample (19 # 10); Examples.sample 2] =
      Some (r', evss) /\
    List.length evss = 3%nat /\
    Forall (fun evs =>
              (List.length (ControllerReporter.record_times evs) <= 1)%nat) evss /\
    forall t0 k t,
      nth_error (ControllerReporter.record_times (List.concat evss)) 0 = Some t0 ->
      nth_error (ControllerReporter.record_times (List.concat evss)) k = Some t ->
      t0 + inject_Z (Z.of_nat k) * 1 <= t.
Proof.
  exact (records_follow_the_grid Examples.isoformat
           [Examples.sample 0; Examples.sample (19 # 10); Examples.sample 2]
           Examples.slow_reporter eq_refl).
Defined.

(** C5 as stated fails: with an interval of one second and calls at 0, 1.9
    and 2 seconds (a nondecreasing clock), records are written at 0, 1.9 and
    2 seconds: the last two are a tenth of a second apart. *)
Lemma late_call_shortens_spacing :
  exists r' evss,
    ControllerReporter.updates Examples.isoformat Examples.slow_reporter
      [Examples.sample 0; Examples.sample (19 # 10); Examples.sample 2] =
      Some (r', evss) /\
    ControllerReporter.interval Examples.slow_reporter = 1 /\
    ControllerReporter.record_times (List.concat evss) = [0; 19 # 10; 2] /\
    ~ ((19 # 10) + ControllerReporter.interval Examples.slow_reporter <= 2).
Proof.
  eexists. eexists. split; [vm_compute; reflexivity|].
  repeat split. simpl. lra.
Qed.

(** A latch set at 90.1 degrees survives excursions to 50 and 200 degrees,
    an absent measurement, an effort computation, a repeated setpoint and a
    disable. *)
Lemma latch_stays_true_witness :
  let ops :=
    [Control.OpUpdate (Some 50); Control.OpComputeControlEffort (Some 50);
     Control.OpSetSetpoint (Some (180 # 2)); Control.OpDisable;
     Control.OpUpdate None; Control.OpUpdate (Some 200)] in
  let c := Control.update Examples.bang_bang (Some (901 # 10)) in
  Control.setpoint (Control.run Examples.clamped_delegate c ops) = Some 90 /\
  Control.setpoint_reached (Control.run Examples.clamped_delegate c ops) = Some true.
Proof.
  apply (latch_stays_true Examples.clamped_delegate 90).
  - reflexivity.
  - reflexivity.
  - repeat constructor.
Defined.

(** Repeating the setpoint of the PID control, and moving the observed
    control from 90 to 95 degrees. *)
Lemma set_setpoint_effect_witness :
  Control.set_setpoint Examples.pid (Some (180 # 2)) = (Examples.pid, []) /\
  (Control.setpoint (fst (Control.set_setpoint Examples.observed (Some 95))) =
     Some 95 /\
   Control.setpoint_reached (fst (Control.set_setpoint Examples.observed (Some 95))) =
     Some false /\
   snd (Control.set_setpoint Examples.observed (Some 95)) =
     [AfterSetpointChange 7 (Some 95)]).
Proof.
  split.
  - exact (proj1 (set_setpoint_effect Examples.pid (Some (180 # 2)) eq_refl) eq_refl).
  - exact (proj2 (set_setpoint_effect Examples.observed (Some 95) I) eq_refl).
Defined.

(** C7 as stated fails: changing the setpoint from 90 to absent puts the
    latch to [False], not to unset. *)
Lemma absent_setpoint_resets_latch_to_false :
  Py.opt_eqb None (Control.setpoint Examples.observed) = false /\
  Control.setpoint (fst (Control.set_setpoint Examples.observed None)) = None /\
  Control.setpoint_reached (fst (Control.set_setpoint Examples.observed None)) =
    Some false /\
  Some false <> (None : option bool).
Proof. repeat split; discriminate. Qed.

(** Two efforts, the second one absent: the record keeps a blank field. *)
Lemma report_string_fields_witness :
  ControllerReporter.report_string 0 (3 # 2) 25 None (Some true) [Some (1 # 2); None] =
  Py.join ","
    (ControllerReporter.spec_record_fields 0 (3 # 2) 25 None (Some true)
       [Some (1 # 2); None]).
Proof.
  apply (report_string_fields 0 (3 # 2) 25 None (Some true) [Some (1 # 2); None]).
  discriminate.
Defined.

(** A fresh reporter ignores two samples. *)
Lemma reporter_starts_disabled_witness :
  ControllerReporter.updates Examples.isoformat
    (ControllerReporter.init (1 # 2) "Temperature" "deg C" [] "" "")
    [Examples.sample 0; Examples.sample 1] =
  Some (ControllerReporter.init (1 # 2) "Temperature" "deg C" [] "" "", [[]; []]).
Proof.
  exact (proj1 (proj2 (proj2
           (reporter_starts_disabled_and_reset_enables Examples.isoformat)))
           (ControllerReporter.init (1 # 2) "Temperature" "deg C" [] "" "")
           [Examples.sample 0; Examples.sample 1] eq_refl).
Defined.

End Instances.

Section ThermistorInstances.

Local Open Scope R_scope.

Lemma thermistor_divider_valid : 0 < 1023 - 512.
Proof. Lra.lra. Qed.

Lemma thermistor_resistance_valid : 0 < 512 * 1960 / (1023 - 512).
Proof.
  apply Rdiv_lt_0_compat; Lra.lra.
Qed.

Lemma thermistor_denominator_valid :
  1.0349722e-3 + 2.2717988e-4 * ln (512 * 1960 / (1023 - 512))
  + 3.008424e-7 * (ln (512 * 1960 / (1023 - 512))) ^ 3 <> 0.
Proof.
  assert (Hr : 3 < 512 * 1960 / (1023 - 512) < 2 ^ 11).
  { replace (1023 - 512) with 511 by Lra.lra. split.
    - apply Rmult_lt_reg_r with 511; [Lra.lra|].
      unfold Rdiv. rewrite Rmult_assoc, Rinv_l, Rmult_1_r by Lra.lra. Lra.lra.
    - apply Rmult_lt_reg_r with 511; [Lra.lra|].
      unfold Rdiv. rewrite Rmult_assoc, Rinv_l, Rmult_1_r by Lra.lra. Lra.lra. }
  destruct (log_bounds _ Hr) as [HL1 HL2].
  assert (HL3 : 0 < ln (512 * 1960 / (1023 - 512)) ^ 3) by (apply pow_lt; Lra.lra).
  Lra.nra.
Qed.

(** A ten-bit converter at mid-scale. *)
Lemma thermistor_read_witness :
  fst (Thermistor.read_resistance Examples.thermistor 1023 512) =
    Some (512 * 1960 / (1023 - 512)) /\
  fst (Thermistor.read Examples.thermistor "C" 1023 512) =
    Thermistor.Value
      (Some (1 / (1.0349722e-3 + 2.2717988e-4 * ln (512 * 1960 / (1023 - 512))
                  + 3.008424e-7 * (ln (512 * 1960 / (1023 - 512))) ^ 3)
             - 273.15)).
Proof.
  split.
  - exact (proj1 (proj2 (thermistor_read Examples.thermistor "C" 1023 512))
             thermistor_divider_valid).
  - exact (proj1 (proj2 (proj2 (thermistor_read Examples.thermistor "C" 1023 512)))
             thermistor_divider_valid thermistor_resistance_valid
             thermistor_denominator_valid).
Defined.

End ThermistorInstances.

(** * Further properties of the control strategies *)

Section ControlBehaviour.

Local Open Scope Q_scope.

Variable pid_call : Control.PID -> Q -> Q * list Q.

Lemma same_strategy_refl (c : Control.t) : Control.same_strategy c c.
Proof.
  unfold Control.same_strategy. destruct (Control.law c); reflexivity.
Qed.

Lemma same_configuration_refl (c : Control.t) : Control.same_configuration c c.
Proof.
  unfold Control.same_configuration. repeat split. apply same_strategy_refl.
Qed.

Lemma same_configuration_trans (a b c : Control.t) :
  Control.same_configuration a b -> Control.same_configuration b c ->
  Control.same_configuration a c.
Proof.
  unfold Control.same_configuration, Control.same_strategy.
  intros (H1 & H2 & H3 & H4 & H5 & H6) (K1 & K2 & K3 & K4 & K5 & K6).
  repeat split; try congruence.
  destruct (Control.law a), (Control.law b), (Control.law c);
    try contradiction; congruence.
Qed.

Lemma step_same_configuration (c : Control.t) (op : Control.Op) :
  Control.same_configuration c (Control.step pid_call c op).
Proof.
  unfold Control.same_configuration, Control.same_strategy.
  destruct op as [m | m | v | | |]; simpl.
  - unfold Control.update.
    destruct (Control.setpoint c); simpl;
      [destruct (Control.compute_setpoint_reached c m) as [[|]|]; simpl|];
      repeat split; destruct (Control.law c); reflexivity.
  - unfold Control.compute_control_effort, Control.PIDControl_compute_control_effort.
    destruct (Control.law c) as [| g | p] eqn:El; simpl; rewrite ?El;
      try (repeat split; reflexivity).
    destruct m as [m|]; simpl; rewrite ?El; [|repeat split; reflexivity].
    destruct (Py.is_none (Control.setpoint c) || negb (Control.enabled c));
      simpl; rewrite ?El; [repeat split; reflexivity|].
    destruct (pid_call p m); simpl. repeat split; reflexivity.
  - unfold Control.set_setpoint, Control.PIDControl_set_setpoint.
    rewrite Control_set_setpoint_eq.
    destruct (Control.law c) as [| g | p] eqn:El;
      destruct (Py.opt_eqb v (Control.setpoint c)); simpl; rewrite ?El;
      try (repeat split; reflexivity).
    + destruct (Control.setpoint c); simpl; rewrite ?El; repeat split; reflexivity.
    + destruct v; simpl; rewrite ?El; repeat split; reflexivity.
  - repeat split. destruct (Control.law c); reflexivity.
  - repeat split. destruct (Control.law c); reflexivity.
  - repeat split. destruct (Control.law c); reflexivity.
Qed.

(** X2: no sequence of operations on a control ([update], effort
    computation, [set_setpoint], latch reset, enable, disable) ever changes
    its output bounds, its epsilon, the direction of its output, its
    callback or its strategy (class, gain, the delegate's limits). *)
Theorem operations_keep_configuration (ops : list Control.Op) (c : Control.t) :
  Control.same_configuration c (Control.run pid_call c ops).
Proof.
  revert c. induction ops as [|op ops IH]; intro c; simpl.
  - apply same_configuration_refl.
  - eapply same_configuration_trans; [apply step_same_configuration | apply IH].
Qed.

(** X3: the bang-bang strategy, enabled and with a setpoint: when the
    output increases the process variable the effort is [max_output]
    strictly below the setpoint and [min_output] at or above it; when the
    output decreases the process variable the effort is [max_output]
    strictly above the setpoint and [min_output] at or below it. *)
Theorem bang_bang_direction (c : Control.t) (s m : Q) :
  Control.law c = Control.InfiniteGainControl ->
  Control.setpoint c = Some s ->
  Control.enabled c = true ->
  (Control.output_increases_pv c = true ->
   (m < s -> fst (Control.compute_control_effort pid_call c (Some m)) =
             Some (Control.max_output c)) /\
   (s <= m -> fst (Control.compute_control_effort pid_call c (Some m)) =
              Some (Control.min_output c))) /\
  (Control.output_increases_pv c = false ->
   (s < m -> fst (Control.compute_control_effort pid_call c (Some m)) =
             Some (Control.max_output c)) /\
   (m <= s -> fst (Control.compute_control_effort pid_call c (Some m)) =
              Some (Control.min_output c))).
Proof.
  intros Hl Hs He.
  unfold Control.compute_control_effort,
    Control.InfiniteGainControl_compute_control_effort, Control.compute_error.
  rewrite Hl, Hs, He. simpl.
  split; intros ->; split; intro H.
  - assert (E : Py.Qltb 0 (s - m) = true) by (apply Qltb_true; lra).
    rewrite E. reflexivity.
  - assert (E : Py.Qltb 0 (s - m) = false) by (apply Qltb_false; lra).
    rewrite E. reflexivity.
  - assert (E : Py.Qltb (s - m) 0 = true) by (apply Qltb_true; lra).
    rewrite E. reflexivity.
  - assert (E : Py.Qltb (s - m) 0 = false) by (apply Qltb_false; lra).
    rewrite E. reflexivity.
Qed.

Lemma max_min_cases (lo hi u : Q) :
  lo <= hi ->
  (u <= lo -> Py.max lo (Py.min hi u) == lo) /\
  (lo <= u <= hi -> Py.max lo (Py.min hi u) == u) /\
  (hi <= u -> Py.max lo (Py.min hi u) == hi).
Proof.
  intro Hle. unfold Py.max, Py.min.
  destruct (Py.Qltb u hi) eqn:E1; cbv iota.
  - apply Qltb_true in E1.
    destruct (Py.Qltb lo u) eqn:E2; cbv iota.
    + apply Qltb_true in E2. repeat split; intros; lra.
    + apply Qltb_false in E2. repeat split; intros; lra.
  - apply Qltb_false in E1.
    destruct (Py.Qltb lo hi) eqn:E2; cbv iota.
    + apply Qltb_true in E2. repeat split; intros; lra.
    + apply Qltb_false in E2. repeat split; intros; lra.
Qed.

(** X4: the proportional strategy, enabled, with a setpoint and with
    [min_output <= max_output]: writing [u] for the gain (negated when the
    output decreases the process variable) times the error, the effort is
    [min_output] when [u] is at or below it, [max_output] when [u] is at or
    above it, and [u] itself in between. *)
Theorem proportional_effort_saturates (c : Control.t) (gain s m : Q) :
  Control.law c = Control.ProportionalControl gain ->
  Control.setpoint c = Some s ->
  Control.enabled c = true ->
  Control.min_output c <= Control.max_output c ->
  exists e,
    fst (Control.compute_control_effort pid_call c (Some m)) = Some e /\
    let u := (if Control.output_increases_pv c then gain else - gain) * (s - m) in
    (u <= Control.min_output c -> e == Control.min_output c) /\
    (Control.min_output c <= u <= Control.max_output c -> e == u) /\
    (Control.max_output c <= u -> e == Control.max_output c).
Proof.
  intros Hl Hs He Hle.
  unfold Control.compute_control_effort,
    Control.ProportionalControl_compute_control_effort, Control.compute_error.
  rewrite Hl, Hs, He. simpl.
  eexists. split; [reflexivity|].
  unfold Control.clamp_output. apply max_min_cases, Hle.
Qed.

Lemma step_latch_without_epsilon (c : Control.t) (op : Control.Op) :
  Control.setpoint_reached_epsilon c <= 0 ->
  Control.setpoint_reached c <> Some true ->
  Control.setpoint_reached (Control.step pid_call c op) <> Some true.
Proof.
  intros Heps Hr. destruct op as [m | m | v | | |]; simpl.
  - unfold Control.update, Control.compute_setpoint_reached.
    destruct (Control.setpoint c) eqn:Es; simpl; [|discriminate].
    destruct (Control.compute_error c m) as [e|]; [|exact Hr].
    destruct (Py.Qltb (Qabs e) (Control.setpoint_reached_epsilon c)) eqn:E;
      [|exact Hr].
    apply Qltb_true in E. pose proof (Qabs_nonneg e). lra.
  - unfold Control.compute_control_effort, Control.PIDControl_compute_control_effort.
    destruct (Control.law c) as [| g | p]; simpl; auto.
    destruct m as [m|]; simpl; auto.
    destruct (Py.is_none (Control.setpoint c) || negb (Control.enabled c));
      simpl; auto.
    destruct (pid_call p m); simpl; auto.
  - unfold Control.set_setpoint, Control.PIDControl_set_setpoint.
    rewrite Control_set_setpoint_eq.
    destruct (Control.law c) as [| g | p];
      destruct (Py.opt_eqb v (Control.setpoint c)); simpl; auto;
      try discriminate.
    + destruct (Control.setpoint c); simpl; auto.
    + destruct v; simpl; discriminate.
  - discriminate.
  - exact Hr.
  - exact Hr.
Qed.

(** X5: a control whose epsilon is zero (the constructor's default) or
    negative never reports its setpoint reached: if the latch is not true,
    no sequence of operations makes it true. *)
Theorem no_epsilon_never_reached (ops : list Control.Op) (c : Control.t) :
  Control.setpoint_reached_epsilon c <= 0 ->
  Control.setpoint_reached c <> Some true ->
  Control.setpoint_reached (Control.run pid_call c ops) <> Some true.
Proof.
  revert c. induction ops as [|op ops IH]; intros c Heps Hr; simpl.
  - exact Hr.
  - apply IH.
    + destruct (step_same_configuration c op) as (_ & _ & -> & _). exact Heps.
    + apply step_latch_without_epsilon; assumption.
Qed.

(** X6: one [update] with a present setpoint [s] and a present measurement
    [m] sets the latch to true when [|s - m| < epsilon] and leaves it as it
    was otherwise; with an absent measurement it leaves the control as it
    was; with an absent setpoint it sets the latch to unset, whatever the
    measurement. *)
Theorem update_latch (c : Control.t) (m : option Q) :
  match Control.setpoint c, m with
  | None, _ => Control.setpoint_reached (Control.update c m) = None
  | Some s, None => Control.update c m = c
  | Some s, Some m' =>
      (Qabs (s - m') < Control.setpoint_reached_epsilon c ->
       Control.setpoint_reached (Control.update c m) = Some true) /\
      (Control.setpoint_reached_epsilon c <= Qabs (s - m') ->
       Control.update c m = c)
  end.
Proof.
  unfold Control.update, Control.compute_setpoint_reached, Control.compute_error.
  destruct (Control.setpoint c) as [s|]; [|reflexivity].
  destruct m as [m'|]; [|reflexivity].
  split; intro H.
  - apply Qltb_true in H. rewrite H. reflexivity.
  - apply Qltb_false in H. rewrite H. reflexivity.
Qed.

(** X7: calling [set_setpoint] a second time with the same value does
    nothing: the control is left as the first call left it and no callback
    is called. *)
Theorem set_setpoint_twice (c : Control.t) (v : option Q) :
  Control.set_setpoint (fst (Control.set_setpoint c v)) v =
  (fst (Control.set_setpoint c v), []).
Proof.
  unfold Control.set_setpoint, Control.PIDControl_set_setpoint.
  rewrite !Control_set_setpoint_eq.
  destruct c as [l sp lo hi cb r eps dir en].
  destruct l as [| g | p]; cbn -[Py.opt_eqb].
  - destruct (Py.opt_eqb v sp) eqn:E; cbn -[Py.opt_eqb];
      rewrite ?E, ?opt_eqb_refl; reflexivity.
  - destruct (Py.opt_eqb v sp) eqn:E; cbn -[Py.opt_eqb];
      rewrite ?E, ?opt_eqb_refl; reflexivity.
  - destruct (Py.opt_eqb v sp) eqn:E; cbn -[Py.opt_eqb].
    + destruct sp as [s|]; cbn -[Py.opt_eqb];
        rewrite ?Control_set_setpoint_eq; cbn -[Py.opt_eqb];
        rewrite ?E; reflexivity.
    + destruct v as [s|]; cbn -[Py.opt_eqb];
        rewrite ?Control_set_setpoint_eq; cbn -[Py.opt_eqb];
        rewrite ?opt_eqb_refl; reflexivity.
Qed.

Lemma step_keeps_limits (c : Control.t) (op : Control.Op) :
  Control.pid_limits_agree c ->
  Control.pid_limits_agree (Control.step pid_call c op).
Proof.
  unfold Control.pid_limits_agree. intro H.
  destruct (step_same_configuration c op) as (Hlo & Hhi & _ & _ & _ & Hsame).
  unfold Control.same_strategy in Hsame.
  destruct (Control.law c) as [| g | p],
    (Control.law (Control.step pid_call c op)) as [| g' | p'];
    try contradiction; auto.
  rewrite Hsame, Hlo, Hhi. exact H.
Qed.

(** X8: a PID control stays in step with its delegate: after construction
    and any sequence of operations, whenever the control has a setpoint the
    delegate's setpoint is that same setpoint, and the delegate's limits are
    the control's output bounds. *)
Theorem pid_delegate_in_step (kp ki kd : Q) (initial_setpoint : option Q)
    (lo hi eps : Q) (dir : bool) (ops : list Control.Op) :
  let c := Control.run pid_call
             (Control.PIDControl_init kp ki kd initial_setpoint lo hi eps dir) ops in
  Control.pid_synced c /\ Control.pid_limits_agree c.
Proof.
  cbv zeta.
  destruct (PIDControl_init_synced kp ki kd initial_setpoint lo hi eps dir)
    as [Hs Hl].
  revert Hs Hl.
  generalize (Control.PIDControl_init kp ki kd initial_setpoint lo hi eps dir).
  induction ops as [|op ops IH]; intros c Hs Hl; simpl; [auto|].
  apply IH; [apply step_keeps_synced, Hs | apply step_keeps_limits, Hl].
Qed.

(** X9: clearing the setpoint of a PID control never touches the delegate:
    the delegate keeps the setpoint it had, and while the control has no
    setpoint the effort for a present measurement is the number 0 and the
    delegate is not consulted. *)
Theorem clearing_setpoint_spares_delegate (c : Control.t) (p : Control.PID) (m : Q) :
  Control.law c = Control.PIDControl p ->
  Control.law (fst (Control.set_setpoint c None)) = Control.PIDControl p /\
  Control.setpoint (fst (Control.set_setpoint c None)) = None /\
  Control.compute_control_effort pid_call (fst (Control.set_setpoint c None)) (Some m) =
    (Some 0, fst (Control.set_setpoint c None)).
Proof.
  intro Hl. unfold Control.set_setpoint, Control.PIDControl_set_setpoint.
  rewrite Hl, Control_set_setpoint_eq.
  destruct (Control.setpoint c) as [s|] eqn:Es; simpl.
  - split; [exact Hl|]. split; [reflexivity|].
    unfold Control.compute_control_effort. simpl. rewrite Hl. reflexivity.
  - rewrite ?Es. simpl. rewrite ?Es. simpl.
    split; [exact Hl|]. split; [reflexivity|].
    unfold Control.compute_control_effort, Control.PIDControl_compute_control_effort.
    rewrite Hl, Es. reflexivity.
Qed.

End ControlBehaviour.

(** * Further properties of the reporter *)

Section ReporterSessions.

Local Open Scope Q_scope.

Variable isoformat : Q -> string.

(** The first sample a reporter accepts while it is not armed starts a
    session; a sample it does not accept (absent, or reporter disabled)
    leaves it as it was. *)
Lemma update_unarmed (r : ControllerReporter.t) (t : Q) (pv sp : option Q)
    (reached : option bool) (efforts : list (option Q)) :
  ControllerReporter.next_report_index r = None ->
  ControllerReporter.update isoformat r t pv sp reached efforts =
  match pv with
  | Some x =>
      if ControllerReporter.enabled r then
        Some (ControllerReporter.session_started isoformat r t,
              ControllerReporter.session_opening isoformat r t ++
              [WriteHeader (ControllerReporter.session_sink isoformat r t)
                 (ControllerReporter.header_string r);
               WriteRecord (ControllerReporter.session_sink isoformat r t) t
                 (ControllerReporter.report_string t t x sp reached efforts)])
      else Some (r, [])
  | None => Some (r, [])
  end.
Proof.
  intro Hi. unfold ControllerReporter.update.
  destruct pv as [x|]; [|reflexivity].
  destruct (ControllerReporter.enabled r); simpl; [|reflexivity].
  rewrite Hi.
  assert (Hdue : Qle_bool (inject_Z 0 * ControllerReporter.interval r + t) t = true).
  { apply Qle_bool_iff. change (inject_Z 0) with 0. lra. }
  unfold ControllerReporter.open_report, ControllerReporter.generate_filename,
    ControllerReporter.session_started, ControllerReporter.session_opening,
    ControllerReporter.session_sink.
  destruct (ControllerReporter.class r) eqn:Ec; simpl; rewrite Ec; simpl;
    rewrite Hdue; reflexivity.
Qed.

Lemma record_times_all_records (sink : Sink) (evs : list Event) :
  Forall (ControllerReporter.is_record_to sink) evs ->
  List.length (ControllerReporter.record_times evs) = List.length evs.
Proof.
  induction 1 as [|e evs He _ IH]; [reflexivity|].
  destruct e; simpl in *; try contradiction. rewrite IH. reflexivity.
Qed.

(** An armed reporter only ever writes records, all to its sink, and counts
    them in [next_report_index]. *)
Lemma updates_armed_log (calls : list ControllerReporter.Call) :
  forall (r : ControllerReporter.t) (i : Z) (s : Q) (sink : Sink),
  ControllerReporter.next_report_index r = Some i ->
  ControllerReporter.start_time r = Some s ->
  ControllerReporter.file r = Some sink ->
  exists r' evss,
    ControllerReporter.updates isoformat r calls = Some (r', evss) /\
    Forall (ControllerReporter.is_record_to sink) (List.concat evss) /\
    ControllerReporter.next_report_index r' =
      Some (i + Z.of_nat (List.length (List.concat evss)))%Z /\
    ControllerReporter.start_time r' = Some s /\
    ControllerReporter.file r' = Some sink.
Proof.
  induction calls as [|c calls IH]; intros r i s sink Hi Hs Hf.
  - exists r, []. simpl. rewrite Z.add_0_r. auto.
  - simpl. unfold ControllerReporter.update_call.
    destruct (update_armed isoformat r i s sink (ControllerReporter.call_time c)
                (ControllerReporter.call_pv c) (ControllerReporter.call_setpoint c)
                (ControllerReporter.call_setpoint_reached c)
                (ControllerReporter.call_efforts c) Hi Hs Hf)
      as [-> | (line & -> & Hdue)].
    + destruct (IH r i s sink Hi Hs Hf) as (r' & evss & -> & Hall & Hidx & Hs' & Hf').
      exists r', ([] :: evss). simpl. auto.
    + destruct (IH (ControllerReporter.with_timing r (Some s) (Some (i + 1)%Z))
                  (i + 1)%Z s sink eq_refl eq_refl Hf)
        as (r' & evss & -> & Hall & Hidx & Hs' & Hf').
      exists r', ([WriteRecord sink (ControllerReporter.call_time c) line] :: evss).
      simpl. repeat split; auto.
      * constructor; [reflexivity | exact Hall].
      * rewrite Hidx. f_equal. lia.
Qed.

(** The whole log of a run that starts with a reporter that is not armed. *)
Lemma updates_unarmed_log (calls : list ControllerReporter.Call) :
  forall r : ControllerReporter.t,
  ControllerReporter.next_report_index r = None ->
  exists r' evss,
    ControllerReporter.updates isoformat r calls = Some (r', evss) /\
    ((List.concat evss = [] /\ r' = r) \/
     (exists t line recs,
        List.concat evss =
          ControllerReporter.session_opening isoformat r t ++
          WriteHeader (ControllerReporter.session_sink isoformat r t)
            (ControllerReporter.header_string r)
          :: WriteRecord (ControllerReporter.session_sink isoformat r t) t line
          :: recs /\
        Forall (ControllerReporter.is_record_to
                  (ControllerReporter.session_sink isoformat r t)) recs /\
        ControllerReporter.next_report_index r' =
          Some (1 + Z.of_nat (List.length recs))%Z /\
        ControllerReporter.start_time r' = Some t /\
        ControllerReporter.file r' =
          Some (ControllerReporter.session_sink isoformat r t))).
Proof.
  induction calls as [|c calls IH]; intros r Hi.
  - exists r, []. simpl. auto.
  - simpl. unfold ControllerReporter.update_call.
    rewrite (update_unarmed r _ _ _ _ _ Hi).
    destruct (ControllerReporter.call_pv c) as [x|].
    + destruct (ControllerReporter.enabled r).
      * destruct (updates_armed_log calls
                    (ControllerReporter.session_started isoformat r
                       (ControllerReporter.call_time c))
                    1%Z (ControllerReporter.call_time c)
                    (ControllerReporter.session_sink isoformat r
                       (ControllerReporter.call_time c))
                    eq_refl eq_refl eq_refl)
          as (r' & evss & -> & Hall & Hidx & Hs' & Hf').
        eexists. eexists. split; [reflexivity|]. right.
        exists (ControllerReporter.call_time c). eexists. exists (List.concat evss).
        simpl. rewrite <- app_assoc. simpl. auto.
      * destruct (IH r Hi) as (r' & evss & -> & Hlog).
        exists r', ([] :: evss). simpl. auto.
    + destruct (IH r Hi) as (r' & evss & -> & Hlog).
      exists r', ([] :: evss). simpl. auto.
Qed.

(** X10: in any run of [update] calls from a reporter that is not armed,
    every call succeeds and the log is either empty or one session: the sink
    is opened (named after the time of the first accepted sample), the
    header is written exactly once, the first record follows it at once, and
    everything after that is a record written to the same sink. *)
Theorem header_once_before_records (calls : list ControllerReporter.Call)
    (r : ControllerReporter.t) :
  ControllerReporter.next_report_index r = None ->
  exists r' evss,
    ControllerReporter.updates isoformat r calls = Some (r', evss) /\
    (List.concat evss = [] \/
     exists t line recs,
       List.concat evss =
         ControllerReporter.session_opening isoformat r t ++
         WriteHeader (ControllerReporter.session_sink isoformat r t)
           (ControllerReporter.header_string r)
         :: WriteRecord (ControllerReporter.session_sink isoformat r t) t line
         :: recs /\
       Forall (ControllerReporter.is_record_to
                 (ControllerReporter.session_sink isoformat r t)) recs).
Proof.
  intro Hi. destruct (updates_unarmed_log calls r Hi) as (r' & evss & Hrun & Hlog).
  exists r', evss. split; [exact Hrun|].
  destruct Hlog as [[Hnil _] | (t & line & recs & Hlog & Hall & _)].
  - left. exact Hnil.
  - right. exists t, line, recs. auto.
Qed.

(** X11: [next_report_index] counts the records written: after any run of
    [update] calls from a reporter that is not armed, either nothing was
    written and the reporter is as it was, or the index equals the number of
    records in the log and [start_time] is the report time of the first of
    them. *)
Theorem index_counts_records (calls : list ControllerReporter.Call)
    (r : ControllerReporter.t) :
  ControllerReporter.next_report_index r = None ->
  exists r' evss,
    ControllerReporter.updates isoformat r calls = Some (r', evss) /\
    ((ControllerReporter.record_times (List.concat evss) = [] /\ r' = r) \/
     (ControllerReporter.next_report_index r' =
        Some (Z.of_nat (List.length
                          (ControllerReporter.record_times (List.concat evss)))) /\
      ControllerReporter.start_time r' =
        nth_error (ControllerReporter.record_times (List.concat evss)) 0)).
Proof.
  intro Hi. destruct (updates_unarmed_log calls r Hi) as (r' & evss & Hrun & Hlog).
  exists r', evss. split; [exact Hrun|].
  destruct Hlog as [[Hnil ->] | (t & line & recs & Hlog & Hall & Hidx & Hs & _)].
  - left. rewrite Hnil. auto.
  - right. rewrite Hlog, record_times_app.
    assert (Hopen : ControllerReporter.record_times
                      (ControllerReporter.session_opening isoformat r t) = []).
    { unfold ControllerReporter.session_opening.
      destruct (ControllerReporter.class r); reflexivity. }
    rewrite Hopen. simpl.
    rewrite (record_times_all_records _ _ Hall). split; [|exact Hs].
    rewrite Hidx. f_equal. lia.
Qed.

(** X12: [reset] followed by an accepted sample starts a fresh session
    whatever state the reporter was in (disabled, idle or in the middle of a
    session): [reset] closes the open file of a file reporter (and closes
    nothing for the printer), and the sample then opens a new sink named
    after its own time and writes the header and a first record with elapsed
    time zero. *)
Theorem reset_starts_fresh_session (r : ControllerReporter.t) (t pv : Q)
    (sp : option Q) (reached : option bool) (efforts : list (option Q)) :
  let r0 := fst (ControllerReporter.reset r) in
  snd (ControllerReporter.reset r) =
    match ControllerReporter.class r, ControllerReporter.file r with
    | ControllerReporter.ControllerReporter, Some (FileSink name) => [CloseFile name]
    | _, _ => []
    end /\
  ControllerReporter.update isoformat r0 t (Some pv) sp reached efforts =
    Some (ControllerReporter.session_started isoformat r0 t,
          ControllerReporter.session_opening isoformat r0 t ++
          [WriteHeader (ControllerReporter.session_sink isoformat r0 t)
             (ControllerReporter.header_string r);
           WriteRecord (ControllerReporter.session_sink isoformat r0 t) t
             (ControllerReporter.report_string t t pv sp reached efforts)]).
Proof.
  cbv zeta.
  assert (Hreset : ControllerReporter.next_report_index
                     (fst (ControllerReporter.reset r)) = None /\
                   ControllerReporter.enabled (fst (ControllerReporter.reset r)) = true /\
                   ControllerReporter.header_string (fst (ControllerReporter.reset r)) =
                     ControllerReporter.header_string r).
  { unfold ControllerReporter.reset, ControllerReporter.close_report. simpl.
    destruct (ControllerReporter.class r); simpl; [|auto].
    destruct (ControllerReporter.file r) as [[name|]|]; simpl; auto. }
  destruct Hreset as (Hi & He & Hh).
  split.
  - unfold ControllerReporter.reset, ControllerReporter.close_report. simpl.
    destruct (ControllerReporter.class r); simpl; [|destruct (ControllerReporter.file r) as [[?|]|]; reflexivity].
    destruct (ControllerReporter.file r) as [[name|]|]; reflexivity.
  - rewrite (update_unarmed _ _ _ _ _ _ Hi), He, Hh. reflexivity.
Qed.

(** X22: once a session has started (the reporter has a report index, a
    start time and a sink), no sequence of samples, [enable] and [disable]
    calls ever writes another header or opens another sink: every operation
    succeeds, every event is a record written to the session's sink, and
    the sink and the start time stay what they were. *)
Theorem session_writes_only_records (ops : list ControllerReporter.Op) :
  forall (r : ControllerReporter.t) (i : Z) (s : Q) (sink : Sink),
  ControllerReporter.next_report_index r = Some i ->
  ControllerReporter.start_time r = Some s ->
  ControllerReporter.file r = Some sink ->
  exists r' evs,
    ControllerReporter.run isoformat r ops = Some (r', evs) /\
    Forall (ControllerReporter.is_record_to sink) evs /\
    ControllerReporter.next_report_index r' =
      Some (i + Z.of_nat (List.length evs))%Z /\
    ControllerReporter.start_time r' = Some s /\
    ControllerReporter.file r' = Some sink.
Proof.
  induction ops as [|op ops IH]; intros r i s sink Hi Hs Hf.
  - exists r, []. simpl. rewrite Z.add_0_r. auto.
  - cbn [ControllerReporter.run]. destruct op as [c | |]; cbn [ControllerReporter.step].
    + unfold ControllerReporter.update_call.
      destruct (update_armed isoformat r i s sink (ControllerReporter.call_time c)
                  (ControllerReporter.call_pv c) (ControllerReporter.call_setpoint c)
                  (ControllerReporter.call_setpoint_reached c)
                  (ControllerReporter.call_efforts c) Hi Hs Hf)
        as [-> | (line & -> & Hdue)].
      * destruct (IH r i s sink Hi Hs Hf) as (r' & evs & -> & Hall & Hidx & Hs' & Hf').
        exists r', evs. simpl. auto.
      * destruct (IH (ControllerReporter.with_timing r (Some s) (Some (i + 1)%Z))
                    (i + 1)%Z s sink eq_refl eq_refl Hf)
          as (r' & evs & -> & Hall & Hidx & Hs' & Hf').
        eexists. eexists. split; [reflexivity|]. simpl. repeat split; auto.
        -- constructor; [reflexivity | exact Hall].
        -- rewrite Hidx. f_equal. lia.
    + destruct (IH (ControllerReporter.enable r) i s sink Hi Hs Hf)
        as (r' & evs & -> & Hall & Hidx & Hs' & Hf').
      exists r', evs. simpl. auto.
    + destruct (IH (ControllerReporter.disable r) i s sink Hi Hs Hf)
        as (r' & evs & -> & Hall & Hidx & Hs' & Hf').
      exists r', evs. simpl. auto.
Qed.

End ReporterSessions.

Section HeaderProperties.

Local Open Scope string_scope.

(** X13: the header line is the specification's columns joined by commas,
    for every list of effort names (also none): it has five columns plus one
    per named effort. *)
Theorem header_string_fields (r : ControllerReporter.t) :
  ControllerReporter.header_string r =
    Py.join "," (ControllerReporter.spec_header_fields r) /\
  List.length (ControllerReporter.spec_header_fields r) =
    (5 + List.length (ControllerReporter.control_efforts r))%nat.
Proof.
  split.
  - unfold ControllerReporter.header_string, ControllerReporter.spec_header_fields.
    cbn [app].
    rewrite !join_cons by (try discriminate; intro H; apply app_eq_nil in H;
                           destruct H; discriminate).
    rewrite ?string_app_assoc. cbn [append].
    repeat f_equal.
    destruct (ControllerReporter.control_efforts r) as [|n names] eqn:E.
    + reflexivity.
    + rewrite join_snoc by discriminate.
      rewrite ?string_app_assoc. reflexivity.
  - unfold ControllerReporter.spec_header_fields. cbn [app List.length].
    rewrite length_app. simpl. lia.
Qed.

End HeaderProperties.

(** * Further properties of the thermistor *)

Section ThermistorBehaviour.

Local Open Scope R_scope.

(** X14: with a valid divider (reference above sensed reading) the Celsius
    reading is the Kelvin reading minus 273.15. *)
Theorem celsius_is_kelvin_minus_offset (th : Thermistor.t) (ref raw : R) :
  0 < ref - raw ->
  exists T_Kelvin,
    fst (Thermistor.read th "K" ref raw) = Thermistor.Value (Some T_Kelvin) /\
    fst (Thermistor.read th "C" ref raw) =
      Thermistor.Value (Some (T_Kelvin - 273.15)).
Proof.
  intro Hpos. rewrite !read_eq.
  destruct (Rle_dec (ref - raw) 0) as [Hle | _]; [Lra.lra|].
  cbv zeta. eexists. split; reflexivity.
Qed.

(** X15: an unknown unit is reported as [ValueError] only when the divider
    is valid; with an invalid divider (referenced reading at most 0) [read]
    returns absent for every unit, known or not. *)
Theorem unknown_unit_needs_valid_divider (th : Thermistor.t) (unit : string)
    (ref raw : R) :
  (ref - raw <= 0 ->
   fst (Thermistor.read th unit ref raw) = Thermistor.Value None) /\
  (0 < ref - raw -> unit <> "K"%string -> unit <> "C"%string ->
   fst (Thermistor.read th unit ref raw) =
     Thermistor.ValueError ("Unknown temperature unit: " ++ unit)).
Proof.
  rewrite read_eq. split.
  - intro Hle. destruct (Rle_dec (ref - raw) 0); [reflexivity | contradiction].
  - intros Hpos HK HC.
    destruct (Rle_dec (ref - raw) 0) as [Hle | _]; [Lra.lra|].
    cbv zeta. apply String.eqb_neq in HK, HC. rewrite HK, HC. reflexivity.
Qed.

Lemma divider_ratio_increasing (bias ref raw1 raw2 : R) :
  0 < bias -> 0 < raw1 -> raw1 < raw2 -> raw2 < ref ->
  0 < raw1 * bias / (ref - raw1) /\
  raw1 * bias / (ref - raw1) < raw2 * bias / (ref - raw2).
Proof.
  intros Hb H1 H12 H2.
  assert (Hd1 : 0 < ref - raw1) by Lra.lra.
  assert (Hd2 : 0 < ref - raw2) by Lra.lra.
  assert (Hn1 : 0 < raw1 * bias) by (apply Rmult_lt_0_compat; assumption).
  split.
  - unfold Rdiv. apply Rmult_lt_0_compat; [exact Hn1 | apply Rinv_0_lt_compat, Hd1].
  - unfold Rdiv. apply Rmult_le_0_lt_compat.
    + apply Rlt_le, Hn1.
    + apply Rlt_le, Rinv_0_lt_compat, Hd1.
    + apply Rmult_lt_compat_r; assumption.
    + apply Rinv_lt_contravar; [apply Rmult_lt_0_compat; assumption | Lra.lra].
Qed.

(** X16: for a positive bias resistance and a fixed reference reading, the
    resistance computed from a positive sensed reading below the reference
    is positive and grows strictly with the sensed reading. *)
Theorem resistance_positive_and_increasing (th : Thermistor.t)
    (ref raw1 raw2 : R) :
  0 < Thermistor.bias_resistance th ->
  0 < raw1 -> raw1 < raw2 -> raw2 < ref ->
  exists r1 r2,
    fst (Thermistor.read_resistance th ref raw1) = Some r1 /\
    fst (Thermistor.read_resistance th ref raw2) = Some r2 /\
    0 < r1 /\ r1 < r2.
Proof.
  intros Hb H1 H12 H2. rewrite !read_resistance_eq.
  destruct (Rle_dec (ref - raw1) 0) as [Hle | _]; [Lra.lra|].
  destruct (Rle_dec (ref - raw2) 0) as [Hle | _]; [Lra.lra|].
  eexists. eexists. split; [reflexivity|]. split; [reflexivity|].
  apply divider_ratio_increasing; assumption.
Qed.

Lemma cube_increasing (x y : R) : x < y -> x ^ 3 < y ^ 3.
Proof.
  intro H.
  assert (Hq : 0 < y * y + x * y + x * x).
  { destruct (Req_dec x 0) as [-> | Hx].
    - assert (0 < y * y) by (apply Rmult_lt_0_compat; Lra.lra). Lra.lra.
    - assert (0 < x * x) by (apply Rsqr_pos_lt in Hx; exact Hx).
      assert (0 <= (y + x) * (y + x)) by apply Rle_0_sqr.
      assert (0 <= y * y) by apply Rle_0_sqr.
      Lra.lra. }
  assert (Hp : 0 < (y - x) * (y * y + x * y + x * x))
    by (apply Rmult_lt_0_compat; [Lra.lra | exact Hq]).
  replace (y ^ 3) with (x ^ 3 + (y - x) * (y * y + x * y + x * x)) by ring.
  Lra.lra.
Qed.

(** The calibration curve falls with the resistance. *)
Lemma steinhart_hart_decreasing (th : Thermistor.t) (r1 r2 : R) :
  0 < Thermistor.B th -> 0 < Thermistor.C th ->
  0 < r1 -> r1 < r2 ->
  0 < Thermistor.A th + Thermistor.B th * ln r1 + Thermistor.C th * (ln r1) ^ 3 ->
  1 / (Thermistor.A th + Thermistor.B th * ln r2 + Thermistor.C th * (ln r2) ^ 3) <
  1 / (Thermistor.A th + Thermistor.B th * ln r1 + Thermistor.C th * (ln r1) ^ 3).
Proof.
  intros HB HC Hr1 Hr Hd1.
  assert (Hln : ln r1 < ln r2) by (apply ln_increasing; assumption).
  assert (Hcube : ln r1 ^ 3 < ln r2 ^ 3) by (apply cube_increasing, Hln).
  assert (H1 : Thermistor.B th * ln r1 < Thermistor.B th * ln r2)
    by (apply Rmult_lt_compat_l; assumption).
  assert (H2 : Thermistor.C th * ln r1 ^ 3 < Thermistor.C th * ln r2 ^ 3)
    by (apply Rmult_lt_compat_l; assumption).
  unfold Rdiv. rewrite !Rmult_1_l.
  apply Rinv_lt_contravar; [|Lra.lra].
  apply Rmult_lt_0_compat; Lra.lra.
Qed.

(** X17: the temperature read falls as the sensed reading rises: with a
    positive bias resistance and positive coefficients [B] and [C], for two
    positive sensed readings below the reference, if the Steinhart-Hart
    denominator is positive at the lower reading's resistance, the higher
    reading gives the strictly lower temperature. *)
Theorem temperature_falls_with_sensed_reading (th : Thermistor.t)
    (ref raw1 raw2 : R) :
  0 < Thermistor.bias_resistance th ->
  0 < Thermistor.B th -> 0 < Thermistor.C th ->
  0 < raw1 -> raw1 < raw2 -> raw2 < ref ->
  0 < Thermistor.A th
      + Thermistor.B th * ln (raw1 * Thermistor.bias_resistance th / (ref - raw1))
      + Thermistor.C th
        * (ln (raw1 * Thermistor.bias_resistance th / (ref - raw1))) ^ 3 ->
  exists T1 T2,
    fst (Thermistor.read th "C" ref raw1) = Thermistor.Value (Some T1) /\
    fst (Thermistor.read th "C" ref raw2) = Thermistor.Value (Some T2) /\
    T2 < T1.
Proof.
  intros Hb HB HC H1 H12 H2 Hd. rewrite !read_eq.
  destruct (Rle_dec (ref - raw1) 0) as [Hle | _]; [Lra.lra|].
  destruct (Rle_dec (ref - raw2) 0) as [Hle | _]; [Lra.lra|].
  cbv zeta. cbn [String.eqb Ascii.eqb Bool.eqb].
  eexists. eexists. split; [reflexivity|]. split; [reflexivity|].
  destruct (divider_ratio_increasing _ ref raw1 raw2 Hb H1 H12 H2) as [Hpos Hlt].
  pose proof (steinhart_hart_decreasing th _ _ HB HC Hpos Hlt Hd).
  Lra.lra.
Qed.

End ThermistorBehaviour.

(** * Further properties of the controller *)

Section ControllerBehaviour.

Local Open Scope Q_scope.

Variable pid_call : Control.PID -> Q -> Q * list Q.
Variable isoformat : Q -> string.
Variable time_time : nat -> Q.

(** Applying a function to every addressed control, as the loops over
    [self.controls] do: it succeeds when the addresses are valid, leaves
    every addressed control in the image of the function and touches
    nothing else. *)
Lemma for_each_map_controls (g : Control.t -> Control.t) (P : Control.t -> Prop)
    (refs : list nat) :
  (forall c, P (g c)) ->
  forall w : Controller.World,
  Forall (fun ref => (ref < List.length (Controller.control_objects w))%nat) refs ->
  exists w',
    Controller.for_each
      (fun ref => Controller.bind (Controller.get_control ref)
                    (fun c => Controller.put_control ref (g c))) refs w =
      Some (tt, w') /\
    List.length (Controller.control_objects w') =
      List.length (Controller.control_objects w) /\
    (forall ref c', In ref refs ->
       nth_error (Controller.control_objects w') ref = Some c' -> P c') /\
    (forall ref, ~ In ref refs ->
       nth_error (Controller.control_objects w') ref =
       nth_error (Controller.control_objects w) ref) /\
    Controller.reporter_objects w' = Controller.reporter_objects w /\
    Controller.log w' = Controller.log w /\
    Controller.clock_reads w' = Controller.clock_reads w.
Proof.
  intro HP. induction refs as [|r refs IH]; intros w Hvalid.
  - exists w. simpl. repeat split; auto. intros ref c' [].
  - inversion Hvalid as [|? ? Hr Hrest]; subst.
    destruct (nth_error (Controller.control_objects w) r) as [c|] eqn:Ec;
      [|apply nth_error_None in Ec; lia].
    cbn [Controller.for_each]. unfold Controller.bind at 1.
    unfold Controller.bind at 1, Controller.get_control. rewrite Ec.
    unfold Controller.put_control.
    set (w1 := Controller.mkWorld _ _ _ _).
    assert (Hlen1 : List.length (Controller.control_objects w1) =
                    List.length (Controller.control_objects w)).
    { subst w1. simpl. apply length_store. }
    destruct (IH w1) as (w' & Hrun & Hlen & Hin & Hout & Hrep & Hlog & Hclk).
    { rewrite Hlen1. exact Hrest. }
    exists w'. split; [exact Hrun|]. split; [congruence|]. split; [|split].
    + intros ref c' Href Hc'.
      destruct (in_dec Nat.eq_dec ref refs) as [Hi | Hni].
      * apply (Hin ref c' Hi Hc').
      * destruct Href as [<- | Href]; [|contradiction].
        rewrite (Hout r Hni) in Hc'. subst w1. simpl in Hc'.
        rewrite nth_error_store_same in Hc' by exact Hr.
        injection Hc' as <-. apply HP.
    + intros ref Hni. rewrite Hout by (intro; apply Hni; right; assumption).
      subst w1. simpl. apply nth_error_store_other.
      intro; apply Hni; left; assumption.
    + subst w1. simpl in *. auto.
Qed.

Lemma option_nat_eq_dec (a b : option nat) : {a = b} + {a <> b}.
Proof. repeat decide equality. Qed.

(** The same for the loops over a list of reporters, where [None] entries
    are skipped. *)
Lemma on_reporters_all
    (f : ControllerReporter.t -> ControllerReporter.t * list Event)
    (P : ControllerReporter.t -> Prop) (l : list (option nat)) :
  (forall r, P (fst (f r))) ->
  forall w : Controller.World,
  Controller.reporters_valid l w ->
  exists w',
    Controller.on_reporters f l w = Some (tt, w') /\
    List.length (Controller.reporter_objects w') =
      List.length (Controller.reporter_objects w) /\
    (forall ref r', In (Some ref) l ->
       nth_error (Controller.reporter_objects w') ref = Some r' -> P r') /\
    (forall ref, ~ In (Some ref) l ->
       nth_error (Controller.reporter_objects w') ref =
       nth_error (Controller.reporter_objects w) ref) /\
    Controller.control_objects w' = Controller.control_objects w /\
    Controller.clock_reads w' = Controller.clock_reads w.
Proof.
  intro HP. unfold Controller.on_reporters, Controller.reporters_valid.
  induction l as [|o l IH]; intros w Hvalid.
  - exists w. simpl. repeat split; auto. intros ref r' [].
  - inversion Hvalid as [|? ? Ho Hrest]; subst.
    cbn [Controller.for_each]. unfold Controller.bind at 1.
    destruct o as [r|].
    + destruct (nth_error (Controller.reporter_objects w) r) as [x|] eqn:Ex;
        [|apply nth_error_None in Ex; lia].
      unfold Controller.bind at 1, Controller.get_reporter. rewrite Ex.
      destruct (f x) as [x1 evs] eqn:Ef.
      unfold Controller.bind at 1, Controller.put_reporter, Controller.emit.
      cbn [Controller.reporter_objects Controller.control_objects
           Controller.log Controller.clock_reads].
      set (w1 := Controller.mkWorld _ _ _ _).
      assert (Hlen1 : List.length (Controller.reporter_objects w1) =
                      List.length (Controller.reporter_objects w)).
      { subst w1. simpl. apply length_store. }
      destruct (IH w1) as (w' & Hrun & Hlen & Hin & Hout & Hctl & Hclk).
      { rewrite Hlen1. exact Hrest. }
      exists w'. split; [exact Hrun|]. split; [congruence|]. split; [|split].
      * intros ref r' Href Hr'.
        destruct (in_dec option_nat_eq_dec (Some ref) l) as [Hi | Hni].
        -- apply (Hin ref r' Hi Hr').
        -- destruct Href as [Heq | Href]; [|contradiction].
           injection Heq as <-.
           rewrite (Hout r Hni) in Hr'. subst w1. simpl in Hr'.
           rewrite nth_error_store_same in Hr' by exact Ho.
           injection Hr' as <-. specialize (HP x). rewrite Ef in HP. exact HP.
      * intros ref Hni. rewrite Hout by (intro; apply Hni; right; assumption).
        subst w1. simpl. apply nth_error_store_other.
        intro Heq; apply Hni; left; congruence.
      * subst w1. simpl in *. auto.
    + destruct (IH w Hrest) as (w' & Hrun & Hlen & Hin & Hout & Hctl & Hclk).
      unfold Controller.ret. exists w'. split; [exact Hrun|].
      split; [exact Hlen|]. split; [|split].
      * intros ref r' [Heq | Href] Hr'; [discriminate | eauto].
      * intros ref Hni. apply Hout. intro; apply Hni; right; assumption.
      * auto.
Qed.

(** X18: [Controller.set_setpoint] (inherited by [HeaterController]) gives
    the setpoint to every control the controller owns and touches no other
    control: with valid addresses it succeeds, afterwards every owned
    control's setpoint equals the value given, and every control that is not
    owned is as it was. *)
Theorem set_setpoint_reaches_every_control (self : Controller.t) (v : option Q)
    (w : Controller.World) :
  Controller.controls_valid self w ->
  exists w',
    Controller.Controller_set_setpoint self v w = Some (tt, w') /\
    (forall ref, In ref (Controller.controls self) ->
       exists c',
         nth_error (Controller.control_objects w') ref = Some c' /\
         Py.opt_Qeq (Control.setpoint c') v) /\
    (forall ref, ~ In ref (Controller.controls self) ->
       nth_error (Controller.control_objects w') ref =
       nth_error (Controller.control_objects w) ref).
Proof.
  intro Hvalid. unfold Controller.Controller_set_setpoint.
  destruct (broadcast_setpoint v (Controller.controls self) w Hvalid)
    as (w' & Hrun & Hlen & Hin & Hout).
  exists w'. split; [exact Hrun|]. split; [|exact Hout].
  intros ref Href.
  assert (Hlt : (ref < List.length (Controller.control_objects w'))%nat).
  { rewrite Hlen. unfold Controller.controls_valid in Hvalid.
    rewrite Forall_forall in Hvalid. apply Hvalid, Href. }
  destruct (nth_error (Controller.control_objects w') ref) as [c'|] eqn:Ec;
    [|apply nth_error_None in Ec; lia].
  exists c'. split; [reflexivity|]. apply (Hin ref c' Href Ec).
Qed.

(** X19: [HeaterFanController.set_setpoint(s)] with [s] present leaves the
    heater control at [s] when the heater control and the fan control are
    different objects; when the same object was given for both, the offset
    step overwrites it and the heater control ends at
    [s + fan_setpoint_offset]. *)
Theorem heater_setpoint_and_aliasing (self : Controller.t)
    (h : Controller.HeaterAttributes) (f : Controller.FanAttributes)
    (w : Controller.World) (s : Q) :
  Controller.class self = Controller.HeaterFanController h f ->
  In (Controller.heater_control h) (Controller.controls self) ->
  In (Controller.fan_control f) (Controller.controls self) ->
  Controller.controls_valid self w ->
  exists w' c',
    Controller.set_setpoint self (Some s) w = Some (tt, w') /\
    nth_error (Controller.control_objects w') (Controller.heater_control h) =
      Some c' /\
    Py.opt_Qeq (Control.setpoint c')
      (Some (if Nat.eqb (Controller.heater_control h) (Controller.fan_control f)
             then s + Controller.fan_setpoint_offset f else s)).
Proof.
  intros Hclass Hheater Hfan Hvalid. unfold Controller.set_setpoint.
  rewrite Hclass.
  unfold Controller.HeaterFanController_set_setpoint, Controller.Controller_set_setpoint.
  assert (Hbound : forall ref, In ref (Controller.controls self) ->
            (ref < List.length (Controller.control_objects w))%nat).
  { unfold Controller.controls_valid in Hvalid.
    rewrite Forall_forall in Hvalid. exact Hvalid. }
  destruct (broadcast_setpoint (Some s) (Controller.controls self) w Hvalid)
    as (w1 & Hrun & Hlen & Hin & _).
  unfold Controller.bind at 1. rewrite Hrun.
  destruct (nth_error (Controller.control_objects w1) (Controller.fan_control f))
    as [cf|] eqn:Ef;
    [|apply nth_error_None in Ef; specialize (Hbound _ Hfan); lia].
  rewrite (control_set_setpoint_eq _ _ w1 cf Ef).
  destruct (Nat.eqb_spec (Controller.heater_control h) (Controller.fan_control f))
    as [Heq | Hneq].
  - eexists. eexists. split; [reflexivity|]. simpl. rewrite Heq. split.
    + apply nth_error_store_same. specialize (Hbound _ Hfan). lia.
    + apply set_setpoint_stores.
  - destruct (nth_error (Controller.control_objects w1) (Controller.heater_control h))
      as [ch|] eqn:Eh;
      [|apply nth_error_None in Eh; specialize (Hbound _ Hheater); lia].
    eexists. exists ch. split; [reflexivity|]. simpl. split.
    + rewrite nth_error_store_other by congruence. exact Eh.
    + apply (Hin _ ch Hheater Eh).
Qed.

Lemma reset_rearms (r : ControllerReporter.t) :
  ControllerReporter.enabled (fst (ControllerReporter.reset r)) = true /\
  ControllerReporter.next_report_index (fst (ControllerReporter.reset r)) = None /\
  ControllerReporter.start_time (fst (ControllerReporter.reset r)) = None.
Proof.
  unfold ControllerReporter.reset, ControllerReporter.close_report. simpl.
  destruct (ControllerReporter.class r); simpl; [|auto].
  destruct (ControllerReporter.file r) as [[name|]|]; simpl; auto.
Qed.

(** X20: [Controller.reset], with valid addresses, succeeds and leaves
    every owned control with its latch at [False] (also a control without a
    setpoint) and every resettable reporter enabled and not armed (no start
    time, no report index), so that the next sample starts a new session. *)
Theorem reset_clears_latches_and_rearms (self : Controller.t) (w : Controller.World) :
  Controller.controls_valid self w ->
  Controller.reporters_valid (Controller.resettable_reporters self) w ->
  exists w',
    Controller.reset self w = Some (tt, w') /\
    (forall ref, In ref (Controller.controls self) ->
       exists c',
         nth_error (Controller.control_objects w') ref = Some c' /\
         Control.setpoint_reached c' = Some false) /\
    (forall ref, In (Some ref) (Controller.resettable_reporters self) ->
       exists r',
         nth_error (Controller.reporter_objects w') ref = Some r' /\
         ControllerReporter.enabled r' = true /\
         ControllerReporter.next_report_index r' = None /\
         ControllerReporter.start_time r' = None).
Proof.
  intros Hc Hr. unfold Controller.reset, Controller.reset_reporters,
    Controller.reset_controls.
  destruct (on_reporters_all ControllerReporter.reset
              (fun r => ControllerReporter.enabled r = true /\
                        ControllerReporter.next_report_index r = None /\
                        ControllerReporter.start_time r = None)
              (Controller.resettable_reporters self) reset_rearms w Hr)
    as (w1 & Hrun1 & Hlen1 & Hin1 & _ & Hctl1 & _).
  unfold Controller.bind at 1. rewrite Hrun1.
  destruct (for_each_map_controls Control.reset_setpoint_reached
              (fun c => Control.setpoint_reached c = Some false)
              (Controller.controls self) (fun c => eq_refl) w1)
    as (w2 & Hrun2 & Hlen2 & Hin2 & _ & Hrep2 & _).
  { rewrite Hctl1. exact Hc. }
  exists w2. split; [exact Hrun2|]. split.
  - intros ref Href.
    assert (Hlt : (ref < List.length (Controller.control_objects w2))%nat).
    { rewrite Hlen2, Hctl1. unfold Controller.controls_valid in Hc.
      rewrite Forall_forall in Hc. apply Hc, Href. }
    destruct (nth_error (Controller.control_objects w2) ref) as [c'|] eqn:Ec;
      [|apply nth_error_None in Ec; lia].
    exists c'. split; [reflexivity|]. apply (Hin2 ref c' Href Ec).
  - intros ref Href. rewrite Hrep2.
    assert (Hlt : (ref < List.length (Controller.reporter_objects w1))%nat).
    { rewrite Hlen1. unfold Controller.reporters_valid in Hr.
      rewrite Forall_forall in Hr. apply (Hr (Some ref) Href). }
    destruct (nth_error (Controller.reporter_objects w1) ref) as [r'|] eqn:Er;
      [|apply nth_error_None in Er; lia].
    exists r'. split; [reflexivity|]. apply (Hin1 ref r' Href Er).
Qed.

(** All controls compute their effort in turn. *)
Lemma compute_efforts_all (pv : Q) (refs : list nat) :
  forall w : Controller.World,
  Forall (fun ref => (ref < List.length (Controller.control_objects w))%nat) refs ->
  exists efforts w',
    Controller.map_m
      (fun ref =>
         Controller.bind (Controller.get_control ref)
           (fun c =>
              let '(effort, c1) :=
                Control.compute_control_effort pid_call c (Some pv) in
              Controller.bind (Controller.put_control ref c1)
                (fun _ => Controller.ret effort))) refs w =
      Some (efforts, w') /\
    List.length efforts = List.length refs /\
    List.length (Controller.control_objects w') =
      List.length (Controller.control_objects w) /\
    Controller.reporter_objects w' = Controller.reporter_objects w /\
    Controller.log w' = Controller.log w /\
    Controller.clock_reads w' = Controller.clock_reads w.
Proof.
  set (f := fun ref : nat => _).
  induction refs as [|r refs IH]; intros w Hvalid.
  - exists [], w. simpl. repeat split; auto.
  - inversion Hvalid as [|? ? Hr Hrest]; subst.
    destruct (nth_error (Controller.control_objects w) r) as [c|] eqn:Ec;
      [|apply nth_error_None in Ec; lia].
    cbn [Controller.map_m]. unfold Controller.bind at 1.
    unfold f at 1. unfold Controller.bind at 1, Controller.get_control.
    rewrite Ec.
    destruct (Control.compute_control_effort pid_call c (Some pv)) as [e c1].
    unfold Controller.bind at 1, Controller.put_control.
    unfold Controller.ret at 1.
    set (w1 := Controller.mkWorld _ _ _ _).
    assert (Hlen1 : List.length (Controller.control_objects w1) =
                    List.length (Controller.control_objects w)).
    { subst w1. simpl. apply length_store. }
    destruct (IH w1) as (es & w' & Hrun & Hlen & Hobjs & Hrep & Hlog & Hclk).
    { rewrite Hlen1. exact Hrest. }
    unfold Controller.bind at 1. rewrite Hrun.
    exists (e :: es), w'. split; [reflexivity|].
    simpl. subst w1. simpl in *. repeat split; congruence.
Qed.

Lemma report_without_reporters (self : Controller.t) (pv : Q)
    (efforts : list (option Q)) (w : Controller.World) :
  Forall (eq None) (Controller.reporters self) ->
  Controller.report isoformat time_time self pv efforts w = Some (tt, w).
Proof.
  unfold Controller.report. generalize (Controller.reporters self).
  induction 1 as [|o l Ho _ IH]; [reflexivity|].
  subst o. cbn [Controller.for_each]. unfold Controller.bind at 1, Controller.ret.
  exact IH.
Qed.

(** X21: one tick of a controller without reporters (the constructors'
    default) on a present reading, with valid addresses: it succeeds,
    returns the reading with one effort per control, and commands the
    outputs in order, pairing output [i] with effort [i]: the number of
    [set_state] calls is the shorter of the two lengths, so a surplus output
    is never commanded and a surplus effort is never sent.  Reporters and
    clock are untouched. *)
Theorem update_commands_outputs (self : Controller.t) (pv : Q)
    (w : Controller.World) :
  Forall (eq None) (Controller.reporters self) ->
  Controller.controls_valid self w ->
  exists efforts w',
    Controller.update pid_call isoformat time_time self (Some pv) w =
      Some ((Some pv, efforts), w') /\
    List.length efforts = List.length (Controller.controls self) /\
    Controller.log w' =
      Controller.log w ++
      map (fun '(output, effort) => SetState output effort)
          (combine (Controller.outputs self) efforts) /\
    List.length (combine (Controller.outputs self) efforts) =
      Nat.min (List.length (Controller.outputs self))
              (List.length (Controller.controls self)) /\
    Controller.reporter_objects w' = Controller.reporter_objects w /\
    Controller.clock_reads w' = Controller.clock_reads w.
Proof.
  intros Hnone Hvalid.
  unfold Controller.update, Controller.compute_control_efforts.
  destruct (for_each_map_controls (fun c => Control.update c (Some pv))
              (fun _ => True) (Controller.controls self) (fun _ => I) w Hvalid)
    as (w1 & Hrun1 & Hlen1 & _ & _ & Hrep1 & Hlog1 & Hclk1).
  destruct (compute_efforts_all pv (Controller.controls self) w1)
    as (efforts & w2 & Hrun2 & Hlen & Hobjs2 & Hrep2 & Hlog2 & Hclk2).
  { rewrite Hlen1. exact Hvalid. }
  exists efforts.
  unfold Controller.bind at 1. unfold Controller.bind at 1. rewrite Hrun1.
  rewrite Hrun2.
  unfold Controller.bind at 1, Controller.emit.
  unfold Controller.bind at 1.
  rewrite (report_without_reporters self pv efforts _ Hnone).
  unfold Controller.ret. eexists. split; [reflexivity|].
  simpl. repeat split; try congruence.
  rewrite length_combine, Hlen. reflexivity.
Qed.

(** The constructor's loop that hands the effort names to the reporters. *)
Lemma name_reporters_all (names : list string) (l : list (option nat)) :
  forall w : Controller.World,
  Controller.reporters_valid l w ->
  exists w',
    Controller.for_each
      (fun reporter : option nat =>
         match reporter with
         | Some ref =>
             Controller.bind (Controller.get_reporter ref)
               (fun r => Controller.put_reporter ref
                           (ControllerReporter.with_control_efforts r names))
         | None => Controller.ret tt
         end) l w = Some (tt, w') /\
    List.length (Controller.reporter_objects w') =
      List.length (Controller.reporter_objects w) /\
    (forall ref r', In (Some ref) l ->
       nth_error (Controller.reporter_objects w') ref = Some r' ->
       ControllerReporter.control_efforts r' = names) /\
    (forall ref, ~ In (Some ref) l ->
       nth_error (Controller.reporter_objects w') ref =
       nth_error (Controller.reporter_objects w) ref) /\
    Controller.control_objects w' = Controller.control_objects w /\
    Controller.log w' = Controller.log w.
Proof.
  unfold Controller.reporters_valid.
  induction l as [|o l IH]; intros w Hvalid.
  - exists w. simpl. repeat split; auto. intros ref r' [].
  - inversion Hvalid as [|? ? Ho Hrest]; subst.
    cbn [Controller.for_each]. unfold Controller.bind at 1.
    destruct o as [r|].
    + destruct (nth_error (Controller.reporter_objects w) r) as [x|] eqn:Ex;
        [|apply nth_error_None in Ex; lia].
      unfold Controller.bind at 1, Controller.get_reporter. rewrite Ex.
      unfold Controller.put_reporter.
      set (w1 := Controller.mkWorld _ _ _ _).
      assert (Hlen1 : List.length (Controller.reporter_objects w1) =
                      List.length (Controller.reporter_objects w)).
      { subst w1. simpl. apply length_store. }
      destruct (IH w1) as (w' & Hrun & Hlen & Hin & Hout & Hctl & Hlog).
      { rewrite Hlen1. exact Hrest. }
      exists w'. split; [exact Hrun|]. split; [congruence|]. split; [|split].
      * intros ref r' Href Hr'.
        destruct (in_dec option_nat_eq_dec (Some ref) l) as [Hi | Hni].
        -- apply (Hin ref r' Hi Hr').
        -- destruct Href as [Heq | Href]; [|contradiction].
           injection Heq as <-.
           rewrite (Hout r Hni) in Hr'. subst w1. simpl in Hr'.
           rewrite nth_error_store_same in Hr' by exact Ho.
           injection Hr' as <-. reflexivity.
      * intros ref Hni. rewrite Hout by (intro; apply Hni; right; assumption).
        subst w1. simpl. apply nth_error_store_other.
        intro Heq; apply Hni; left; congruence.
      * subst w1. simpl in *. auto.
    + destruct (IH w Hrest) as (w' & Hrun & Hlen & Hin & Hout & Hctl & Hlog).
      unfold Controller.ret. exists w'. split; [exact Hrun|].
      split; [exact Hlen|]. split; [|split].
      * intros ref r' [Heq | Href] Hr'; [discriminate | eauto].
      * intros ref Hni. apply Hout. intro; apply Hni; right; assumption.
      * auto.
Qed.

(** X23: [HeaterFanController.__init__], given valid reporter addresses (or
    none), succeeds; the controller lists the heater control and output
    first, the fan control and output second and the additional ones after
    them; every reporter it was given is handed exactly the two effort names
    [Heater PWM Duty] and [Fan PWM Duty], however many additional controls
    there are; and no control is touched and nothing is written. *)
Theorem heater_fan_controller_construction (h : Controller.HeaterAttributes)
    (f : Controller.FanAttributes) (additional_controls additional_outputs : list nat)
    (w : Controller.World) :
  Controller.reporters_valid
    [Controller.file_reporter h; Controller.print_reporter h] w ->
  exists self w',
    Controller.HeaterFanController_init h f additional_controls additional_outputs w =
      Some (self, w') /\
    Controller.class self = Controller.HeaterFanController h f /\
    Controller.controls self =
      Controller.heater_control h :: Controller.fan_control f :: additional_controls /\
    Controller.outputs self =
      Controller.heater h :: Controller.fan f :: additional_outputs /\
    Controller.reporters self =
      [Controller.file_reporter h; Controller.print_reporter h] /\
    (forall ref r',
       In (Some ref) [Controller.file_reporter h; Controller.print_reporter h] ->
       nth_error (Controller.reporter_objects w') ref = Some r' ->
       ControllerReporter.control_efforts r' =
         ["Heater PWM Duty"%string; "Fan PWM Duty"%string]) /\
    Controller.control_objects w' = Controller.control_objects w /\
    Controller.log w' = Controller.log w.
Proof.
  intro Hvalid.
  unfold Controller.HeaterFanController_init, Controller.HeaterController_init_as,
    Controller.Controller_init.
  cbn [Controller.output_effort_names].
  destruct (name_reporters_all ["Heater PWM Duty"%string; "Fan PWM Duty"%string]
              [Controller.file_reporter h; Controller.print_reporter h] w Hvalid)
    as (w' & Hrun & _ & Hin & _ & Hctl & Hlog).
  unfold Controller.bind at 1. rewrite Hrun. unfold Controller.ret.
  eexists. exists w'. split; [reflexivity|]. simpl. repeat split; auto.
Qed.

End ControllerBehaviour.

(** * Further worked instances *)

Section FurtherInstances.

Local Open Scope Q_scope.

(** The heater of the examples: full effort at 85 degrees, none at 95. *)
Lemma bang_bang_direction_witness :
  fst (Control.compute_control_effort Examples.clamped_delegate Examples.bang_bang
         (Some 85)) = Some 1 /\
  fst (Control.compute_control_effort Examples.clamped_delegate Examples.bang_bang
         (Some 95)) = Some 0.
Proof.
  split.
  - refine (proj1 (proj1 (bang_bang_direction Examples.clamped_delegate
                            Examples.bang_bang 90 85 eq_refl eq_refl eq_refl)
                     eq_refl) _).
    reflexivity.
  - refine (proj2 (proj1 (bang_bang_direction Examples.clamped_delegate
                            Examples.bang_bang 90 95 eq_refl eq_refl eq_refl)
                     eq_refl) _).
    simpl. lra.
Defined.

(** The specification's scenario: gain 0.1, setpoint 90, measurement 85. *)
Lemma proportional_effort_saturates_witness :
  exists e,
    fst (Control.compute_control_effort Examples.clamped_delegate
           Examples.proportional (Some 85)) = Some e /\
    e == 1 # 2.
Proof.
  assert (Hle : Control.min_output Examples.proportional <=
                Control.max_output Examples.proportional) by (simpl; lra).
  destruct (proportional_effort_saturates Examples.clamped_delegate
              Examples.proportional (1 # 10) 90 85 eq_refl eq_refl eq_refl Hle)
    as (e & He & _ & Hmid & _).
  exists e. split; [exact He|].
  rewrite Hmid; [reflexivity | simpl; lra].
Defined.

(** With epsilon 0 even measurements exactly at the setpoint do not latch. *)
Lemma no_epsilon_never_reached_witness :
  Control.setpoint_reached
    (Control.run Examples.clamped_delegate Examples.default_epsilon
       [Control.OpUpdate (Some 90); Control.OpSetSetpoint (Some 90);
        Control.OpUpdate (Some 90)]) <> Some true.
Proof.
  apply (no_epsilon_never_reached Examples.clamped_delegate).
  - simpl. lra.
  - discriminate.
Defined.

Lemma clearing_setpoint_spares_delegate_witness :
  Control.law (fst (Control.set_setpoint Examples.pid None)) =
    Control.PIDControl (Control.PID_new 2 0 0 (Some 90) (0, 1)) /\
  Control.setpoint (fst (Control.set_setpoint Examples.pid None)) = None /\
  Control.compute_control_effort Examples.clamped_delegate
    (fst (Control.set_setpoint Examples.pid None)) (Some 85) =
    (Some 0, fst (Control.set_setpoint Examples.pid None)).
Proof.
  exact (clearing_setpoint_spares_delegate Examples.clamped_delegate Examples.pid
           (Control.PID_new 2 0 0 (Some 90) (0, 1)) 85 eq_refl).
Defined.

Lemma header_once_before_records_witness :
  exists r' evss,
    ControllerReporter.updates Examples.isoformat Examples.slow_reporter
      [Examples.sample 0; Examples.sample (19 # 10); Examples.sample 2] =
      Some (r', evss) /\
    (List.concat evss = [] \/
     exists t line recs,
       List.concat evss =
         ControllerReporter.session_opening Examples.isoformat
           Examples.slow_reporter t ++
         WriteHeader (ControllerReporter.session_sink Examples.isoformat
                        Examples.slow_reporter t)
           (ControllerReporter.header_string Examples.slow_reporter)
         :: WriteRecord (ControllerReporter.session_sink Examples.isoformat
                           Examples.slow_reporter t) t line
         :: recs /\
       Forall (ControllerReporter.is_record_to
                 (ControllerReporter.session_sink Examples.isoformat
                    Examples.slow_reporter t)) recs).
Proof.
  exact (header_once_before_records Examples.isoformat
           [Examples.sample 0; Examples.sample (19 # 10); Examples.sample 2]
           Examples.slow_reporter eq_refl).
Defined.

Lemma index_counts_records_witness :
  exists r' evss,
    ControllerReporter.updates Examples.isoformat Examples.slow_reporter
      [Examples.sample 0; Examples.sample (19 # 10); Examples.sample 2] =
      Some (r', evss) /\
    ((ControllerReporter.record_times (List.concat evss) = [] /\
      r' = Examples.slow_reporter) \/
     (ControllerReporter.next_report_index r' =
        Some (Z.of_nat (List.length
                          (ControllerReporter.record_times (List.concat evss)))) /\
      ControllerReporter.start_time r' =
        nth_error (ControllerReporter.record_times (List.concat evss)) 0)).
Proof.
  exact (index_counts_records Examples.isoformat
           [Examples.sample 0; Examples.sample (19 # 10); Examples.sample 2]
           Examples.slow_reporter eq_refl).
Defined.

(** A disabled reporter in mid-session: enabled, fed and disabled again. *)
Lemma session_writes_only_records_witness :
  exists r' evs,
    ControllerReporter.run Examples.isoformat Examples.mid_session
      Examples.session_ops = Some (r', evs) /\
    Forall (ControllerReporter.is_record_to (FileSink "run_10.csv")) evs /\
    ControllerReporter.next_report_index r' =
      Some (3 + Z.of_nat (List.length evs))%Z /\
    ControllerReporter.start_time r' = Some 10 /\
    ControllerReporter.file r' = Some (FileSink "run_10.csv").
Proof.
  exact (session_writes_only_records Examples.isoformat Examples.session_ops
           Examples.mid_session 3%Z 10 (FileSink "run_10.csv")
           eq_refl eq_refl eq_refl).
Defined.

Lemma world_controls_valid :
  Controller.controls_valid Examples.heater_fan Examples.world.
Proof. unfold Controller.controls_valid. simpl. repeat constructor. Qed.

Lemma world_reporters_valid :
  Controller.reporters_valid [Some 0%nat; Some 1%nat] Examples.world.
Proof. unfold Controller.reporters_valid. simpl. repeat constructor. Qed.

Lemma set_setpoint_reaches_every_control_witness :
  exists w',
    Controller.Controller_set_setpoint Examples.heater_fan (Some 70) Examples.world =
      Some (tt, w') /\
    (forall ref, In ref [0%nat; 1%nat] ->
       exists c',
         nth_error (Controller.control_objects w') ref = Some c' /\
         Py.opt_Qeq (Control.setpoint c') (Some 70)) /\
    (forall ref, ~ In ref [0%nat; 1%nat] ->
       nth_error (Controller.control_objects w') ref =
       nth_error (Controller.control_objects Examples.world) ref).
Proof.
  exact (set_setpoint_reaches_every_control Examples.heater_fan (Some 70)
           Examples.world world_controls_valid).
Defined.

(** The same control object given as heater control and as fan control: the
    heater ends at 85, not at 90. *)
Lemma heater_setpoint_and_aliasing_witness :
  exists w' c',
    Controller.set_setpoint Examples.heater_fan_shared (Some 90) Examples.world =
      Some (tt, w') /\
    nth_error (Controller.control_objects w') 0 = Some c' /\
    Py.opt_Qeq (Control.setpoint c') (Some (90 + -5)).
Proof.
  assert (Hvalid : Controller.controls_valid Examples.heater_fan_shared
                     Examples.world).
  { unfold Controller.controls_valid. simpl. repeat constructor. }
  assert (Hin : In 0%nat (Controller.controls Examples.heater_fan_shared)).
  { simpl. auto. }
  exact (heater_setpoint_and_aliasing Examples.heater_fan_shared
           Examples.heater_attributes Examples.shared_fan_attributes
           Examples.world 90 eq_refl Hin Hin Hvalid).
Defined.

Lemma reset_clears_latches_and_rearms_witness :
  exists w',
    Controller.reset Examples.heater_fan Examples.world = Some (tt, w') /\
    (forall ref, In ref [0%nat; 1%nat] ->
       exists c',
         nth_error (Controller.control_objects w') ref = Some c' /\
         Control.setpoint_reached c' = Some false) /\
    (forall ref, In (Some ref) [Some 0%nat; Some 1%nat] ->
       exists r',
         nth_error (Controller.reporter_objects w') ref = Some r' /\
         ControllerReporter.enabled r' = true /\
         ControllerReporter.next_report_index r' = None /\
         ControllerReporter.start_time r' = None).
Proof.
  exact (reset_clears_latches_and_rearms Examples.heater_fan Examples.world
           world_controls_valid world_reporters_valid).
Defined.

(** One control, two outputs: only the first output is commanded. *)
Lemma update_commands_outputs_witness :
  exists efforts w',
    Controller.update Examples.clamped_delegate Examples.isoformat
      Examples.wall_clock Examples.heater_only (Some 85) Examples.world =
      Some ((Some 85, efforts), w') /\
    List.length efforts = 1%nat /\
    Controller.log w' =
      Controller.log Examples.world ++
      map (fun '(output, effort) => SetState output effort)
          (combine [0%nat; 5%nat] efforts) /\
    List.length (combine [0%nat; 5%nat] efforts) = Nat.min 2 1 /\
    Controller.reporter_objects w' = Controller.reporter_objects Examples.world /\
    Controller.clock_reads w' = Controller.clock_reads Examples.world.
Proof.
  assert (Hvalid : Controller.controls_valid Examples.heater_only Examples.world).
  { unfold Controller.controls_valid. simpl. repeat constructor. }
  assert (Hnone : Forall (eq None) (Controller.reporters Examples.heater_only)).
  { simpl. repeat constructor. }
  exact (update_commands_outputs Examples.clamped_delegate Examples.isoformat
           Examples.wall_clock Examples.heater_only 85 Examples.world Hnone Hvalid).
Defined.

Lemma heater_fan_controller_construction_witness :
  exists self w',
    Controller.HeaterFanController_init Examples.heater_attributes
      Examples.fan_attributes [] [] Examples.world = Some (self, w') /\
    Controller.class self =
      Controller.HeaterFanController Examples.heater_attributes
        Examples.fan_attributes /\
    Controller.controls self = [0%nat; 1%nat] /\
    Controller.outputs self = [0%nat; 1%nat] /\
    Controller.reporters self = [Some 0%nat; Some 1%nat] /\
    (forall ref r',
       In (Some ref) [Some 0%nat; Some 1%nat] ->
       nth_error (Controller.reporter_objects w') ref = Some r' ->
       ControllerReporter.control_efforts r' =
         ["Heater PWM Duty"%string; "Fan PWM Duty"%string]) /\
    Controller.control_objects w' = Controller.control_objects Examples.world /\
    Controller.log w' = Controller.log Examples.world.
Proof.
  exact (heater_fan_controller_construction Examples.heater_attributes
           Examples.fan_attributes [] [] Examples.world world_reporters_valid).
Defined.

End FurtherInstances.

Section FurtherThermistorInstances.

Local Open Scope R_scope.

Lemma scenario_divider_valid : 0 < 1000 - 400.
Proof. Lra.lra. Qed.

Lemma celsius_is_kelvin_minus_offset_witness :
  exists T_Kelvin,
    fst (Thermistor.read Examples.thermistor "K" 1000 400) =
      Thermistor.Value (Some T_Kelvin) /\
    fst (Thermistor.read Examples.thermistor "C" 1000 400) =
      Thermistor.Value (Some (T_Kelvin - 273.15)).
Proof.
  exact (celsius_is_kelvin_minus_offset Examples.thermistor 1000 400
           scenario_divider_valid).
Defined.

Lemma fahrenheit_is_unknown : "F"%string <> "K"%string /\ "F"%string <> "C"%string.
Proof. split; discriminate. Qed.

(** Fahrenheit is not a unit the thermistor knows. *)
Lemma unknown_unit_needs_valid_divider_witness :
  fst (Thermistor.read Examples.thermistor "F" 400 1000) = Thermistor.Value None /\
  fst (Thermistor.read Examples.thermistor "F" 1000 400) =
    Thermistor.ValueError "Unknown temperature unit: F".
Proof.
  split.
  - apply (proj1 (unknown_unit_needs_valid_divider Examples.thermistor "F" 400 1000)).
    Lra.lra.
  - exact (proj2 (unknown_unit_needs_valid_divider Examples.thermistor "F" 1000 400)
             scenario_divider_valid (proj1 fahrenheit_is_unknown)
             (proj2 fahrenheit_is_unknown)).
Defined.

Lemma resistance_positive_and_increasing_witness :
  exists r1 r2,
    fst (Thermistor.read_resistance Examples.thermistor 1000 400) = Some r1 /\
    fst (Thermistor.read_resistance Examples.thermistor 1000 500) = Some r2 /\
    0 < r1 /\ r1 < r2.
Proof.
  apply (resistance_positive_and_increasing Examples.thermistor 1000 400 500);
    simpl; Lra.lra.
Defined.

(** At the scenario's resistance (above one ohm) the Steinhart-Hart
    denominator is positive. *)
Lemma scenario_denominator_positive :
  0 < Thermistor.A Examples.thermistor
      + Thermistor.B Examples.thermistor
        * ln (400 * Thermistor.bias_resistance Examples.thermistor / (1000 - 400))
      + Thermistor.C Examples.thermistor
        * (ln (400 * Thermistor.bias_resistance Examples.thermistor / (1000 - 400))) ^ 3.
Proof.
  simpl Thermistor.A. simpl Thermistor.B. simpl Thermistor.C.
  simpl Thermistor.bias_resistance.
  assert (Hln : 0 < ln (400 * 1960 / (1000 - 400))).
  { rewrite <- ln_1. apply ln_increasing; Lra.lra. }
  assert (Hcube : 0 < ln (400 * 1960 / (1000 - 400)) ^ 3) by (apply pow_lt, Hln).
  assert (HB : 0 < 2.2717988e-4 * ln (400 * 1960 / (1000 - 400)))
    by (apply Rmult_lt_0_compat; [Lra.lra | exact Hln]).
  assert (HC : 0 < 3.008424e-7 * ln (400 * 1960 / (1000 - 400)) ^ 3)
    by (apply Rmult_lt_0_compat; [Lra.lra | exact Hcube]).
  Lra.lra.
Qed.

Lemma temperature_falls_with_sensed_reading_witness :
  exists T1 T2,
    fst (Thermistor.read Examples.thermistor "C" 1000 400) =
      Thermistor.Value (Some T1) /\
    fst (Thermistor.read Examples.thermistor "C" 1000 500) =
      Thermistor.Value (Some T2) /\
    T2 < T1.
Proof.
  apply (temperature_falls_with_sensed_reading Examples.thermistor 1000 400 500);
    try (simpl; Lra.lra).
  exact scenario_denominator_positive.
Defined.

End FurtherThermistorInstances.
